(** * Glossy flooding engine (arch/cpu/cc430/glossy.c): a shallow embedding

    The per-node Glossy state machine of [glossy.c] is embedded as functions
    over the global state [g] in a small state-and-trace monad.  Fixed-width
    C integers are values of [Z] with their wrap-around written out, the radio
    and timer drivers appear as a trace of the commands issued to them, and
    everything the code reads from the hardware (timestamps, RSSI, the busy
    flag) is an explicit argument. *)

From Stdlib Require Import ZArith List Bool Lia.
Import ListNotations.
Local Open Scope Z_scope.

(** ** Fixed-width integers *)

Definition u8 (z : Z) : Z := z mod 256.
Definition u16 (z : Z) : Z := z mod 65536.
Definition u32 (z : Z) : Z := z mod 4294967296.
Definition i8 (z : Z) : Z := (z + 128) mod 256 - 128.
Definition i16 (z : Z) : Z := (z + 32768) mod 65536 - 32768.

(** C truth value of an integer. *)
Definition truthy (z : Z) : bool := negb (z =? 0).

(** [n] bytes of a buffer starting at offset [off]; the model holds no
    memory beyond the end of the list and reads 0 there. *)
Definition read_bytes (buf : list Z) (off n : Z) : list Z :=
  map (fun i => nth i buf 0) (seq (Z.to_nat off) (Z.to_nat n)).

(** [memcpy(dst, src, n)] on buffers held as lists: the first [n] bytes of
    [dst] are replaced, the rest is kept. *)
Definition memcpy (dst src : list Z) (n : Z) : list Z :=
  read_bytes src 0 n ++ skipn (Z.to_nat n) dst.

(** ** Platform constants

    [glossy.h], [rf1a.h], [rtimer-ext.h] and [node-id.h] are not part of the
    sources at hand; the constants, compile-time switches and conversion
    macros that [glossy.c] takes from them are the fields of this record. *)

Record platform_t := {
  node_id : Z;
  GLOSSY_CONF_HEADER_BYTE : Z;
  GLOSSY_CONF_PAYLOAD_LEN : Z;
  GLOSSY_MAX_HEADER_LEN : Z;
  GLOSSY_UNKNOWN_N_TX_MAX : Z;
  GLOSSY_UNKNOWN_PAYLOAD_LEN : Z;
  GLOSSY_CONF_ALWAYS_RELAY_CNT : bool;
  GLOSSY_CONF_COLLECT_STATS : bool;
  GLOSSY_CONF_RETRANSMISSION_TIMEOUT : bool;
  GLOSSY_CONF_ALWAYS_SAMPLE_NOISE : bool;
  (* width in bits of rtimer_ext_clock_t *)
  RTIMER_EXT_CLOCK_BITS : Z;
  (* radio timing constants, in ns *)
  TAU1 : Z;
  T2R : Z;
  T_TX_BYTE : Z;
  T_TX_OFFSET : Z;
  NS_TO_RTIMER_EXT_HF : Z -> Z;
  NS_TO_RTIMER_EXT_HF_32 : Z -> Z;
  RTIMER_EXT_HF_LF_RATIO : Z
}.

(** ** Constants of glossy.c *)

Definition SLOT_TIMEOUT_MIN : Z := 2.
Definition SLOT_TIMEOUT_MAX : Z := 2.
Definition TIMEOUT_EXTRA_TICKS : Z := 70.
Definition T_SLOT_TOLERANCE : Z := 10.

Definition GLOSSY_HEADER_BYTE_MASK : Z := 0xe0.
Definition GLOSSY_HEADER_SYNC_MASK : Z := 0x10.
Definition GLOSSY_HEADER_N_TX_MASK : Z := 0x0f.

Definition GET_COMMON_HEADER (pkt_type : Z) : Z :=
  Z.land pkt_type GLOSSY_HEADER_BYTE_MASK.
Definition GET_SYNC (pkt_type : Z) : Z :=
  Z.land pkt_type GLOSSY_HEADER_SYNC_MASK.
Definition GET_N_TX_MAX (pkt_type : Z) : Z :=
  Z.land pkt_type GLOSSY_HEADER_N_TX_MASK.

(** ** Data model *)

Record glossy_header_t := {
  pkt_type : Z;                (* uint8_t *)
  relay_cnt : Z                (* uint8_t *)
}.

Record glossy_stats_t := {
  last_flood_relay_cnt : Z;    (* uint8_t *)
  last_flood_rssi_noise : Z;   (* int8_t *)
  last_flood_rssi_sum : Z;     (* int16_t *)
  last_flood_n_rx_started : Z; (* uint8_t *)
  last_flood_n_rx_fail : Z;    (* uint8_t *)
  already_counted : Z;         (* uint8_t *)
  last_flood_duration : Z;     (* rtimer_ext_clock_t *)
  last_flood_t_to_rx : Z;      (* rtimer_ext_clock_t *)
  pkt_cnt : Z;                 (* uint32_t *)
  pkt_cnt_crcok : Z;           (* uint32_t *)
  flood_cnt : Z;               (* uint32_t *)
  flood_cnt_success : Z;       (* uint32_t *)
  error_cnt : Z                (* uint16_t *)
}.

(** The global [g].  [payload] is the caller's buffer the pointer
    [g.payload] refers to, held by value. *)
Record glossy_state_t := {
  t_ref : Z;                   (* rtimer_ext_clock_t *)
  t_tx_stop : Z;
  t_rx_start : Z;
  t_rx_stop : Z;
  t_tx_start : Z;
  T_slot_sum : Z;              (* rtimer_ext_clock_t *)
  t_timeout : Z;               (* rtimer_ext_clock_t *)
  T_slot_estimated : Z;        (* uint32_t *)
  header : glossy_header_t;
  initiator_id : Z;            (* uint16_t *)
  payload : list Z;            (* uint8_t* *)
  payload_len : Z;             (* uint8_t *)
  n_T_slot : Z;                (* uint8_t *)
  active : Z;                  (* uint8_t *)
  t_ref_updated : Z;           (* uint8_t *)
  header_ok : Z;               (* uint8_t *)
  relay_cnt_last_rx : Z;       (* uint8_t *)
  relay_cnt_last_tx : Z;       (* uint8_t *)
  relay_cnt_t_ref : Z;         (* uint8_t *)
  relay_cnt_timeout : Z;       (* uint8_t *)
  n_rx : Z;                    (* uint8_t *)
  n_tx : Z;                    (* uint8_t *)
  stats : glossy_stats_t
}.

(** Field assignment. *)

Definition set_pkt_type (v : Z) (h : glossy_header_t) : glossy_header_t :=
  Build_glossy_header_t v (relay_cnt h).
Definition set_relay_cnt (v : Z) (h : glossy_header_t) : glossy_header_t :=
  Build_glossy_header_t (pkt_type h) v.

Definition set_last_flood_relay_cnt (v : Z) (s : glossy_stats_t) : glossy_stats_t :=
  Build_glossy_stats_t v (last_flood_rssi_noise s) (last_flood_rssi_sum s)
    (last_flood_n_rx_started s) (last_flood_n_rx_fail s) (already_counted s)
    (last_flood_duration s) (last_flood_t_to_rx s) (pkt_cnt s)
    (pkt_cnt_crcok s) (flood_cnt s) (flood_cnt_success s) (error_cnt s).
Definition set_last_flood_rssi_noise (v : Z) (s : glossy_stats_t) : glossy_stats_t :=
  Build_glossy_stats_t (last_flood_relay_cnt s) v (last_flood_rssi_sum s)
    (last_flood_n_rx_started s) (last_flood_n_rx_fail s) (already_counted s)
    (last_flood_duration s) (last_flood_t_to_rx s) (pkt_cnt s)
    (pkt_cnt_crcok s) (flood_cnt s) (flood_cnt_success s) (error_cnt s).
Definition set_last_flood_rssi_sum (v : Z) (s : glossy_stats_t) : glossy_stats_t :=
  Build_glossy_stats_t (last_flood_relay_cnt s) (last_flood_rssi_noise s) v
    (last_flood_n_rx_started s) (last_flood_n_rx_fail s) (already_counted s)
    (last_flood_duration s) (last_flood_t_to_rx s) (pkt_cnt s)
    (pkt_cnt_crcok s) (flood_cnt s) (flood_cnt_success s) (error_cnt s).
Definition set_last_flood_n_rx_started (v : Z) (s : glossy_stats_t) : glossy_stats_t :=
  Build_glossy_stats_t (last_flood_relay_cnt s) (last_flood_rssi_noise s)
    (last_flood_rssi_sum s) v (last_flood_n_rx_fail s) (already_counted s)
    (last_flood_duration s) (last_flood_t_to_rx s) (pkt_cnt s)
    (pkt_cnt_crcok s) (flood_cnt s) (flood_cnt_success s) (error_cnt s).
Definition set_last_flood_n_rx_fail (v : Z) (s : glossy_stats_t) : glossy_stats_t :=
  Build_glossy_stats_t (last_flood_relay_cnt s) (last_flood_rssi_noise s)
    (last_flood_rssi_sum s) (last_flood_n_rx_started s) v (already_counted
    s) (last_flood_duration s) (last_flood_t_to_rx s) (pkt_cnt s)
    (pkt_cnt_crcok s) (flood_cnt s) (flood_cnt_success s) (error_cnt s).
Definition set_already_counted (v : Z) (s : glossy_stats_t) : glossy_stats_t :=
  Build_glossy_stats_t (last_flood_relay_cnt s) (last_flood_rssi_noise s)
    (last_flood_rssi_sum s) (last_flood_n_rx_started s)
    (last_flood_n_rx_fail s) v (last_flood_duration s) (last_flood_t_to_rx
    s) (pkt_cnt s) (pkt_cnt_crcok s) (flood_cnt s) (flood_cnt_success s)
    (error_cnt s).
Definition set_last_flood_duration (v : Z) (s : glossy_stats_t) : glossy_stats_t :=
  Build_glossy_stats_t (last_flood_relay_cnt s) (last_flood_rssi_noise s)
    (last_flood_rssi_sum s) (last_flood_n_rx_started s)
    (last_flood_n_rx_fail s) (already_counted s) v (last_flood_t_to_rx s)
    (pkt_cnt s) (pkt_cnt_crcok s) (flood_cnt s) (flood_cnt_success s)
    (error_cnt s).
Definition set_last_flood_t_to_rx (v : Z) (s : glossy_stats_t) : glossy_stats_t :=
  Build_glossy_stats_t (last_flood_relay_cnt s) (last_flood_rssi_noise s)
    (last_flood_rssi_sum s) (last_flood_n_rx_started s)
    (last_flood_n_rx_fail s) (already_counted s) (last_flood_duration s) v
    (pkt_cnt s) (pkt_cnt_crcok s) (flood_cnt s) (flood_cnt_success s)
    (error_cnt s).
Definition set_pkt_cnt (v : Z) (s : glossy_stats_t) : glossy_stats_t :=
  Build_glossy_stats_t (last_flood_relay_cnt s) (last_flood_rssi_noise s)
    (last_flood_rssi_sum s) (last_flood_n_rx_started s)
    (last_flood_n_rx_fail s) (already_counted s) (last_flood_duration s)
    (last_flood_t_to_rx s) v (pkt_cnt_crcok s) (flood_cnt s)
    (flood_cnt_success s) (error_cnt s).
Definition set_pkt_cnt_crcok (v : Z) (s : glossy_stats_t) : glossy_stats_t :=
  Build_glossy_stats_t (last_flood_relay_cnt s) (last_flood_rssi_noise s)
    (last_flood_rssi_sum s) (last_flood_n_rx_started s)
    (last_flood_n_rx_fail s) (already_counted s) (last_flood_duration s)
    (last_flood_t_to_rx s) (pkt_cnt s) v (flood_cnt s) (flood_cnt_success s)
    (error_cnt s).
Definition set_flood_cnt (v : Z) (s : glossy_stats_t) : glossy_stats_t :=
  Build_glossy_stats_t (last_flood_relay_cnt s) (last_flood_rssi_noise s)
    (last_flood_rssi_sum s) (last_flood_n_rx_started s)
    (last_flood_n_rx_fail s) (already_counted s) (last_flood_duration s)
    (last_flood_t_to_rx s) (pkt_cnt s) (pkt_cnt_crcok s) v
    (flood_cnt_success s) (error_cnt s).
Definition set_flood_cnt_success (v : Z) (s : glossy_stats_t) : glossy_stats_t :=
  Build_glossy_stats_t (last_flood_relay_cnt s) (last_flood_rssi_noise s)
    (last_flood_rssi_sum s) (last_flood_n_rx_started s)
    (last_flood_n_rx_fail s) (already_counted s) (last_flood_duration s)
    (last_flood_t_to_rx s) (pkt_cnt s) (pkt_cnt_crcok s) (flood_cnt s) v
    (error_cnt s).
Definition set_error_cnt (v : Z) (s : glossy_stats_t) : glossy_stats_t :=
  Build_glossy_stats_t (last_flood_relay_cnt s) (last_flood_rssi_noise s)
    (last_flood_rssi_sum s) (last_flood_n_rx_started s)
    (last_flood_n_rx_fail s) (already_counted s) (last_flood_duration s)
    (last_flood_t_to_rx s) (pkt_cnt s) (pkt_cnt_crcok s) (flood_cnt s)
    (flood_cnt_success s) v.

Definition set_t_ref (v : Z) (g : glossy_state_t) : glossy_state_t :=
  Build_glossy_state_t v (t_tx_stop g) (t_rx_start g) (t_rx_stop g)
    (t_tx_start g) (T_slot_sum g) (t_timeout g) (T_slot_estimated g) (header
    g) (initiator_id g) (payload g) (payload_len g) (n_T_slot g) (active g)
    (t_ref_updated g) (header_ok g) (relay_cnt_last_rx g) (relay_cnt_last_tx
    g) (relay_cnt_t_ref g) (relay_cnt_timeout g) (n_rx g) (n_tx g) (stats
    g).
Definition set_t_tx_stop (v : Z) (g : glossy_state_t) : glossy_state_t :=
  Build_glossy_state_t (t_ref g) v (t_rx_start g) (t_rx_stop g) (t_tx_start
    g) (T_slot_sum g) (t_timeout g) (T_slot_estimated g) (header g)
    (initiator_id g) (payload g) (payload_len g) (n_T_slot g) (active g)
    (t_ref_updated g) (header_ok g) (relay_cnt_last_rx g) (relay_cnt_last_tx
    g) (relay_cnt_t_ref g) (relay_cnt_timeout g) (n_rx g) (n_tx g) (stats
    g).
Definition set_t_rx_start (v : Z) (g : glossy_state_t) : glossy_state_t :=
  Build_glossy_state_t (t_ref g) (t_tx_stop g) v (t_rx_stop g) (t_tx_start
    g) (T_slot_sum g) (t_timeout g) (T_slot_estimated g) (header g)
    (initiator_id g) (payload g) (payload_len g) (n_T_slot g) (active g)
    (t_ref_updated g) (header_ok g) (relay_cnt_last_rx g) (relay_cnt_last_tx
    g) (relay_cnt_t_ref g) (relay_cnt_timeout g) (n_rx g) (n_tx g) (stats
    g).
Definition set_t_rx_stop (v : Z) (g : glossy_state_t) : glossy_state_t :=
  Build_glossy_state_t (t_ref g) (t_tx_stop g) (t_rx_start g) v (t_tx_start
    g) (T_slot_sum g) (t_timeout g) (T_slot_estimated g) (header g)
    (initiator_id g) (payload g) (payload_len g) (n_T_slot g) (active g)
    (t_ref_updated g) (header_ok g) (relay_cnt_last_rx g) (relay_cnt_last_tx
    g) (relay_cnt_t_ref g) (relay_cnt_timeout g) (n_rx g) (n_tx g) (stats
    g).
Definition set_t_tx_start (v : Z) (g : glossy_state_t) : glossy_state_t :=
  Build_glossy_state_t (t_ref g) (t_tx_stop g) (t_rx_start g) (t_rx_stop g)
    v (T_slot_sum g) (t_timeout g) (T_slot_estimated g) (header g)
    (initiator_id g) (payload g) (payload_len g) (n_T_slot g) (active g)
    (t_ref_updated g) (header_ok g) (relay_cnt_last_rx g) (relay_cnt_last_tx
    g) (relay_cnt_t_ref g) (relay_cnt_timeout g) (n_rx g) (n_tx g) (stats
    g).
Definition set_T_slot_sum (v : Z) (g : glossy_state_t) : glossy_state_t :=
  Build_glossy_state_t (t_ref g) (t_tx_stop g) (t_rx_start g) (t_rx_stop g)
    (t_tx_start g) v (t_timeout g) (T_slot_estimated g) (header g)
    (initiator_id g) (payload g) (payload_len g) (n_T_slot g) (active g)
    (t_ref_updated g) (header_ok g) (relay_cnt_last_rx g) (relay_cnt_last_tx
    g) (relay_cnt_t_ref g) (relay_cnt_timeout g) (n_rx g) (n_tx g) (stats
    g).
Definition set_t_timeout (v : Z) (g : glossy_state_t) : glossy_state_t :=
  Build_glossy_state_t (t_ref g) (t_tx_stop g) (t_rx_start g) (t_rx_stop g)
    (t_tx_start g) (T_slot_sum g) v (T_slot_estimated g) (header g)
    (initiator_id g) (payload g) (payload_len g) (n_T_slot g) (active g)
    (t_ref_updated g) (header_ok g) (relay_cnt_last_rx g) (relay_cnt_last_tx
    g) (relay_cnt_t_ref g) (relay_cnt_timeout g) (n_rx g) (n_tx g) (stats
    g).
Definition set_T_slot_estimated (v : Z) (g : glossy_state_t) : glossy_state_t :=
  Build_glossy_state_t (t_ref g) (t_tx_stop g) (t_rx_start g) (t_rx_stop g)
    (t_tx_start g) (T_slot_sum g) (t_timeout g) v (header g) (initiator_id
    g) (payload g) (payload_len g) (n_T_slot g) (active g) (t_ref_updated g)
    (header_ok g) (relay_cnt_last_rx g) (relay_cnt_last_tx g)
    (relay_cnt_t_ref g) (relay_cnt_timeout g) (n_rx g) (n_tx g) (stats g).
Definition set_header (v : glossy_header_t) (g : glossy_state_t) : glossy_state_t :=
  Build_glossy_state_t (t_ref g) (t_tx_stop g) (t_rx_start g) (t_rx_stop g)
    (t_tx_start g) (T_slot_sum g) (t_timeout g) (T_slot_estimated g) v
    (initiator_id g) (payload g) (payload_len g) (n_T_slot g) (active g)
    (t_ref_updated g) (header_ok g) (relay_cnt_last_rx g) (relay_cnt_last_tx
    g) (relay_cnt_t_ref g) (relay_cnt_timeout g) (n_rx g) (n_tx g) (stats
    g).
Definition set_initiator_id (v : Z) (g : glossy_state_t) : glossy_state_t :=
  Build_glossy_state_t (t_ref g) (t_tx_stop g) (t_rx_start g) (t_rx_stop g)
    (t_tx_start g) (T_slot_sum g) (t_timeout g) (T_slot_estimated g) (header
    g) v (payload g) (payload_len g) (n_T_slot g) (active g) (t_ref_updated
    g) (header_ok g) (relay_cnt_last_rx g) (relay_cnt_last_tx g)
    (relay_cnt_t_ref g) (relay_cnt_timeout g) (n_rx g) (n_tx g) (stats g).
Definition set_payload (v : list Z) (g : glossy_state_t) : glossy_state_t :=
  Build_glossy_state_t (t_ref g) (t_tx_stop g) (t_rx_start g) (t_rx_stop g)
    (t_tx_start g) (T_slot_sum g) (t_timeout g) (T_slot_estimated g) (header
    g) (initiator_id g) v (payload_len g) (n_T_slot g) (active g)
    (t_ref_updated g) (header_ok g) (relay_cnt_last_rx g) (relay_cnt_last_tx
    g) (relay_cnt_t_ref g) (relay_cnt_timeout g) (n_rx g) (n_tx g) (stats
    g).
Definition set_payload_len (v : Z) (g : glossy_state_t) : glossy_state_t :=
  Build_glossy_state_t (t_ref g) (t_tx_stop g) (t_rx_start g) (t_rx_stop g)
    (t_tx_start g) (T_slot_sum g) (t_timeout g) (T_slot_estimated g) (header
    g) (initiator_id g) (payload g) v (n_T_slot g) (active g) (t_ref_updated
    g) (header_ok g) (relay_cnt_last_rx g) (relay_cnt_last_tx g)
    (relay_cnt_t_ref g) (relay_cnt_timeout g) (n_rx g) (n_tx g) (stats g).
Definition set_n_T_slot (v : Z) (g : glossy_state_t) : glossy_state_t :=
  Build_glossy_state_t (t_ref g) (t_tx_stop g) (t_rx_start g) (t_rx_stop g)
    (t_tx_start g) (T_slot_sum g) (t_timeout g) (T_slot_estimated g) (header
    g) (initiator_id g) (payload g) (payload_len g) v (active g)
    (t_ref_updated g) (header_ok g) (relay_cnt_last_rx g) (relay_cnt_last_tx
    g) (relay_cnt_t_ref g) (relay_cnt_timeout g) (n_rx g) (n_tx g) (stats
    g).
Definition set_active (v : Z) (g : glossy_state_t) : glossy_state_t :=
  Build_glossy_state_t (t_ref g) (t_tx_stop g) (t_rx_start g) (t_rx_stop g)
    (t_tx_start g) (T_slot_sum g) (t_timeout g) (T_slot_estimated g) (header
    g) (initiator_id g) (payload g) (payload_len g) (n_T_slot g) v
    (t_ref_updated g) (header_ok g) (relay_cnt_last_rx g) (relay_cnt_last_tx
    g) (relay_cnt_t_ref g) (relay_cnt_timeout g) (n_rx g) (n_tx g) (stats
    g).
Definition set_t_ref_updated (v : Z) (g : glossy_state_t) : glossy_state_t :=
  Build_glossy_state_t (t_ref g) (t_tx_stop g) (t_rx_start g) (t_rx_stop g)
    (t_tx_start g) (T_slot_sum g) (t_timeout g) (T_slot_estimated g) (header
    g) (initiator_id g) (payload g) (payload_len g) (n_T_slot g) (active g)
    v (header_ok g) (relay_cnt_last_rx g) (relay_cnt_last_tx g)
    (relay_cnt_t_ref g) (relay_cnt_timeout g) (n_rx g) (n_tx g) (stats g).
Definition set_header_ok (v : Z) (g : glossy_state_t) : glossy_state_t :=
  Build_glossy_state_t (t_ref g) (t_tx_stop g) (t_rx_start g) (t_rx_stop g)
    (t_tx_start g) (T_slot_sum g) (t_timeout g) (T_slot_estimated g) (header
    g) (initiator_id g) (payload g) (payload_len g) (n_T_slot g) (active g)
    (t_ref_updated g) v (relay_cnt_last_rx g) (relay_cnt_last_tx g)
    (relay_cnt_t_ref g) (relay_cnt_timeout g) (n_rx g) (n_tx g) (stats g).
Definition set_relay_cnt_last_rx (v : Z) (g : glossy_state_t) : glossy_state_t :=
  Build_glossy_state_t (t_ref g) (t_tx_stop g) (t_rx_start g) (t_rx_stop g)
    (t_tx_start g) (T_slot_sum g) (t_timeout g) (T_slot_estimated g) (header
    g) (initiator_id g) (payload g) (payload_len g) (n_T_slot g) (active g)
    (t_ref_updated g) (header_ok g) v (relay_cnt_last_tx g) (relay_cnt_t_ref
    g) (relay_cnt_timeout g) (n_rx g) (n_tx g) (stats g).
Definition set_relay_cnt_last_tx (v : Z) (g : glossy_state_t) : glossy_state_t :=
  Build_glossy_state_t (t_ref g) (t_tx_stop g) (t_rx_start g) (t_rx_stop g)
    (t_tx_start g) (T_slot_sum g) (t_timeout g) (T_slot_estimated g) (header
    g) (initiator_id g) (payload g) (payload_len g) (n_T_slot g) (active g)
    (t_ref_updated g) (header_ok g) (relay_cnt_last_rx g) v (relay_cnt_t_ref
    g) (relay_cnt_timeout g) (n_rx g) (n_tx g) (stats g).
Definition set_relay_cnt_t_ref (v : Z) (g : glossy_state_t) : glossy_state_t :=
  Build_glossy_state_t (t_ref g) (t_tx_stop g) (t_rx_start g) (t_rx_stop g)
    (t_tx_start g) (T_slot_sum g) (t_timeout g) (T_slot_estimated g) (header
    g) (initiator_id g) (payload g) (payload_len g) (n_T_slot g) (active g)
    (t_ref_updated g) (header_ok g) (relay_cnt_last_rx g) (relay_cnt_last_tx
    g) v (relay_cnt_timeout g) (n_rx g) (n_tx g) (stats g).
Definition set_relay_cnt_timeout (v : Z) (g : glossy_state_t) : glossy_state_t :=
  Build_glossy_state_t (t_ref g) (t_tx_stop g) (t_rx_start g) (t_rx_stop g)
    (t_tx_start g) (T_slot_sum g) (t_timeout g) (T_slot_estimated g) (header
    g) (initiator_id g) (payload g) (payload_len g) (n_T_slot g) (active g)
    (t_ref_updated g) (header_ok g) (relay_cnt_last_rx g) (relay_cnt_last_tx
    g) (relay_cnt_t_ref g) v (n_rx g) (n_tx g) (stats g).
Definition set_n_rx (v : Z) (g : glossy_state_t) : glossy_state_t :=
  Build_glossy_state_t (t_ref g) (t_tx_stop g) (t_rx_start g) (t_rx_stop g)
    (t_tx_start g) (T_slot_sum g) (t_timeout g) (T_slot_estimated g) (header
    g) (initiator_id g) (payload g) (payload_len g) (n_T_slot g) (active g)
    (t_ref_updated g) (header_ok g) (relay_cnt_last_rx g) (relay_cnt_last_tx
    g) (relay_cnt_t_ref g) (relay_cnt_timeout g) v (n_tx g) (stats g).
Definition set_n_tx (v : Z) (g : glossy_state_t) : glossy_state_t :=
  Build_glossy_state_t (t_ref g) (t_tx_stop g) (t_rx_start g) (t_rx_stop g)
    (t_tx_start g) (T_slot_sum g) (t_timeout g) (T_slot_estimated g) (header
    g) (initiator_id g) (payload g) (payload_len g) (n_T_slot g) (active g)
    (t_ref_updated g) (header_ok g) (relay_cnt_last_rx g) (relay_cnt_last_tx
    g) (relay_cnt_t_ref g) (relay_cnt_timeout g) (n_rx g) v (stats g).
Definition set_stats (v : glossy_stats_t) (g : glossy_state_t) : glossy_state_t :=
  Build_glossy_state_t (t_ref g) (t_tx_stop g) (t_rx_start g) (t_rx_stop g)
    (t_tx_start g) (T_slot_sum g) (t_timeout g) (T_slot_estimated g) (header
    g) (initiator_id g) (payload g) (payload_len g) (n_T_slot g) (active g)
    (t_ref_updated g) (header_ok g) (relay_cnt_last_rx g) (relay_cnt_last_tx
    g) (relay_cnt_t_ref g) (relay_cnt_timeout g) (n_rx g) (n_tx g) v.

Definition upd_stats (f : glossy_stats_t -> glossy_stats_t)
    (g : glossy_state_t) : glossy_state_t :=
  set_stats (f (stats g)) g.
Definition upd_header (f : glossy_header_t -> glossy_header_t)
    (g : glossy_state_t) : glossy_state_t :=
  set_header (f (header g)) g.

(** ** Commands issued to the radio and timer drivers, and stores into the
    caller's payload buffer *)

Inductive effect :=
| rf1a_go_to_idle
| rf1a_go_to_sleep
| rf1a_start_tx
| rf1a_start_rx
| rf1a_write_to_tx_fifo (hdr : list Z) (data : list Z)
| rf1a_flush_rx_fifo
| rf1a_flush_tx_fifo
| rf1a_set_rxoff_mode_tx
| rf1a_set_txoff_mode_rx
| rf1a_set_calibration_mode_manual
| rf1a_manual_calibration
| rf1a_reconfig_after_sleep
| rf1a_set_header_len_rx (n : Z)
| rf1a_clear_pending_interrupts
| rtimer_ext_stop
| rtimer_ext_schedule (time : Z)
| rtimer_ext_update_enable
| rtimer_ext_update_disable
| GLOSSY_DISABLE_INTERRUPTS
| GLOSSY_ENABLE_INTERRUPTS
| memcpy_to_payload (data : list Z).

(** What one call reads from the hardware. *)
Record readings_t := {
  now_hf : Z;              (* rtimer_ext_now_hf(), first read *)
  now_hf_later : Z;        (* rtimer_ext_now_hf(), second read in glossy_start *)
  is_busy : bool;          (* rf1a_is_busy() *)
  rssi : Z;                (* rf1a_get_rssi() *)
  last_packet_rssi : Z;    (* rf1a_get_last_packet_rssi() *)
  rssi_valid : bool        (* RSSI-valid seen before the busy-wait ran out *)
}.

(** ** State and trace monad *)

Definition M (A : Type) : Type :=
  glossy_state_t -> A * glossy_state_t * list effect.

Definition ret {A : Type} (a : A) : M A := fun g => (a, g, []).

Definition bind {A B : Type} (m : M A) (k : A -> M B) : M B :=
  fun g =>
    let '(a, g1, tr1) := m g in
    let '(b, g2, tr2) := k a g1 in
    (b, g2, tr1 ++ tr2).

Definition get : M glossy_state_t := fun g => (g, g, []).
Definition modify (f : glossy_state_t -> glossy_state_t) : M unit :=
  fun g => (tt, f g, []).
Definition emit (e : effect) : M unit := fun g => (tt, g, [e]).
Definition when (b : bool) (m : M unit) : M unit :=
  if b then m else ret tt.

Declare Scope glossy_scope.
Delimit Scope glossy_scope with glossy.
Notation "x <- c1 ;; c2" := (bind c1 (fun x => c2))
  (at level 61, c1 at next level, right associativity) : glossy_scope.
Notation "c1 ;; c2" := (bind c1 (fun _ => c2))
  (at level 61, right associativity) : glossy_scope.
Local Open Scope glossy_scope.

Definition result {A : Type} (r : A * glossy_state_t * list effect) : A :=
  fst (fst r).
Definition state_of {A : Type} (r : A * glossy_state_t * list effect)
  : glossy_state_t := snd (fst r).
Definition trace_of {A : Type} (r : A * glossy_state_t * list effect)
  : list effect := snd r.

Section Glossy.

Variable cfg : platform_t.

(** ** Types and macros that depend on the platform *)

(** Wrap-around of [rtimer_ext_clock_t]. *)
Definition clk (z : Z) : Z := z mod 2 ^ RTIMER_EXT_CLOCK_BITS cfg.
Definition u64 (z : Z) : Z := z mod 18446744073709551616.

Definition GLOSSY_MAX_PACKET_LEN : Z :=
  GLOSSY_CONF_PAYLOAD_LEN cfg + GLOSSY_MAX_HEADER_LEN cfg.
Definition GLOSSY_COMMON_HEADER : Z :=
  Z.land (GLOSSY_CONF_HEADER_BYTE cfg) GLOSSY_HEADER_BYTE_MASK.

Definition SET_PKT_TYPE (with_sync n_tx_max : Z) : Z :=
  u8 (Z.lor (Z.lor GLOSSY_COMMON_HEADER
               (if truthy with_sync then GLOSSY_HEADER_SYNC_MASK else 0))
            (Z.land n_tx_max GLOSSY_HEADER_N_TX_MASK)).

Definition IS_INITIATOR (g : glossy_state_t) : bool :=
  initiator_id g =? node_id cfg.
Definition WITH_SYNC (g : glossy_state_t) : Z := GET_SYNC (pkt_type (header g)).
Definition WITH_RELAY_CNT (g : glossy_state_t) : Z :=
  if GLOSSY_CONF_ALWAYS_RELAY_CNT cfg then 1 else WITH_SYNC g.

(** The macro takes a [pkt_type] argument and ignores it: its body reads
    [g.header.pkt_type] through [WITH_SYNC()]. *)
Definition GLOSSY_HEADER_LEN (g : glossy_state_t) : Z :=
  if truthy (WITH_SYNC g) || truthy (WITH_RELAY_CNT g) then 2 else 1.

(** The first [GLOSSY_HEADER_LEN] bytes of [g.header], as handed to the
    TX FIFO. *)
Definition header_bytes (g : glossy_state_t) : list Z :=
  firstn (Z.to_nat (GLOSSY_HEADER_LEN g))
         [pkt_type (header g); relay_cnt (header g)].

(** [(glossy_header_t* )pkt]. *)
Definition header_of_pkt (pkt : list Z) : glossy_header_t :=
  {| pkt_type := nth 0 pkt 0; relay_cnt := nth 1 pkt 0 |}.

(** ** Helper functions *)

Definition process_glossy_header (pkt : list Z) (pkt_len : Z) (crc_ok : bool)
  : M bool :=
  let rcvd_header := header_of_pkt pkt in
  g <- get ;;
  checked <-
    (if negb (truthy (header_ok g)) then
       if negb (GET_COMMON_HEADER (pkt_type rcvd_header)
                =? GLOSSY_COMMON_HEADER) then ret false
       else if negb (GET_SYNC (pkt_type (header g))
                     =? GET_SYNC (pkt_type rcvd_header)) then ret false
       else if negb (GET_N_TX_MAX (pkt_type (header g))
                     =? GLOSSY_UNKNOWN_N_TX_MAX cfg)
               && negb (GET_N_TX_MAX (pkt_type (header g))
                        =? GET_N_TX_MAX (pkt_type rcvd_header)) then ret false
       else if (negb (payload_len g =? GLOSSY_UNKNOWN_PAYLOAD_LEN cfg)
                && negb (payload_len g =? pkt_len - GLOSSY_HEADER_LEN g))
               || (pkt_len >? GLOSSY_CONF_PAYLOAD_LEN cfg
                              + GLOSSY_MAX_HEADER_LEN cfg) then ret false
       else if pkt_len >? GLOSSY_CONF_PAYLOAD_LEN cfg
                          + GLOSSY_MAX_HEADER_LEN cfg then ret false
       else modify (set_header_ok 1) ;; ret true
     else ret true) ;;
  if negb checked then ret false
  else if crc_ok then
    if pkt_len >? GLOSSY_CONF_PAYLOAD_LEN cfg + GLOSSY_MAX_HEADER_LEN cfg
    then ret false
    else
      modify (set_header rcvd_header) ;;
      g <- get ;;
      modify (set_payload_len (u8 (pkt_len - GLOSSY_HEADER_LEN g))) ;;
      emit (rf1a_set_header_len_rx (GLOSSY_HEADER_LEN g)) ;;
      ret true
  else ret true.

Definition estimate_T_slot (pkt_len : Z) : Z :=
  let T_tx_estim :=
    u32 (u32 (T_TX_BYTE cfg) * (pkt_len + 3) + u32 (T_TX_OFFSET cfg)) in
  u32 (NS_TO_RTIMER_EXT_HF_32 cfg (T_tx_estim + T2R cfg - TAU1 cfg)).

Definition timeout_expired (hw : readings_t) (rt_time : Z) : M unit :=
  if negb (is_busy hw) then
    emit rf1a_start_tx ;;
    modify (fun g => upd_header (set_relay_cnt (relay_cnt_timeout g)) g) ;;
    g <- get ;;
    emit (rf1a_write_to_tx_fifo (header_bytes g)
            (read_bytes (payload g) 0 (payload_len g))) ;;
    modify (set_t_timeout rt_time)
  else
    modify (fun g => set_relay_cnt_timeout (u8 (relay_cnt_timeout g + 1)) g) ;;
    g <- get ;;
    emit (rtimer_ext_schedule (clk (rt_time + T_slot_estimated g))).

Definition schedule_timeout : M unit :=
  let slot_timeout := SLOT_TIMEOUT_MIN in
  g <- get ;;
  when (truthy (WITH_RELAY_CNT g))
    (modify (set_relay_cnt_timeout
               (u8 (relay_cnt (header g) + slot_timeout)))) ;;
  g <- get ;;
  emit (rtimer_ext_schedule
          (clk (t_timeout g + u32 (slot_timeout * T_slot_estimated g)))).

Definition update_t_ref (t : Z) (rc : Z) : M unit :=
  modify (set_t_ref t) ;;
  modify (set_t_ref_updated 1) ;;
  modify (set_relay_cnt_t_ref rc).

Definition add_T_slot_measurement (T_slot_measured : Z) : M unit :=
  g <- get ;;
  when ((T_slot_measured >? u32 (T_slot_estimated g - T_SLOT_TOLERANCE))
        && (T_slot_measured <? u32 (T_slot_estimated g + T_SLOT_TOLERANCE)))
    (modify (set_T_slot_sum (clk (T_slot_sum g + T_slot_measured))) ;;
     modify (set_n_T_slot (u8 (n_T_slot g + 1)))).

(** ** Glossy interface *)

Definition glossy_stop (hw : readings_t) : M Z :=
  g <- get ;;
  when (truthy (active g))
    (emit rtimer_ext_stop ;;
     emit rf1a_flush_rx_fifo ;;
     emit rf1a_flush_tx_fifo ;;
     emit rf1a_go_to_sleep ;;
     emit rf1a_clear_pending_interrupts ;;
     modify (set_active 0) ;;
     when (truthy (t_ref_updated g))
       (if n_T_slot g >? 0 then
          modify (set_t_ref
                    (clk (t_ref g
                          - clk (relay_cnt_t_ref g * T_slot_sum g)
                            / n_T_slot g)))
        else
          modify (set_t_ref
                    (clk (t_ref g
                          - u32 (relay_cnt_t_ref g * T_slot_estimated g))))) ;;
     when (GLOSSY_CONF_COLLECT_STATS cfg)
       (modify (upd_stats (fun s =>
          set_last_flood_duration (clk (now_hf hw - last_flood_duration s)) s)) ;;
        when (negb (IS_INITIATOR g))
          (when (truthy (last_flood_n_rx_started (stats g)))
             (modify (upd_stats (fun s =>
                set_flood_cnt (u32 (flood_cnt s + 1)) s))) ;;
           when (truthy (n_rx g))
             (modify (upd_stats (fun s =>
                set_flood_cnt_success (u32 (flood_cnt_success s + 1)) s))))) ;;
     emit GLOSSY_ENABLE_INTERRUPTS ;;
     emit rtimer_ext_update_enable) ;;
  g <- get ;;
  ret (n_rx g).

(** The two busy-waits of [glossy_start] (RSSI valid, RF ready) and the
    set-up delay change nothing in [g]; of the first only the outcome
    [rssi_valid] is used. *)
Definition glossy_start (hw : readings_t) (initiator : Z)
    (payload_buf : list Z) (len n_tx_max with_sync with_rf_cal : Z) : M unit :=
  emit GLOSSY_DISABLE_INTERRUPTS ;;
  modify (set_active 1) ;;
  modify (set_initiator_id initiator) ;;
  modify (set_payload payload_buf) ;;
  modify (set_payload_len len) ;;
  modify (set_n_rx 0) ;;
  modify (set_n_tx 0) ;;
  modify (set_relay_cnt_last_rx 0) ;;
  modify (set_relay_cnt_last_tx 0) ;;
  modify (set_t_ref_updated 0) ;;
  modify (set_T_slot_sum 0) ;;
  modify (set_n_T_slot 0) ;;
  modify (set_T_slot_estimated 0) ;;
  when (GLOSSY_CONF_COLLECT_STATS cfg)
    (modify (upd_stats (set_last_flood_relay_cnt 0)) ;;
     modify (upd_stats (set_last_flood_n_rx_started 0)) ;;
     modify (upd_stats (set_last_flood_n_rx_fail 0)) ;;
     modify (upd_stats (set_last_flood_rssi_sum 0)) ;;
     modify (upd_stats (set_last_flood_t_to_rx 0)) ;;
     modify (upd_stats (set_last_flood_duration 0)) ;;
     modify (upd_stats (set_already_counted 0))) ;;
  modify (upd_header (set_pkt_type (SET_PKT_TYPE with_sync n_tx_max))) ;;
  modify (upd_header (set_relay_cnt 0)) ;;
  emit rf1a_go_to_idle ;;
  emit rf1a_set_rxoff_mode_tx ;;
  emit rf1a_set_txoff_mode_rx ;;
  emit rf1a_set_calibration_mode_manual ;;
  emit rf1a_reconfig_after_sleep ;;
  when (truthy with_rf_cal) (emit rf1a_manual_calibration) ;;
  g <- get ;;
  emit (rf1a_set_header_len_rx (GLOSSY_HEADER_LEN g)) ;;
  if IS_INITIATOR g then
    if payload_len g + GLOSSY_HEADER_LEN g >? GLOSSY_MAX_PACKET_LEN then
      glossy_stop hw ;; ret tt
    else
      modify (set_t_timeout (clk (now_hf hw + TIMEOUT_EXTRA_TICKS))) ;;
      emit rf1a_start_tx ;;
      when (GLOSSY_CONF_COLLECT_STATS cfg)
        (modify (upd_stats (set_last_flood_duration (now_hf_later hw)))) ;;
      emit (rf1a_write_to_tx_fifo (header_bytes g)
              (read_bytes (payload g) 0 (payload_len g))) ;;
      modify (set_relay_cnt_timeout 0)
  else
    emit rf1a_start_rx ;;
    when (GLOSSY_CONF_COLLECT_STATS cfg)
      (modify (upd_stats (set_last_flood_duration (now_hf hw))) ;;
       when (GLOSSY_CONF_ALWAYS_SAMPLE_NOISE cfg || truthy with_sync)
         (when (rssi_valid hw)
            (modify (upd_stats (set_last_flood_rssi_noise (i8 (rssi hw))))))).

Definition glossy_is_active (g : glossy_state_t) : Z := active g.
Definition glossy_get_rx_cnt (g : glossy_state_t) : Z := n_rx g.
Definition glossy_get_n_tx (g : glossy_state_t) : Z := n_tx g.
Definition glossy_get_payload_len (g : glossy_state_t) : Z := payload_len g.
Definition glossy_is_t_ref_updated (g : glossy_state_t) : Z := t_ref_updated g.
Definition glossy_get_t_ref (g : glossy_state_t) : Z := t_ref g.

Definition glossy_get_per (g : glossy_state_t) : Z :=
  if truthy (pkt_cnt (stats g)) then
    u16 (10000 - u16 (u64 (pkt_cnt_crcok (stats g) * 10000)
                      / pkt_cnt (stats g)))
  else 0.

Definition glossy_get_fsr (g : glossy_state_t) : Z :=
  if truthy (flood_cnt (stats g)) then
    u16 (u64 (flood_cnt_success (stats g) * 10000) / flood_cnt (stats g))
  else 10000.

(** [hf_now] and [lf_now] are the two clocks as read together by
    [rtimer_ext_now]. *)
Definition glossy_get_t_ref_lf (hf_now lf_now : Z) (g : glossy_state_t) : Z :=
  clk (lf_now
       - u32 (clk (hf_now - t_ref g)) / u32 (RTIMER_EXT_HF_LF_RATIO cfg)).

Definition glossy_get_rx_try_cnt (g : glossy_state_t) : Z :=
  last_flood_n_rx_started (stats g).
Definition glossy_get_n_crc_ok (g : glossy_state_t) : Z :=
  u8 (pkt_cnt_crcok (stats g)).
Definition glossy_get_last_flood_n_rx_fail (g : glossy_state_t) : Z :=
  last_flood_n_rx_fail (stats g).

(** Division of signed integers truncates towards zero. *)
Definition glossy_get_snr (g : glossy_state_t) : Z :=
  if (n_rx g =? 0) || (last_flood_rssi_sum (stats g) =? 0)
     || (last_flood_rssi_noise (stats g) =? 0) then 0
  else i8 (Z.quot (last_flood_rssi_sum (stats g)) (n_rx g)
           - last_flood_rssi_noise (stats g)).

Definition glossy_get_rssi (g : glossy_state_t) : Z :=
  if (n_rx g =? 0) || (last_flood_rssi_sum (stats g) =? 0) then 0
  else i8 (Z.quot (last_flood_rssi_sum (stats g)) (n_rx g)).

Definition glossy_get_relay_cnt (g : glossy_state_t) : Z :=
  last_flood_relay_cnt (stats g).
Definition glossy_get_n_pkts (g : glossy_state_t) : Z := pkt_cnt (stats g).
Definition glossy_get_n_pkts_crcok (g : glossy_state_t) : Z :=
  pkt_cnt_crcok (stats g).
Definition glossy_get_n_errors (g : glossy_state_t) : Z := error_cnt (stats g).
Definition glossy_get_flood_duration (g : glossy_state_t) : Z :=
  u32 (last_flood_duration (stats g)).
Definition glossy_get_t_to_first_rx (g : glossy_state_t) : Z :=
  u32 (last_flood_t_to_rx (stats g)).
Definition glossy_get_noise_floor (g : glossy_state_t) : Z :=
  i8 (last_flood_rssi_noise (stats g)).

Definition glossy_get_header (g : glossy_state_t) : Z :=
  u16 (Z.lor (Z.shiftl (pkt_type (header g)) 8) (relay_cnt (header g))).
Definition glossy_get_sync_mode (g : glossy_state_t) : Z := i8 (WITH_SYNC g).

Definition glossy_reset_stats : M unit :=
  modify (upd_stats (set_pkt_cnt 0)) ;;
  modify (upd_stats (set_pkt_cnt_crcok 0)) ;;
  modify (upd_stats (set_flood_cnt 0)) ;;
  modify (upd_stats (set_flood_cnt_success 0)) ;;
  modify (upd_stats (set_error_cnt 0)).

(** ** RF1A callbacks *)

(** The statistics update shared by the three failure paths. *)
Definition count_rx_fail : M unit :=
  when (GLOSSY_CONF_COLLECT_STATS cfg)
    (g <- get ;;
     when (negb (truthy (already_counted (stats g))))
       (modify (upd_stats (fun s =>
          set_last_flood_n_rx_fail (u8 (last_flood_n_rx_fail s + 1)) s)) ;;
        modify (upd_stats (set_already_counted 1)))).

Definition glossy_rx_started (timestamp : Z) : M unit :=
  emit rtimer_ext_update_disable ;;
  modify (set_t_rx_start timestamp) ;;
  modify (set_header_ok 0) ;;
  when (GLOSSY_CONF_COLLECT_STATS cfg)
    (modify (upd_stats (set_already_counted 0)) ;;
     modify (upd_stats (fun s => set_pkt_cnt (u32 (pkt_cnt s + 1)) s)) ;;
     g <- get ;;
     when (negb (truthy (last_flood_n_rx_started (stats g))))
       (modify (upd_stats (fun s =>
          set_last_flood_t_to_rx (clk (timestamp - last_flood_duration s)) s))) ;;
     modify (upd_stats (fun s =>
       set_last_flood_n_rx_started (u8 (last_flood_n_rx_started s + 1)) s))) ;;
  g <- get ;;
  when (IS_INITIATOR g) (emit rtimer_ext_stop).

Definition glossy_tx_started (timestamp : Z) : M unit :=
  modify (set_t_tx_start timestamp).

Definition glossy_rx_failed (timestamp : Z) : M unit :=
  count_rx_fail ;;
  emit rtimer_ext_update_enable ;;
  g <- get ;;
  when (truthy (active g))
    (emit rf1a_flush_rx_fifo ;;
     emit rf1a_start_rx).

Definition glossy_header_received (timestamp : Z) (hdr : list Z)
    (packet_len : Z) : M unit :=
  ok <- process_glossy_header hdr packet_len false ;;
  when (negb ok)
    (count_rx_fail ;;
     glossy_rx_failed timestamp).

Definition glossy_rx_ended (hw : readings_t) (timestamp : Z) (pkt : list Z)
    (pkt_len : Z) : M unit :=
  emit rtimer_ext_update_enable ;;
  modify (set_t_rx_stop timestamp) ;;
  when (GLOSSY_CONF_COLLECT_STATS cfg)
    (modify (upd_stats (fun s =>
       set_pkt_cnt_crcok (u32 (pkt_cnt_crcok s + 1)) s))) ;;
  ok <- process_glossy_header pkt pkt_len true ;;
  if ok then
    g <- get ;;
    (* uint8_t *payload = pkt + GLOSSY_HEADER_LEN(g.header.pkt_type) *)
    let payload_ptr := skipn (Z.to_nat (GLOSSY_HEADER_LEN g)) pkt in
    let rcvd_relay_cnt := relay_cnt (header g) in
    modify (upd_header (fun h => set_relay_cnt (u8 (relay_cnt h + 1)) h)) ;;
    g <- get ;;
    (if (GET_N_TX_MAX (pkt_type (header g)) =? 0)
        || (n_tx g <? GET_N_TX_MAX (pkt_type (header g))) then
       emit (rf1a_write_to_tx_fifo (header_bytes g)
               (read_bytes payload_ptr 0 (payload_len g)))
     else
       glossy_stop hw ;; ret tt) ;;
    when (GLOSSY_CONF_COLLECT_STATS cfg)
      (g <- get ;;
       when (truthy (WITH_RELAY_CNT g))
         (when (n_rx g =? 0)
            (modify (upd_stats (set_last_flood_relay_cnt rcvd_relay_cnt)))) ;;
       modify (upd_stats (fun s =>
         set_last_flood_rssi_sum
           (i16 (last_flood_rssi_sum s + last_packet_rssi hw)) s))) ;;
    modify (fun g => set_n_rx (u8 (n_rx g + 1)) g) ;;
    g <- get ;;
    when (negb (IS_INITIATOR g) && (n_rx g =? 1))
      (modify (set_payload (memcpy (payload g) payload_ptr (payload_len g))) ;;
       emit (memcpy_to_payload (read_bytes payload_ptr 0 (payload_len g)))) ;;
    g <- get ;;
    when (truthy (WITH_SYNC g))
      (modify (set_relay_cnt_last_rx (u8 (relay_cnt (header g) - 1))) ;;
       when (t_ref_updated g =? 0)
         (update_t_ref (clk (t_rx_start g - NS_TO_RTIMER_EXT_HF cfg (TAU1 cfg)))
                       (u8 (relay_cnt (header g) - 1)) ;;
          modify (set_T_slot_estimated
                    (estimate_T_slot (u8 (GLOSSY_HEADER_LEN g + payload_len g))))) ;;
       g <- get ;;
       when ((relay_cnt_last_rx g =? relay_cnt_last_tx g + 1) && (n_tx g >? 0))
         (add_T_slot_measurement
            (u32 (clk (t_rx_start g - t_tx_start g
                       - NS_TO_RTIMER_EXT_HF cfg (TAU1 cfg))))))
  else
    count_rx_fail ;;
    glossy_rx_failed timestamp.

Definition glossy_tx_ended (hw : readings_t) (timestamp : Z) : M unit :=
  modify (set_t_tx_stop timestamp) ;;
  g <- get ;;
  when (truthy (WITH_SYNC g))
    (modify (set_relay_cnt_last_tx (relay_cnt (header g))) ;;
     when (t_ref_updated g =? 0)
       (update_t_ref (t_tx_start g) (relay_cnt (header g))) ;;
     g <- get ;;
     when ((relay_cnt_last_tx g =? relay_cnt_last_rx g + 1) && (n_rx g >? 0))
       (add_T_slot_measurement
          (u32 (clk (t_tx_start g - t_rx_start g
                     + NS_TO_RTIMER_EXT_HF cfg (TAU1 cfg)))))) ;;
  modify (fun g => set_n_tx (u8 (n_tx g + 1)) g) ;;
  g <- get ;;
  if (n_tx g =? GET_N_TX_MAX (pkt_type (header g)))
     && ((GET_N_TX_MAX (pkt_type (header g)) >? 0) || negb (IS_INITIATOR g))
  then glossy_stop hw ;; ret tt
  else
    when (GLOSSY_CONF_RETRANSMISSION_TIMEOUT cfg)
      (when (IS_INITIATOR g && (n_rx g =? 0)) schedule_timeout).

Definition glossy_rx_tx_error (timestamp : Z) : M unit :=
  when (GLOSSY_CONF_COLLECT_STATS cfg)
    (modify (upd_stats (fun s => set_error_cnt (u16 (error_cnt s + 1)) s))) ;;
  emit rtimer_ext_update_enable ;;
  g <- get ;;
  when (truthy (active g))
    (emit rf1a_flush_rx_fifo ;;
     emit rf1a_flush_tx_fifo ;;
     emit rf1a_start_rx).

(** ** A flood as a sequence of calls

    After [glossy_start] the state is driven by the radio callbacks, the timer
    callback [timeout_expired] and the caller's [glossy_stop]. *)

Inductive event :=
| ev_rx_started (timestamp : Z)
| ev_tx_started (timestamp : Z)
| ev_header_received (timestamp : Z) (hdr : list Z) (packet_len : Z)
| ev_rx_ended (timestamp : Z) (pkt : list Z) (pkt_len : Z)
| ev_tx_ended (timestamp : Z)
| ev_rx_failed (timestamp : Z)
| ev_rx_tx_error (timestamp : Z)
| ev_timeout_expired (rt_time : Z)
| ev_stop.

Definition step (hw : readings_t) (e : event) : M unit :=
  match e with
  | ev_rx_started t => glossy_rx_started t
  | ev_tx_started t => glossy_tx_started t
  | ev_header_received t hdr len => glossy_header_received t hdr len
  | ev_rx_ended t pkt len => glossy_rx_ended hw t pkt len
  | ev_tx_ended t => glossy_tx_ended hw t
  | ev_rx_failed t => glossy_rx_failed t
  | ev_rx_tx_error t => glossy_rx_tx_error t
  | ev_timeout_expired t => timeout_expired hw t
  | ev_stop => glossy_stop hw ;; ret tt
  end.

Fixpoint run (hw : readings_t) (evs : list event) : M unit :=
  match evs with
  | [] => ret tt
  | e :: evs' => step hw e ;; run hw evs'
  end.

(** Stores into the caller's payload buffer recorded in a trace. *)
Definition is_memcpy (e : effect) : bool :=
  match e with memcpy_to_payload _ => true | _ => false end.
Definition count_memcpy (tr : list effect) : nat :=
  length (filter is_memcpy tr).

Definition is_rx_ended (e : event) : bool :=
  match e with ev_rx_ended _ _ _ => true | _ => false end.
Definition is_tx_ended (e : event) : bool :=
  match e with ev_tx_ended _ => true | _ => false end.
Definition is_stop (e : event) : bool :=
  match e with ev_stop => true | _ => false end.

End Glossy.

(** ** A concrete platform, for evaluating the model *)

Definition cc430 : platform_t :=
  {| node_id := 2;
     GLOSSY_CONF_HEADER_BYTE := 0xc0;
     GLOSSY_CONF_PAYLOAD_LEN := 100;
     GLOSSY_MAX_HEADER_LEN := 4;
     GLOSSY_UNKNOWN_N_TX_MAX := 0;
     GLOSSY_UNKNOWN_PAYLOAD_LEN := 0;
     GLOSSY_CONF_ALWAYS_RELAY_CNT := false;
     GLOSSY_CONF_COLLECT_STATS := true;
     GLOSSY_CONF_RETRANSMISSION_TIMEOUT := true;
     GLOSSY_CONF_ALWAYS_SAMPLE_NOISE := false;
     RTIMER_EXT_CLOCK_BITS := 64;
     TAU1 := 4000;
     T2R := 200000;
     T_TX_BYTE := 32000;
     T_TX_OFFSET := 300000;
     NS_TO_RTIMER_EXT_HF := fun ns => ns * 13 / 4000;
     NS_TO_RTIMER_EXT_HF_32 := fun ns => ns * 13 / 4000;
     RTIMER_EXT_HF_LF_RATIO := 100 |}.

Definition hw0 : readings_t :=
  {| now_hf := 1000; now_hf_later := 1010; is_busy := false; rssi := -90;
     last_packet_rssi := -60; rssi_valid := true |}.

Definition stats0 : glossy_stats_t :=
  Build_glossy_stats_t 0 0 0 0 0 0 0 0 0 0 0 0 0.

(** The zero-initialised static [g]. *)
Definition g0 : glossy_state_t :=
  Build_glossy_state_t 0 0 0 0 0 0 0 0 (Build_glossy_header_t 0 0) 0 [] 0 0 0
    0 0 0 0 0 0 0 0 stats0.

(** ** Reasoning about computations in [M] *)

Definition wp {A : Type} (m : M A)
    (Q : A -> glossy_state_t -> list effect -> Prop) (g : glossy_state_t)
  : Prop :=
  Q (result (m g)) (state_of (m g)) (trace_of (m g)).

(** A relation between the state before, the state after and the trace that
    holds of doing nothing and composes along [;;]. *)
Class Frame (R : glossy_state_t -> glossy_state_t -> list effect -> Prop) := {
  frame_refl : forall g, R g g [];
  frame_trans : forall g1 g2 g3 t1 t2,
    R g1 g2 t1 -> R g2 g3 t2 -> R g1 g3 (t1 ++ t2)
}.

Definition keeps {A : Type}
    (R : glossy_state_t -> glossy_state_t -> list effect -> Prop) (m : M A)
  : Prop :=
  forall g, R g (state_of (m g)) (trace_of (m g)).


(** Headers handed to the TX FIFO in a trace. *)
Definition tx_fifo_headers (tr : list effect) : list (list Z) :=
  flat_map (fun e => match e with
                     | rf1a_write_to_tx_fifo hdr _ => [hdr]
                     | _ => []
                     end) tr.

(** The relay counter byte of the one header written in a trace, if the
    trace holds exactly one FIFO write and its header has a second byte. *)
Definition tx_relay_cnt (tr : list effect) : option Z :=
  match tx_fifo_headers tr with
  | [hdr] => nth_error hdr 1
  | _ => None
  end.

(** The part of the state the flood-level properties are about. *)
Definition core (g : glossy_state_t) :=
  (initiator_id g, n_rx g, n_tx g, payload g, header g, active g).

(** Blocks that leave [core] alone, store nothing into the payload buffer
    and write nothing into the TX FIFO. *)
Definition R_blk (g g' : glossy_state_t) (t : list effect) : Prop :=
  core g' = core g /\ count_memcpy t = 0%nat /\ tx_fifo_headers t = [].

(** [core] without the header: what [process_glossy_header] keeps. *)
Definition core_nohdr (g : glossy_state_t) :=
  (initiator_id g, n_rx g, n_tx g, payload g, active g).

(** [core] without the activity flag: what [glossy_stop] keeps. *)
Definition core_noact (g : glossy_state_t) :=
  (initiator_id g, n_rx g, n_tx g, payload g, header g).

(** The header left by a reception that was accepted. *)
Definition relayed_header (pkt : list Z) : glossy_header_t :=
  {| pkt_type := nth 0 pkt 0; relay_cnt := u8 (nth 1 pkt 0 + 1) |}.

(** What [glossy_rx_ended] does to [core] and to the trace, by the outcome
    of the header check. *)
Definition rx_ended_post (cfg : platform_t) (pkt : list Z)
    (g g' : glossy_state_t) (tr : list effect) (accepted : bool) : Prop :=
  if accepted then
    initiator_id g' = initiator_id g /\
    n_tx g' = n_tx g /\
    n_rx g' = u8 (n_rx g + 1) /\
    header g' = relayed_header pkt /\
    (if negb (IS_INITIATOR cfg g) && (n_rx g' =? 1)
     then count_memcpy tr = 1%nat
     else count_memcpy tr = 0%nat /\ payload g' = payload g) /\
    (if (GET_N_TX_MAX (nth 0 pkt 0) =? 0)
        || (n_tx g <? GET_N_TX_MAX (nth 0 pkt 0))
     then active g' = active g /\ tx_fifo_headers tr = [header_bytes cfg g']
     else active g' = 0 /\ tx_fifo_headers tr = [])
  else R_blk g g' tr.

Definition tx_ended_post (cfg : platform_t) (g g' : glossy_state_t)
    (tr : list effect) : Prop :=
  initiator_id g' = initiator_id g /\
  n_rx g' = n_rx g /\
  payload g' = payload g /\
  header g' = header g /\
  n_tx g' = u8 (n_tx g + 1) /\
  count_memcpy tr = 0%nat /\
  tx_fifo_headers tr = [] /\
  active g' =
    if (u8 (n_tx g + 1) =? GET_N_TX_MAX (pkt_type (header g)))
       && ((GET_N_TX_MAX (pkt_type (header g)) >? 0)
           || negb (IS_INITIATOR cfg g))
    then 0 else active g.

(** Blocks that moreover leave alone what the header check reads. *)
Definition R_pre (g g' : glossy_state_t) (t : list effect) : Prop :=
  R_blk g g' t /\ header_ok g' = header_ok g /\ payload_len g' = payload_len g.

(** Blocks that leave [core] alone and store nothing into the payload
    buffer (they may write the TX FIFO). *)
Definition R_core (g g' : glossy_state_t) (t : list effect) : Prop :=
  core g' = core g /\ count_memcpy t = 0%nat.

(** What [timeout_expired] keeps: it rewrites [header.relay_cnt] and the
    TX FIFO only. *)
Definition R_tmo (g g' : glossy_state_t) (t : list effect) : Prop :=
  (initiator_id g', n_rx g', n_tx g', payload g', active g',
   pkt_type (header g'))
  = (initiator_id g, n_rx g, n_tx g, payload g, active g,
     pkt_type (header g)) /\
  count_memcpy t = 0%nat.

(** Callbacks never switch the flood on. *)
Definition R_act (g g' : glossy_state_t) (t : list effect) : Prop :=
  active g' = active g \/ active g' = 0.

(** The summary of one call of the flood, by the kind of call. *)
Definition step_post (cfg : platform_t) (e : event) (g g' : glossy_state_t)
    (tr : list effect) : Prop :=
  match e with
  | ev_rx_ended _ pkt len =>
      rx_ended_post cfg pkt g g' tr
        (result (process_glossy_header cfg pkt len true g))
  | ev_tx_ended _ => tx_ended_post cfg g g' tr
  | ev_stop =>
      core_noact g' = core_noact g /\ active g' = 0 /\
      count_memcpy tr = 0%nat /\ tx_fifo_headers tr = []
  | ev_timeout_expired _ => R_tmo g g' tr
  | _ => R_blk g g' tr
  end.

(** Delivery of callbacks by a radio that is asleep once the flood is
    inactive: the calls after the flood has ended are not made. *)
Fixpoint run_while_active (cfg : platform_t) (hw : readings_t)
    (evs : list event) : M unit :=
  match evs with
  | [] => ret tt
  | e :: evs' =>
      g <- get ;;
      if truthy (active g) then step cfg hw e ;; run_while_active cfg hw evs'
      else ret tt
  end.

(** The packet of a reception carries [k] in its [n_tx_max] field. *)
Definition carries_n_tx_max (k : Z) (e : event) : Prop :=
  match e with
  | ev_rx_ended _ pkt _ => GET_N_TX_MAX (nth 0 pkt 0) = k
  | _ => True
  end.

Definition count_rx_ended (evs : list event) : nat :=
  length (filter is_rx_ended evs).
Definition count_tx_ended (evs : list event) : nat :=
  length (filter is_tx_ended evs).

(** The bound on [n_tx] that an active flood with [n_tx_max = k] keeps. *)
Definition n_tx_bounded (k : Z) (g : glossy_state_t) : Prop :=
  GET_N_TX_MAX (pkt_type (header g)) = k /\
  0 <= n_tx g <= k /\
  (active g <> 0 -> n_tx g < k).

(** A receiver in an unbounded flood. *)
Definition unbounded_receiver (cfg : platform_t) (g : glossy_state_t) : Prop :=
  IS_INITIATOR cfg g = false /\
  GET_N_TX_MAX (pkt_type (header g)) = 0 /\
  active g = 1 /\
  0 <= n_tx g.

(** The window in which a slot measurement is recorded. *)
Definition in_T_slot_window (g : glossy_state_t) (m : Z) : Prop :=
  T_SLOT_TOLERANCE <= T_slot_estimated g /\
  T_slot_estimated g + T_SLOT_TOLERANCE < 2 ^ 32 /\
  Z.abs (m - T_slot_estimated g) < T_SLOT_TOLERANCE.


(** ** Concrete floods on the [cc430] platform (this node has id 2) *)

(** A receiver of a flood of node 1 with sync, everything else unknown. *)
Definition receiver_started : glossy_state_t :=
  state_of (glossy_start cc430 hw0 1 [0; 0; 0; 0; 0] 0 0 1 0 g0).

(** A receiver of a flood of node 1 that was told nothing of the flood:
    no sync bit, [n_tx_max] and the payload length unknown. *)
Definition receiver_started_nosync : glossy_state_t :=
  state_of (glossy_start cc430 hw0 1 [0; 0; 0; 0; 0] 0 0 0 0 g0).

(** The same with [n_tx_max = 1] known. *)
Definition receiver_started_1 : glossy_state_t :=
  state_of (glossy_start cc430 hw0 1 [0; 0; 0; 0; 0] 0 1 1 0 g0).

(** A packet with sync, [n_tx_max] field [k], relay counter [rc] and the
    payload "WORLD". *)
Definition world_pkt (k rc : Z) : list Z :=
  [0xd0 + k; rc; 87; 79; 82; 76; 68].

(** One slot pair of an unbounded flood: a reception, then the relay. *)
Definition rx_tx_round : list event :=
  [ev_rx_started 100; ev_rx_ended 200 (world_pkt 0 3) 7;
   ev_tx_started 300; ev_tx_ended 400].

(** A flood that was started and stopped. *)
Definition receiver_stopped : glossy_state_t :=
  state_of (glossy_stop cc430 hw0 receiver_started).

(** A flood with two slot measurements adding up to 3001 ticks and a
    reference taken at relay count 3. *)
Definition measured_state : glossy_state_t :=
  set_relay_cnt_t_ref 3
    (set_T_slot_sum 3001
       (set_n_T_slot 2
          (set_t_ref_updated 1 (set_t_ref 100000 receiver_started)))).

Definition stats_3_of_4 : glossy_state_t :=
  upd_stats (fun s => set_pkt_cnt 4 (set_pkt_cnt_crcok 3 s)) g0.

(** A reception whose relay is cut short by a radio error, twice. *)
Definition two_receptions_no_relay : list event :=
  [ev_rx_started 100; ev_rx_ended 200 (world_pkt 1 0) 7; ev_rx_tx_error 250;
   ev_rx_started 300; ev_rx_ended 400 (world_pkt 1 0) 7].

Definition estimated_1000 : glossy_state_t :=
  set_T_slot_estimated 1000 receiver_started.
Definition estimated_5 : glossy_state_t :=
  set_T_slot_estimated 5 receiver_started.

(** ** Further frames and trace projections *)

(** The counters that live across floods. *)
Definition lifetime_stats (s : glossy_stats_t) :=
  (pkt_cnt s, pkt_cnt_crcok s, flood_cnt s, flood_cnt_success s, error_cnt s).

(** The statistics of the last flood. *)
Definition last_flood_stats (s : glossy_stats_t) :=
  (last_flood_relay_cnt s, last_flood_rssi_noise s, last_flood_rssi_sum s,
   last_flood_n_rx_started s, last_flood_n_rx_fail s, already_counted s,
   last_flood_duration s, last_flood_t_to_rx s).

(** The commands [glossy_stop] issues on an active flood. *)
Definition stop_commands : list effect :=
  [rtimer_ext_stop; rf1a_flush_rx_fifo; rf1a_flush_tx_fifo; rf1a_go_to_sleep;
   rf1a_clear_pending_interrupts; GLOSSY_ENABLE_INTERRUPTS;
   rtimer_ext_update_enable].

(** The commands of [glossy_start] that do not depend on the role. *)
Definition start_config_commands (hlen with_rf_cal : Z) : list effect :=
  [GLOSSY_DISABLE_INTERRUPTS; rf1a_go_to_idle; rf1a_set_rxoff_mode_tx;
   rf1a_set_txoff_mode_rx; rf1a_set_calibration_mode_manual;
   rf1a_reconfig_after_sleep]
  ++ (if truthy with_rf_cal then [rf1a_manual_calibration] else [])
  ++ [rf1a_set_header_len_rx hlen].

(** Blocks of [glossy_start] that command nothing and keep what the role
    decision and the first packet depend on. *)
Definition R_quiet (g g' : glossy_state_t) (t : list effect) : Prop :=
  t = [] /\
  (initiator_id g', payload g', payload_len g', header g', active g',
   t_timeout g', relay_cnt_timeout g')
  = (initiator_id g, payload g, payload_len g, header g, active g,
     t_timeout g, relay_cnt_timeout g).

(** Times at which the timeout timer is armed in a trace. *)
Definition timer_schedules (tr : list effect) : list Z :=
  flat_map (fun e => match e with
                     | rtimer_ext_schedule time => [time]
                     | _ => []
                     end) tr.

(** Blocks that keep the timeout bookkeeping and do not arm the timer. *)
Definition R_timer (g g' : glossy_state_t) (t : list effect) : Prop :=
  R_blk g g' t /\
  (t_timeout g', T_slot_estimated g', relay_cnt_timeout g')
  = (t_timeout g, T_slot_estimated g, relay_cnt_timeout g) /\
  timer_schedules t = [].

(** Two frames at once. *)
Definition R_and (R1 R2 : glossy_state_t -> glossy_state_t -> list effect -> Prop)
    (g g' : glossy_state_t) (t : list effect) : Prop :=
  R1 g g' t /\ R2 g g' t.

(** What the synchronisation part of [glossy_rx_ended] reads and the blocks
    before it leave alone. *)
Definition R_cap (g g' : glossy_state_t) (t : list effect) : Prop :=
  (t_rx_start g', t_ref_updated g') = (t_rx_start g, t_ref_updated g).

(** The captured reference, and the slot estimate its final adjustment may
    use. *)
Definition ref_of (g : glossy_state_t) :=
  (t_ref_updated g, relay_cnt_t_ref g, T_slot_estimated g).

(** A reference, once captured, is kept.  [t_ref] itself stays where it is
    as long as the activity flag does; when the flood is switched off, it is
    the [t_ref] that [glossy_stop] computes from a state that still had the
    captured reference. *)
Definition R_ref (cfg : platform_t) (hw : readings_t)
    (g g' : glossy_state_t) (t : list effect) : Prop :=
  (active g' = active g \/ active g' = 0) /\
  (t_ref_updated g <> 0 ->
   ref_of g' = ref_of g /\
   (active g' = active g -> t_ref g' = t_ref g) /\
   (active g' <> active g ->
    exists gs, active gs <> 0 /\ ref_of gs = ref_of g /\ t_ref gs = t_ref g /\
               t_ref g' = t_ref (state_of (glossy_stop cfg hw gs)))).

(** A flood stopped after two slot measurements, reference in hand. *)
Definition measured_stopped : glossy_state_t :=
  state_of (glossy_stop cc430 hw0 measured_state).

(** Payloads handed to the TX FIFO in a trace. *)
Definition tx_fifo_payloads (tr : list effect) : list (list Z) :=
  flat_map (fun e => match e with
                     | rf1a_write_to_tx_fifo _ data => [data]
                     | _ => []
                     end) tr.

(** Data stored into the caller's payload buffer in a trace. *)
Definition memcpy_data (tr : list effect) : list (list Z) :=
  flat_map (fun e => match e with
                     | memcpy_to_payload data => [data]
                     | _ => []
                     end) tr.

(** Blocks of [glossy_rx_ended] that neither store nor send payload bytes
    and keep the lengths. *)
Definition R_len (g g' : glossy_state_t) (t : list effect) : Prop :=
  (initiator_id g', n_rx g', n_tx g', payload g', header g', payload_len g')
  = (initiator_id g, n_rx g, n_tx g, payload g, header g, payload_len g) /\
  tx_fifo_payloads t = [] /\ memcpy_data t = [].

(** * Proofs *)

Lemma wp_bind {A B} (m : M A) (k : A -> M B) Q g :
  wp m (fun a g1 t1 => wp (k a) (fun b g2 t2 => Q b g2 (t1 ++ t2)) g1) g ->
  wp (bind m k) Q g.
Proof.
  unfold wp, bind, result, state_of, trace_of.
  destruct (m g) as [[a g1] t1]; cbn.
  destruct (k a g1) as [[b g2] t2]; cbn. auto.
Qed.

Lemma wp_bind_keeps {A B} R (m : M A) (k : A -> M B) Q g :
  keeps R m ->
  (forall a g1 t1, R g g1 t1 ->
     wp (k a) (fun b g2 t2 => Q b g2 (t1 ++ t2)) g1) ->
  wp (bind m k) Q g.
Proof.
  intros Hk H. apply wp_bind. unfold wp at 1. apply H. apply Hk.
Qed.

Lemma wp_get Q g : Q g g [] -> wp get Q g.
Proof. auto. Qed.
Lemma wp_ret {A} (a : A) Q g : Q a g [] -> wp (ret a) Q g.
Proof. auto. Qed.
Lemma wp_modify f Q g : Q tt (f g) [] -> wp (modify f) Q g.
Proof. auto. Qed.
Lemma wp_emit e Q g : Q tt g [e] -> wp (emit e) Q g.
Proof. auto. Qed.
Lemma wp_keeps {A} R (m : M A) (Q : A -> _ -> _ -> Prop) g :
  keeps R m -> (forall a g1 t1, R g g1 t1 -> Q a g1 t1) -> wp m Q g.
Proof. intros Hk H. apply H, Hk. Qed.

Section Keeps.
Context {R : glossy_state_t -> glossy_state_t -> list effect -> Prop}
          {FR : Frame R}.

Lemma keeps_ret {A} (a : A) : keeps R (ret a).
Proof. intro g. apply frame_refl. Qed.
Lemma keeps_get : keeps R get.
Proof. intro g. apply frame_refl. Qed.
Lemma keeps_bind {A B} (m : M A) (k : A -> M B) :
    keeps R m -> (forall a, keeps R (k a)) -> keeps R (bind m k).
Proof.
    intros Hm Hk g. specialize (Hm g).
    unfold bind, state_of, trace_of in *.
    destruct (m g) as [[a g1] t1]; cbn in *.
    specialize (Hk a g1). unfold state_of, trace_of in Hk.
    destruct (k a g1) as [[b g2] t2]; cbn in *.
    eapply frame_trans; eauto.
Qed.
Lemma keeps_if {A} (c : bool) (m1 m2 : M A) :
    keeps R m1 -> keeps R m2 -> keeps R (if c then m1 else m2).
Proof. destruct c; auto. Qed.
Lemma keeps_when (c : bool) (m : M unit) : keeps R m -> keeps R (when c m).
Proof. intros H. unfold when. apply keeps_if; [exact H | apply keeps_ret]. Qed.
Lemma keeps_modify f : (forall g, R g (f g) []) -> keeps R (modify f).
Proof. intros H g. apply H. Qed.
Lemma keeps_emit e : (forall g, R g g [e]) -> keeps R (emit e).
Proof. intros H g. apply H. Qed.
End Keeps.

Ltac keeps_step side :=
  first
    [ apply keeps_ret
    | apply keeps_get
    | apply keeps_bind; [ | intros ? ]
    | apply keeps_when
    | apply keeps_if
    | apply keeps_modify; intros ?; side
    | apply keeps_emit; intros ?; side ].
Ltac keeps_all side := cbv zeta; repeat (keeps_step side).


Ltac unfold_m :=
  unfold bind, ret, get, modify, emit, when, state_of, trace_of, result.
Ltac msimpl :=
  cbn -[Z.add Z.sub Z.mul Z.div Z.modulo Z.opp Z.pow Z.land Z.lor Z.eqb Z.ltb
        Z.gtb Z.leb Z.to_nat].
Ltac crunch :=
  once (repeat (msimpl;
                match goal with
                | |- context [if ?c then _ else _] => destruct c eqn:?
                end));
  msimpl.
Ltac to_prop :=
  repeat match goal with
         | H : _ |- _ =>
           progress rewrite ?negb_true_iff, ?negb_false_iff, ?andb_true_iff,
             ?andb_false_iff, ?orb_true_iff, ?orb_false_iff, ?Z.eqb_eq,
             ?Z.eqb_neq, ?Z.gtb_ltb, ?Z.ltb_lt, ?Z.ltb_ge, ?Z.leb_le,
             ?Z.leb_gt in H
         end.

Lemma truthy_false z : truthy z = false <-> z = 0.
Proof. unfold truthy. rewrite negb_false_iff. apply Z.eqb_eq. Qed.
Lemma truthy_true z : truthy z = true <-> z <> 0.
Proof. unfold truthy. rewrite negb_true_iff. apply Z.eqb_neq. Qed.


Ltac nil_split :=
  repeat match goal with
         | H : _ ++ _ = [] |- _ => apply app_eq_nil in H; destruct H
         end.

(** *** glossy_stop *)

Lemma glossy_stop_inactive cfg hw g :
  active g = 0 -> glossy_stop cfg hw g = (n_rx g, g, []).
Proof.
  intros H. unfold glossy_stop. unfold_m. rewrite H. reflexivity.
Qed.

Lemma glossy_stop_deactivates cfg hw g :
  active (state_of (glossy_stop cfg hw g)) = 0.
Proof.
  unfold glossy_stop. unfold_m. crunch; try reflexivity.
  apply truthy_false; assumption.
Qed.

Lemma glossy_stop_returns_n_rx cfg hw g :
  result (glossy_stop cfg hw g) = n_rx g /\
  n_rx (state_of (glossy_stop cfg hw g)) = n_rx g.
Proof.
  unfold glossy_stop. unfold_m. crunch; split; reflexivity.
Qed.

(** C8. [glossy_stop] on an inactive flood issues no radio or timer command,
    leaves every field of [g] as it is and returns [n_rx]; a second
    [glossy_stop] right after a first returns the same value and leaves the
    state the first one left, whatever the state the first one started in. *)
Theorem glossy_stop_idempotent cfg hw hw' g :
  (active g = 0 -> glossy_stop cfg hw g = (n_rx g, g, [])) /\
  glossy_stop cfg hw' (state_of (glossy_stop cfg hw g))
  = (result (glossy_stop cfg hw g), state_of (glossy_stop cfg hw g), []).
Proof.
  split; [apply glossy_stop_inactive |].
  rewrite glossy_stop_inactive by apply glossy_stop_deactivates.
  destruct (glossy_stop_returns_n_rx cfg hw g) as [-> ->]. reflexivity.
Qed.

Lemma glossy_stop_idempotent_witness :
  glossy_stop cc430 hw0 g0 = (0, g0, []).
Proof.
  apply (proj1 (glossy_stop_idempotent cc430 hw0 hw0 g0)). reflexivity.
Defined.

(** C2 (as amended). [glossy_stop] leaves [t_ref] alone when the flood is
    inactive or no reference was captured; otherwise it subtracts, modulo the
    clock width, [(relay_cnt_t_ref * T_slot_sum) / n_T_slot] when
    [n_T_slot > 0] (the product is divided, the quotient is not multiplied)
    and the 32-bit product [relay_cnt_t_ref * T_slot_estimated] when
    [n_T_slot = 0]. *)
Theorem glossy_stop_t_ref cfg hw g :
  t_ref (state_of (glossy_stop cfg hw g)) =
    if (active g =? 0) || (t_ref_updated g =? 0) then t_ref g
    else if n_T_slot g >? 0 then
      clk cfg (t_ref g - clk cfg (relay_cnt_t_ref g * T_slot_sum g) / n_T_slot g)
    else
      clk cfg (t_ref g - u32 (relay_cnt_t_ref g * T_slot_estimated g)).
Proof.
  unfold glossy_stop, truthy. unfold_m.
  destruct (active g =? 0); msimpl; [reflexivity |].
  destruct (t_ref_updated g =? 0); msimpl.
  - crunch; reflexivity.
  - destruct (n_T_slot g >? 0); crunch; reflexivity.
Qed.

(** *** Statistics *)

(** C10. With [pkt_cnt_crcok <= pkt_cnt] and [flood_cnt_success <= flood_cnt]
    (32-bit counters), [glossy_get_per] is 0 when [pkt_cnt = 0] and
    [10000 - pkt_cnt_crcok * 10000 / pkt_cnt] otherwise, [glossy_get_fsr] is
    10000 when [flood_cnt = 0] and [flood_cnt_success * 10000 / flood_cnt]
    otherwise, and both lie in [0, 10000]. *)
Theorem glossy_get_per_fsr_range g :
  0 <= pkt_cnt_crcok (stats g) <= pkt_cnt (stats g) ->
  pkt_cnt (stats g) < 2 ^ 32 ->
  0 <= flood_cnt_success (stats g) <= flood_cnt (stats g) ->
  flood_cnt (stats g) < 2 ^ 32 ->
  glossy_get_per g =
    (if pkt_cnt (stats g) =? 0 then 0
     else 10000 - pkt_cnt_crcok (stats g) * 10000 / pkt_cnt (stats g)) /\
  glossy_get_fsr g =
    (if flood_cnt (stats g) =? 0 then 10000
     else flood_cnt_success (stats g) * 10000 / flood_cnt (stats g)) /\
  0 <= glossy_get_per g <= 10000 /\
  0 <= glossy_get_fsr g <= 10000.
Proof.
  intros Hc Hp Hs Hf.
  assert (Hq : forall c p, 0 <= c <= p -> p < 2 ^ 32 -> p <> 0 ->
             u64 (c * 10000) = c * 10000 /\ 0 <= c * 10000 / p <= 10000).
  { intros c p H1 H2 H3. split.
    - unfold u64. apply Z.mod_small. lia.
    - split.
      + apply Z.div_pos; lia.
      + apply Z.div_le_upper_bound; nia. }
  unfold glossy_get_per, glossy_get_fsr, truthy.
  destruct (Z.eqb_spec (pkt_cnt (stats g)) 0) as [E1 | E1];
    destruct (Z.eqb_spec (flood_cnt (stats g)) 0) as [E2 | E2]; msimpl.
  - lia.
  - destruct (Hq _ _ Hs Hf E2) as [-> B]. unfold u16.
    rewrite Z.mod_small by lia. lia.
  - destruct (Hq _ _ Hc Hp E1) as [-> B]. unfold u16.
    rewrite (Z.mod_small (_ / _)) by lia. rewrite Z.mod_small by lia. lia.
  - destruct (Hq _ _ Hc Hp E1) as [-> B].
    destruct (Hq _ _ Hs Hf E2) as [-> B']. unfold u16.
    rewrite !(Z.mod_small (_ / _)) by lia. rewrite Z.mod_small by lia. lia.
Qed.

Lemma count_memcpy_app t1 t2 :
  count_memcpy (t1 ++ t2) = (count_memcpy t1 + count_memcpy t2)%nat.
Proof. unfold count_memcpy. rewrite filter_app, length_app. reflexivity. Qed.

Lemma tx_fifo_headers_app t1 t2 :
  tx_fifo_headers (t1 ++ t2) = tx_fifo_headers t1 ++ tx_fifo_headers t2.
Proof. apply flat_map_app. Qed.

#[local] Instance R_blk_frame : Frame R_blk.
Proof.
  split; unfold R_blk.
  - intros g. repeat split.
  - intros g1 g2 g3 t1 t2 (H1 & H2 & H3) (H4 & H5 & H6).
    rewrite count_memcpy_app, tx_fifo_headers_app, H2, H3, H5, H6.
    repeat split. congruence.
Qed.

Ltac blk_side := unfold R_blk, core; cbn; repeat split.
Ltac keeps_blk := keeps_all blk_side.

Lemma count_rx_fail_blk cfg : keeps R_blk (count_rx_fail cfg).
Proof. unfold count_rx_fail. keeps_blk. Qed.
Lemma update_t_ref_blk t rc : keeps R_blk (update_t_ref t rc).
Proof. unfold update_t_ref. keeps_blk. Qed.
Lemma add_T_slot_measurement_blk cfg m :
  keeps R_blk (add_T_slot_measurement cfg m).
Proof. unfold add_T_slot_measurement. keeps_blk. Qed.
Lemma schedule_timeout_blk cfg : keeps R_blk (schedule_timeout cfg).
Proof. unfold schedule_timeout. keeps_blk. Qed.
Lemma glossy_rx_failed_blk cfg t : keeps R_blk (glossy_rx_failed cfg t).
Proof. unfold glossy_rx_failed, count_rx_fail. keeps_blk. Qed.
Lemma glossy_rx_tx_error_blk cfg t : keeps R_blk (glossy_rx_tx_error cfg t).
Proof. unfold glossy_rx_tx_error. keeps_blk. Qed.
Lemma glossy_rx_started_blk cfg t : keeps R_blk (glossy_rx_started cfg t).
Proof. unfold glossy_rx_started. keeps_blk. Qed.
Lemma glossy_tx_started_blk t : keeps R_blk (glossy_tx_started t).
Proof. unfold glossy_tx_started. keeps_blk. Qed.
Lemma glossy_header_received_blk cfg t hdr len :
  keeps R_blk (glossy_header_received cfg t hdr len).
Proof.
  unfold glossy_header_received, process_glossy_header, glossy_rx_failed,
    count_rx_fail.
  keeps_blk.
Qed.

Lemma process_glossy_header_post cfg pkt len crc_ok g :
  let r := process_glossy_header cfg pkt len crc_ok g in
  core_nohdr (state_of r) = core_nohdr g /\
  count_memcpy (trace_of r) = 0%nat /\
  tx_fifo_headers (trace_of r) = [] /\
  header (state_of r) =
    (if result r && crc_ok then header_of_pkt pkt else header g).
Proof.
  unfold process_glossy_header. unfold_m.
  crunch; repeat split.
Qed.

(** The outcome of the header check depends on three fields only. *)
Lemma process_glossy_header_result_ext cfg pkt len crc_ok g1 g2 :
  header g1 = header g2 -> header_ok g1 = header_ok g2 ->
  payload_len g1 = payload_len g2 ->
  result (process_glossy_header cfg pkt len crc_ok g1)
  = result (process_glossy_header cfg pkt len crc_ok g2).
Proof.
  intros H1 H2 H3.
  unfold process_glossy_header, GLOSSY_HEADER_LEN, WITH_RELAY_CNT, WITH_SYNC.
  unfold_m. rewrite H1, H2, H3.
  crunch; reflexivity.
Qed.

Lemma glossy_stop_post cfg hw g :
  let r := glossy_stop cfg hw g in
  core_noact (state_of r) = core_noact g /\
  active (state_of r) = 0 /\
  count_memcpy (trace_of r) = 0%nat /\
  tx_fifo_headers (trace_of r) = [].
Proof.
  unfold glossy_stop. unfold_m.
  crunch; repeat split. apply truthy_false; assumption.
Qed.

#[local] Instance R_pre_frame : Frame R_pre.
Proof.
  split; unfold R_pre.
  - intros g. repeat split.
  - intros g1 g2 g3 t1 t2 (H1 & H2 & H3) (H4 & H5 & H6).
    repeat split; try congruence.
    all: eapply (frame_trans (R := R_blk)); eauto.
Qed.

Ltac pre_side := unfold R_pre, R_blk, core; cbn; repeat split.
Tactic Notation "wp_blk" "as" ident(g) ident(t) ident(H) :=
  apply (wp_bind_keeps R_blk); [ solve [keeps_blk] | intros ? g t H ].
Tactic Notation "wp_pre" "as" ident(g) ident(t) ident(H) :=
  apply (wp_bind_keeps R_pre);
  [ solve [keeps_all pre_side] | intros ? g t H ].

Lemma core_fields g g' :
  core g' = core g ->
  initiator_id g' = initiator_id g /\ n_rx g' = n_rx g /\ n_tx g' = n_tx g /\
  payload g' = payload g /\ header g' = header g /\ active g' = active g.
Proof. unfold core. intros H. injection H. auto 10. Qed.

Lemma tx_or_stop_post cfg hw (c : bool) hdr data g :
  let r := (if c then emit (rf1a_write_to_tx_fifo hdr data)
            else glossy_stop cfg hw ;; ret tt) g in
  core_noact (state_of r) = core_noact g /\
  active (state_of r) = (if c then active g else 0) /\
  count_memcpy (trace_of r) = 0%nat /\
  tx_fifo_headers (trace_of r) = (if c then [hdr] else []).
Proof.
  destruct c; [repeat split |].
  cbv zeta.
  change (wp (glossy_stop cfg hw ;; ret tt)
             (fun _ g' tr => core_noact g' = core_noact g /\ active g' = 0 /\
                count_memcpy tr = 0%nat /\ tx_fifo_headers tr = []) g).
  apply wp_bind. unfold wp at 1.
  destruct (glossy_stop_post cfg hw g) as (H1 & H2 & H3 & H4).
  apply wp_ret. rewrite app_nil_r. auto.
Qed.

Lemma glossy_rx_ended_summary cfg hw t pkt len g :
  let r := glossy_rx_ended cfg hw t pkt len g in
  rx_ended_post cfg pkt g (state_of r) (trace_of r)
    (result (process_glossy_header cfg pkt len true g)).
Proof.
  cbv zeta.
  change (wp (glossy_rx_ended cfg hw t pkt len)
             (fun _ g' tr => rx_ended_post cfg pkt g g' tr
                (result (process_glossy_header cfg pkt len true g))) g).
  unfold glossy_rx_ended.
  wp_pre as g1 t1 H. wp_pre as gb tb H0. wp_pre as g2 t2 H1.
  assert (Hpre : R_pre g g2 (t1 ++ tb ++ t2)).
  { eapply (frame_trans (R := R_pre)); [eassumption|].
    eapply (frame_trans (R := R_pre)); eassumption. }
  clear H H0 H1. destruct Hpre as ((Hc & Hm & Hf) & Hok & Hpl).
  apply core_fields in Hc. destruct Hc as (Hi & Hrx & Htx & Hpay & Hhdr & Hact).
  apply wp_bind. unfold wp at 1.
  pose proof (process_glossy_header_post cfg pkt len true g2) as Hp.
  cbv zeta in Hp. destruct Hp as (Hc2 & Hm2 & Hf2 & Hh2).
  rewrite (process_glossy_header_result_ext cfg pkt len true g2 g) in * by assumption.
  revert Hc2 Hm2 Hf2 Hh2.
  generalize (state_of (process_glossy_header cfg pkt len true g2)) as g3.
  generalize (trace_of (process_glossy_header cfg pkt len true g2)) as t3.
  generalize (result (process_glossy_header cfg pkt len true g)) as ok.
  intros ok t3 g3 Hc2 Hm2 Hf2 Hh2.
  unfold core_nohdr in Hc2. injection Hc2 as Hi2 Hrx2 Htx2 Hpay2 Hact2.
  rewrite Hi in Hi2. rewrite Hrx in Hrx2. rewrite Htx in Htx2.
  rewrite Hpay in Hpay2. rewrite Hact in Hact2. rewrite Hhdr in Hh2.
  clear Hi Hrx Htx Hpay Hact Hhdr Hok Hpl.
  destruct ok; cbn [andb] in Hh2.
  2:{ apply (wp_keeps R_blk);
        [ unfold glossy_rx_failed, count_rx_fail; solve [keeps_blk] |].
      intros _ g4 t4 (Hc4 & Hm4 & Hf4).
      apply core_fields in Hc4.
      destruct Hc4 as (Hi4 & Hrx4 & Htx4 & Hpay4 & Hhdr4 & Hact4).
      unfold rx_ended_post, R_blk, core.
      rewrite !count_memcpy_app, !tx_fifo_headers_app in *.
      nil_split. repeat split; try congruence; try lia.
      repeat match goal with H : tx_fifo_headers _ = [] |- _ => rewrite H end.
      reflexivity. }
  apply wp_bind, wp_get. apply wp_bind, wp_modify. apply wp_bind, wp_get.
  set (g4 := upd_header _ g3).
  assert (Hh4 : header g4 = relayed_header pkt).
  { subst g4. cbn. rewrite Hh2. reflexivity. }
  assert (Hi4 : initiator_id g4 = initiator_id g) by (rewrite <- Hi2; reflexivity).
  assert (Hrx4 : n_rx g4 = n_rx g) by (rewrite <- Hrx2; reflexivity).
  assert (Htx4 : n_tx g4 = n_tx g) by (rewrite <- Htx2; reflexivity).
  assert (Hpay4 : payload g4 = payload g) by (rewrite <- Hpay2; reflexivity).
  assert (Hact4 : active g4 = active g) by (rewrite <- Hact2; reflexivity).
  clearbody g4. clear Hi2 Hrx2 Htx2 Hpay2 Hact2 Hh2.
  unfold rx_ended_post. rewrite Hh4, Htx4. cbn [pkt_type relayed_header].
  apply wp_bind. unfold wp at 1.
  match goal with
  | |- context [(if ?c then emit (rf1a_write_to_tx_fifo ?h ?d) else _) g4] =>
    pose proof (tx_or_stop_post cfg hw c h d g4) as Hp; cbv zeta in Hp;
    revert Hp;
    generalize (state_of ((if c then emit (rf1a_write_to_tx_fifo h d)
                           else glossy_stop cfg hw ;; ret tt) g4)) as g5;
    generalize (trace_of ((if c then emit (rf1a_write_to_tx_fifo h d)
                           else glossy_stop cfg hw ;; ret tt) g4)) as t5;
    set (relay := c)
  end.
  intros t5 g5 (Hc5 & Hact5 & Hm5 & Hf5).
  unfold core_noact in Hc5. injection Hc5 as Hi5 Hrx5 Htx5 Hpay5 Hhdr5.
  wp_blk as g6 t6 H. destruct H as (Hc6 & Hm6 & Hf6). apply core_fields in Hc6.
  destruct Hc6 as (Hi6 & Hrx6 & Htx6 & Hpay6 & Hhdr6 & Hact6).
  apply wp_bind, wp_modify. apply wp_bind, wp_get.
  set (g7 := set_n_rx _ g6).
  assert (Hi7 : initiator_id g7 = initiator_id g)
    by (rewrite <- Hi4, <- Hi5, <- Hi6; reflexivity).
  assert (Hrx7 : n_rx g7 = u8 (n_rx g + 1))
    by (rewrite <- Hrx4, <- Hrx5, <- Hrx6; reflexivity).
  assert (Htx7 : n_tx g7 = n_tx g)
    by (rewrite <- Htx4, <- Htx5, <- Htx6; reflexivity).
  assert (Hpay7 : payload g7 = payload g)
    by (rewrite <- Hpay4, <- Hpay5, <- Hpay6; reflexivity).
  assert (Hact7 : active g7 = if relay then active g else 0)
    by (rewrite <- Hact4, <- Hact5, <- Hact6; reflexivity).
  assert (Hh7 : header g7 = header g4)
    by (rewrite <- Hhdr5, <- Hhdr6; reflexivity).
  clearbody g7. clear Hi5 Hrx5 Htx5 Hpay5 Hact5 Hhdr5 Hi6 Hrx6 Htx6 Hpay6 Hact6 Hhdr6.
  assert (Hb : forall g', header g' = header g7 ->
                 header_bytes cfg g' = header_bytes cfg g4).
  { intros g' Hg'.
    unfold header_bytes, GLOSSY_HEADER_LEN, WITH_RELAY_CNT, WITH_SYNC.
    rewrite Hg', Hh7. reflexivity. }
  apply wp_bind. unfold when at 1.
  match goal with
  | |- wp (if ?c then _ else _) _ _ => destruct c eqn:Ecpy
  end;
    [ apply wp_bind, wp_modify, wp_emit | apply wp_ret ];
    apply wp_bind, wp_get;
    (apply (wp_keeps R_blk);
      [ unfold update_t_ref, add_T_slot_measurement; solve [keeps_blk] |]);
    intros _ g8 t8 (Hc8 & Hm8 & Hf8); apply core_fields in Hc8; cbn in Hc8;
    destruct Hc8 as (Hi8 & Hrx8 & Htx8 & Hpay8 & Hhdr8 & Hact8);
    unfold rx_ended_post, IS_INITIATOR in *;
    rewrite ?count_memcpy_app, ?tx_fifo_headers_app in *;
    nil_split;
    repeat match goal with
           | H : tx_fifo_headers ?t = _ |- _ => rewrite H; clear H
           end;
    unfold count_memcpy in *;
    cbn [filter is_memcpy length app tx_fifo_headers flat_map];
    rewrite (Hb g8 Hhdr8);
    rewrite Hrx8, <- Hi7, Ecpy;
    destruct relay; cbn [app];
    repeat split; try congruence; try lia.
Qed.

Lemma glossy_tx_ended_summary cfg hw t g :
  let r := glossy_tx_ended cfg hw t g in
  tx_ended_post cfg g (state_of r) (trace_of r).
Proof.
  cbv zeta.
  change (wp (glossy_tx_ended cfg hw t)
             (fun _ g' tr => tx_ended_post cfg g g' tr) g).
  unfold glossy_tx_ended, tx_ended_post.
  wp_blk as g1 t1 H. apply wp_bind, wp_get.
  apply (wp_bind_keeps R_blk);
    [ unfold update_t_ref, add_T_slot_measurement; solve [keeps_blk]
    | intros ? gb tb H0 ].
  assert (Hb : R_blk g gb (t1 ++ [] ++ tb)).
  { eapply (frame_trans (R := R_blk)); [eassumption|]. exact H0. }
  clear H H0. destruct Hb as (Hc & Hm & Hf). apply core_fields in Hc.
  destruct Hc as (Hi & Hrx & Htx & Hpay & Hhdr & Hact).
  apply wp_bind, wp_modify. apply wp_bind, wp_get.
  set (g2 := set_n_tx _ gb).
  assert (Hi2 : initiator_id g2 = initiator_id g) by (rewrite <- Hi; reflexivity).
  assert (Hrx2 : n_rx g2 = n_rx g) by (rewrite <- Hrx; reflexivity).
  assert (Htx2 : n_tx g2 = u8 (n_tx g + 1)) by (rewrite <- Htx; reflexivity).
  assert (Hpay2 : payload g2 = payload g) by (rewrite <- Hpay; reflexivity).
  assert (Hhdr2 : header g2 = header g) by (rewrite <- Hhdr; reflexivity).
  assert (Hact2 : active g2 = active g) by (rewrite <- Hact; reflexivity).
  clearbody g2. clear Hi Hrx Htx Hpay Hhdr Hact.
  unfold IS_INITIATOR. rewrite Hi2, Htx2, Hhdr2.
  match goal with
  | |- wp (if ?c then _ else _) _ _ => destruct c eqn:Estop
  end.
  - apply wp_bind. unfold wp at 1.
    destruct (glossy_stop_post cfg hw g2) as (H1 & H2 & H3 & H4).
    unfold core_noact in H1. injection H1 as Hi3 Hrx3 Htx3 Hpay3 Hhdr3.
    apply wp_ret.
    rewrite ?count_memcpy_app, ?tx_fifo_headers_app in *. nil_split.
    repeat match goal with
           | H : tx_fifo_headers ?t = _ |- _ => rewrite H; clear H
           end.
    unfold count_memcpy in *. cbn [filter is_memcpy length app] in *.
    repeat split; try congruence; try lia.
  - apply (wp_keeps R_blk);
      [ unfold schedule_timeout; solve [keeps_blk] |].
    intros _ g3 t3 (Hc3 & Hm3 & Hf3). apply core_fields in Hc3.
    destruct Hc3 as (Hi3 & Hrx3 & Htx3 & Hpay3 & Hhdr3 & Hact3).
    rewrite ?count_memcpy_app, ?tx_fifo_headers_app in *. nil_split.
    repeat match goal with
           | H : tx_fifo_headers ?t = _ |- _ => rewrite H; clear H
           end.
    unfold count_memcpy in *. cbn [filter is_memcpy length app] in *.
    repeat split; try congruence; try lia.
Qed.

(** *** Bit fields of the packet type byte *)

Ltac const_bits :=
  repeat match goal with
         | |- context [Z.testbit (Zpos ?p) (Zpos ?n)] =>
           let b := eval vm_compute in (Z.testbit (Zpos p) (Zpos n)) in
           change (Z.testbit (Zpos p) (Zpos n)) with b
         | |- context [Z.testbit (Zpos ?p) 0] =>
           let b := eval vm_compute in (Z.testbit (Zpos p) 0) in
           change (Z.testbit (Zpos p) 0) with b
         | |- context [Z.testbit 0 ?n] => rewrite (Z.testbit_0_l n)
         | |- context [Zpos ?n <? Zpos ?m] =>
           let b := eval vm_compute in (Zpos n <? Zpos m) in
           change (Zpos n <? Zpos m) with b
         | |- context [0 <? Zpos ?m] => change (0 <? Zpos m) with true
         end.

Ltac high_bits n :=
  repeat match goal with
         | |- context [Z.testbit (Zpos ?p) n] =>
           rewrite (Z.bits_above_log2 (Zpos p) n)
             by (try (vm_compute; discriminate); cbn; lia)
         end.

Ltac bool_cases :=
  repeat match goal with
         | |- context [Z.testbit ?x ?n] => destruct (Z.testbit x n)
         end;
  try reflexivity.

Ltac byte_bits :=
  apply Z.bits_inj'; intros n Hn;
  unfold u8;
  change 256 with (2 ^ 8);
  repeat (rewrite Z.land_spec || rewrite Z.lor_spec
          || rewrite Z.testbit_mod_pow2 by lia);
  destruct (Z.ltb_spec n 8) as [Hlt | Hge];
  [ assert (Hc : n = 0 \/ n = 1 \/ n = 2 \/ n = 3 \/ n = 4 \/ n = 5 \/ n = 6
                 \/ n = 7) by lia;
    repeat (destruct Hc as [Hc | Hc]); subst n; const_bits; bool_cases
  | high_bits n;
    rewrite ?Z.testbit_0_l, ?andb_false_r, ?andb_false_l, ?orb_false_r;
    try reflexivity ].

Lemma SET_PKT_TYPE_fields cfg with_sync n_tx_max :
  GET_COMMON_HEADER (SET_PKT_TYPE cfg with_sync n_tx_max)
  = GLOSSY_COMMON_HEADER cfg /\
  GET_SYNC (SET_PKT_TYPE cfg with_sync n_tx_max)
  = (if truthy with_sync then GLOSSY_HEADER_SYNC_MASK else 0) /\
  GET_N_TX_MAX (SET_PKT_TYPE cfg with_sync n_tx_max)
  = Z.land n_tx_max GLOSSY_HEADER_N_TX_MASK.
Proof.
  unfold GET_COMMON_HEADER, GET_SYNC, GET_N_TX_MAX, SET_PKT_TYPE,
    GLOSSY_COMMON_HEADER, GLOSSY_HEADER_BYTE_MASK, GLOSSY_HEADER_SYNC_MASK,
    GLOSSY_HEADER_N_TX_MASK.
  destruct (truthy with_sync); repeat split; byte_bits.
Qed.

#[local] Instance R_core_frame : Frame R_core.
Proof.
  split; unfold R_core.
  - intros g. repeat split.
  - intros g1 g2 g3 t1 t2 (H1 & H2) (H4 & H5).
    rewrite count_memcpy_app, H2, H5. split; [congruence | reflexivity].
Qed.

Ltac core_side := unfold R_core, core; cbn; repeat split.
Tactic Notation "wp_core" "as" ident(g) ident(t) ident(H) :=
  apply (wp_bind_keeps R_core);
  [ solve [keeps_all core_side] | intros ? g t H ].

Lemma glossy_start_post cfg hw initiator buf len n_tx_max ws cal g :
  let r := glossy_start cfg hw initiator buf len n_tx_max ws cal g in
  initiator_id (state_of r) = initiator /\
  n_rx (state_of r) = 0 /\
  n_tx (state_of r) = 0 /\
  payload (state_of r) = buf /\
  header (state_of r)
  = {| pkt_type := SET_PKT_TYPE cfg ws n_tx_max; relay_cnt := 0 |} /\
  count_memcpy (trace_of r) = 0%nat /\
  (initiator <> node_id cfg -> active (state_of r) = 1).
Proof.
  cbv zeta.
  change (wp (glossy_start cfg hw initiator buf len n_tx_max ws cal)
            (fun _ g' tr =>
               initiator_id g' = initiator /\ n_rx g' = 0 /\ n_tx g' = 0 /\
               payload g' = buf /\
               header g'
               = {| pkt_type := SET_PKT_TYPE cfg ws n_tx_max; relay_cnt := 0 |} /\
               count_memcpy tr = 0%nat /\
               (initiator <> node_id cfg -> active g' = 1)) g).
  unfold glossy_start.
  apply wp_bind, wp_emit.
  do 12 (apply wp_bind, wp_modify).
  wp_core as g1 t1 H.
  do 2 (apply wp_bind, wp_modify).
  do 5 (apply wp_bind, wp_emit).
  wp_core as gb tb H0.
  apply wp_bind, wp_get. apply wp_bind, wp_emit.
  destruct H as (Hc & Hm). apply core_fields in Hc. cbn in Hc.
  destruct Hc as (Hi & Hrx & Htx & Hpay & Hhdr & Hact).
  set (g2 := upd_header _ (upd_header _ g1)) in *.
  assert (Hi2 : initiator_id g2 = initiator) by (rewrite <- Hi; reflexivity).
  assert (Hrx2 : n_rx g2 = 0) by (rewrite <- Hrx; reflexivity).
  assert (Htx2 : n_tx g2 = 0) by (rewrite <- Htx; reflexivity).
  assert (Hpay2 : payload g2 = buf) by (rewrite <- Hpay; reflexivity).
  assert (Hact2 : active g2 = 1) by (rewrite <- Hact; reflexivity).
  assert (Hhdr2 : header g2
     = {| pkt_type := SET_PKT_TYPE cfg ws n_tx_max; relay_cnt := 0 |})
    by reflexivity.
  clearbody g2. clear Hi Hrx Htx Hpay Hact Hhdr.
  destruct H0 as (Hc & Hm0). apply core_fields in Hc.
  destruct Hc as (Hi & Hrx & Htx & Hpay & Hhdr & Hact).
  rewrite <- Hi, <- Hrx, <- Htx, <- Hpay, <- Hhdr, <- Hact in *.
  clear Hi Hrx Htx Hpay Hhdr Hact g2.
  unfold IS_INITIATOR at 1. rewrite Hi2.
  destruct (Z.eqb_spec initiator (node_id cfg)) as [E | E].
  - match goal with
    | |- wp (if ?c then _ else _) _ _ => destruct c
    end.
    + apply wp_bind. unfold wp at 1.
      destruct (glossy_stop_post cfg hw gb) as (H1 & H2 & H3 & H4).
      unfold core_noact in H1. injection H1 as H5 H6 H7 H8 H9.
      apply wp_ret.
      rewrite ?count_memcpy_app in *. unfold count_memcpy in *.
      cbn [filter is_memcpy length app] in *.
      repeat split; try congruence; try lia.
    + apply (wp_keeps R_core); [ solve [keeps_all core_side] |].
      intros _ g3 t3 (Hc3 & Hm3). apply core_fields in Hc3.
      destruct Hc3 as (Hi3 & Hrx3 & Htx3 & Hpay3 & Hhdr3 & Hact3).
      rewrite ?count_memcpy_app in *. unfold count_memcpy in *.
      cbn [filter is_memcpy length app] in *.
      repeat split; try congruence; try lia.
  - apply (wp_keeps R_core); [ solve [keeps_all core_side] |].
    intros _ g3 t3 (Hc3 & Hm3). apply core_fields in Hc3.
    destruct Hc3 as (Hi3 & Hrx3 & Htx3 & Hpay3 & Hhdr3 & Hact3).
    rewrite ?count_memcpy_app in *. unfold count_memcpy in *.
    cbn [filter is_memcpy length app] in *.
    repeat split; try congruence; try lia.
Qed.

#[local] Instance R_tmo_frame : Frame R_tmo.
Proof.
  split; unfold R_tmo.
  - intros g. repeat split.
  - intros g1 g2 g3 t1 t2 (H1 & H2) (H4 & H5).
    rewrite count_memcpy_app, H2, H5. split; [congruence | reflexivity].
Qed.

#[local] Instance R_act_frame : Frame R_act.
Proof.
  split; unfold R_act; intros; [left; reflexivity | intuition congruence].
Qed.

Lemma timeout_expired_tmo cfg hw t : keeps R_tmo (timeout_expired cfg hw t).
Proof.
  unfold timeout_expired. keeps_all ltac:(unfold R_tmo; cbn; repeat split).
Qed.

Lemma step_summary cfg hw e g :
  step_post cfg e g (state_of (step cfg hw e g)) (trace_of (step cfg hw e g)).
Proof.
  destruct e; unfold step, step_post.
  - apply glossy_rx_started_blk.
  - apply glossy_tx_started_blk.
  - apply glossy_header_received_blk.
  - apply glossy_rx_ended_summary.
  - apply glossy_tx_ended_summary.
  - apply glossy_rx_failed_blk.
  - apply glossy_rx_tx_error_blk.
  - apply timeout_expired_tmo.
  - change (wp (glossy_stop cfg hw ;; ret tt)
             (fun _ g' tr => core_noact g' = core_noact g /\ active g' = 0 /\
                count_memcpy tr = 0%nat /\ tx_fifo_headers tr = []) g).
    apply wp_bind. unfold wp at 1.
    destruct (glossy_stop_post cfg hw g) as (H1 & H2 & H3 & H4).
    apply wp_ret. rewrite app_nil_r. auto.
Qed.

Lemma run_cons cfg hw e evs g :
  state_of (run cfg hw (e :: evs) g)
  = state_of (run cfg hw evs (state_of (step cfg hw e g))) /\
  trace_of (run cfg hw (e :: evs) g)
  = trace_of (step cfg hw e g)
    ++ trace_of (run cfg hw evs (state_of (step cfg hw e g))).
Proof.
  cbn [run]. unfold bind, state_of, trace_of.
  destruct (step cfg hw e g) as [[a g1] t1]. cbn [fst snd].
  destruct (run cfg hw evs g1) as [[b g2] t2]. split; reflexivity.
Qed.

Lemma run_app cfg hw evs1 evs2 g :
  state_of (run cfg hw (evs1 ++ evs2) g)
  = state_of (run cfg hw evs2 (state_of (run cfg hw evs1 g))) /\
  trace_of (run cfg hw (evs1 ++ evs2) g)
  = trace_of (run cfg hw evs1 g)
    ++ trace_of (run cfg hw evs2 (state_of (run cfg hw evs1 g))).
Proof.
  revert g. induction evs1 as [| e evs1 IH]; intros g.
  - split; reflexivity.
  - cbn [app].
    destruct (run_cons cfg hw e (evs1 ++ evs2) g) as [-> ->].
    destruct (run_cons cfg hw e evs1 g) as [-> ->].
    destruct (IH (state_of (step cfg hw e g))) as [-> ->].
    split; [reflexivity | apply app_assoc].
Qed.

Lemma bind_run {A B} (m : M A) (k : A -> M B) g :
  state_of (bind m k g) = state_of (k (result (m g)) (state_of (m g))) /\
  trace_of (bind m k g)
  = trace_of (m g) ++ trace_of (k (result (m g)) (state_of (m g))).
Proof.
  unfold bind, state_of, trace_of, result.
  destruct (m g) as [[a g1] t1]. cbn [fst snd].
  destruct (k a g1) as [[b g2] t2]. split; reflexivity.
Qed.

Lemma u8_small z : 0 <= z < 256 -> u8 z = z.
Proof. intros H. unfold u8. apply Z.mod_small. exact H. Qed.

(** One call, seen from the payload buffer. *)
Lemma step_payload cfg hw e g :
  IS_INITIATOR cfg g = false ->
  0 <= n_rx g < 255 ->
  let g' := state_of (step cfg hw e g) in
  let tr := trace_of (step cfg hw e g) in
  initiator_id g' = initiator_id g /\
  ((n_rx g' = n_rx g /\ payload g' = payload g /\ count_memcpy tr = 0%nat) \/
   (is_rx_ended e = true /\ n_rx g' = n_rx g + 1 /\
    ((n_rx g = 0 /\ count_memcpy tr = 1%nat) \/
     (1 <= n_rx g /\ count_memcpy tr = 0%nat /\ payload g' = payload g)))).
Proof.
  intros Hrecv Hn. cbv zeta.
  pose proof (step_summary cfg hw e g) as H.
  revert H.
  generalize (state_of (step cfg hw e g)) as g'.
  generalize (trace_of (step cfg hw e g)) as tr.
  intros tr g' H.
  assert (Hblk : R_blk g g' tr ->
    initiator_id g' = initiator_id g /\
    ((n_rx g' = n_rx g /\ payload g' = payload g /\ count_memcpy tr = 0%nat) \/
     (is_rx_ended e = true /\ n_rx g' = n_rx g + 1 /\
      ((n_rx g = 0 /\ count_memcpy tr = 1%nat) \/
       (1 <= n_rx g /\ count_memcpy tr = 0%nat /\ payload g' = payload g))))).
  { intros (Hc & Hm & _). apply core_fields in Hc. intuition. }
  destruct e; unfold step_post in H; try (apply Hblk; exact H).
  - (* rx_ended *)
    destruct (result (process_glossy_header cfg pkt pkt_len true g));
      unfold rx_ended_post in H; [| apply Hblk; exact H].
    destruct H as (Hi & Htx & Hrx & Hh & Hcpy & _).
    rewrite Hrecv in Hcpy. cbn [negb andb] in Hcpy.
    rewrite u8_small in Hrx by lia. rewrite Hrx in Hcpy.
    split; [exact Hi |]. right. split; [reflexivity |]. split; [exact Hrx |].
    destruct (Z.eqb_spec (n_rx g + 1) 1) as [E | E].
    + left. split; [lia | exact Hcpy].
    + right. split; [lia | exact Hcpy].
  - (* tx_ended *)
    destruct H as (Hi & Hrx & Hpay & _ & _ & Hm & _). auto.
  - (* timeout_expired *)
    destruct H as (Hc & Hm). injection Hc as Hi Hrx Htx Hpay Hact Hpt. auto.
  - (* stop *)
    destruct H as (Hc & _ & Hm & _). injection Hc as Hi Hrx Htx Hpay Hh. auto.
Qed.

Lemma count_rx_ended_cons e evs :
  count_rx_ended (e :: evs)
  = ((if is_rx_ended e then 1 else 0) + count_rx_ended evs)%nat.
Proof. unfold count_rx_ended. cbn [filter]. destruct (is_rx_ended e); reflexivity. Qed.

Lemma run_payload cfg hw evs : forall g,
  IS_INITIATOR cfg g = false ->
  0 <= n_rx g ->
  n_rx g + Z.of_nat (count_rx_ended evs) <= 255 ->
  let g' := state_of (run cfg hw evs g) in
  let tr := trace_of (run cfg hw evs g) in
  initiator_id g' = initiator_id g /\
  n_rx g <= n_rx g' <= n_rx g + Z.of_nat (count_rx_ended evs) /\
  count_memcpy tr
  = (if (n_rx g =? 0) && (1 <=? n_rx g') then 1%nat else 0%nat) /\
  (1 <= n_rx g -> payload g' = payload g).
Proof.
  induction evs as [| e evs IH]; intros g Hrecv H0 Hb; cbv zeta.
  - cbn. repeat split; try lia.
    destruct (Z.eqb_spec (n_rx g) 0) as [E | E]; cbn [andb]; [| reflexivity].
    rewrite E. reflexivity.
  - destruct (run_cons cfg hw e evs g) as [-> ->].
    rewrite count_rx_ended_cons in *.
    assert (Hle : n_rx g + Z.of_nat (count_rx_ended evs) <= 255)
      by (revert Hb; destruct (is_rx_ended e); lia).
    destruct (Z.eq_dec (n_rx g) 255) as [E255 | N255].
    { (* no reception left in the budget *)
      assert (He : is_rx_ended e = false) by (destruct (is_rx_ended e); [lia | reflexivity]).
      pose proof (step_summary cfg hw e g) as Hs.
      assert (Hk : initiator_id (state_of (step cfg hw e g)) = initiator_id g /\
                   n_rx (state_of (step cfg hw e g)) = n_rx g /\
                   payload (state_of (step cfg hw e g)) = payload g /\
                   count_memcpy (trace_of (step cfg hw e g)) = 0%nat).
      { destruct e; try discriminate He; unfold step_post in Hs.
        1-3, 5-6: destruct Hs as (Hc & Hm & _); apply core_fields in Hc; intuition.
        - destruct Hs as (Hi & Hrx & Hpay & _ & _ & Hm & _). auto.
        - destruct Hs as (Hc & Hm). injection Hc as Hi Hrx Htx Hpay Hact Hpt. auto.
        - destruct Hs as (Hc & _ & Hm & _). injection Hc as Hi Hrx Htx Hpay Hh. auto. }
      destruct Hk as (Hi & Hrx & Hpay & Hm).
      rewrite He in *.
      specialize (IH (state_of (step cfg hw e g))).
      unfold IS_INITIATOR in *. rewrite Hi, Hrx in IH.
      specialize (IH Hrecv H0 ltac:(lia)). cbv zeta in IH.
      destruct IH as (IH1 & IH2 & IH3 & IH4).
      rewrite count_memcpy_app, Hm, IH3, IH1.
      repeat split; try lia; try reflexivity.
      intros H1. rewrite IH4 by lia. exact Hpay. }
    destruct (step_payload cfg hw e g Hrecv ltac:(lia)) as (Hi & Hcase).
    specialize (IH (state_of (step cfg hw e g))).
    unfold IS_INITIATOR in *. rewrite Hi in IH. specialize (IH Hrecv).
    destruct Hcase as [(Hrx & Hpay & Hm) | (He & Hrx & Hcase)].
    + rewrite Hrx in IH.
      specialize (IH H0 Hle). cbv zeta in IH.
      destruct IH as (IH1 & IH2 & IH3 & IH4).
      rewrite count_memcpy_app, Hm, IH3, IH1.
      repeat split; try lia; try reflexivity.
      intros H1. rewrite IH4 by lia. exact Hpay.
    + rewrite He in *. rewrite Hrx in IH.
      specialize (IH ltac:(lia) ltac:(lia)). cbv zeta in IH.
      destruct IH as (IH1 & IH2 & IH3 & IH4).
      rewrite count_memcpy_app, IH3, IH1.
      destruct (Z.eqb_spec (n_rx g + 1) 0) as [E | E]; [lia |].
      cbn [andb].
      destruct Hcase as [(Hz & Hm) | (Hz & Hm & Hpay)]; rewrite Hm.
      * rewrite Hz. cbn [Z.eqb andb].
        destruct (Z.leb_spec 1 (n_rx (state_of (run cfg hw evs (state_of (step cfg hw e g)))))); [| lia].
        repeat split; try lia.
      * destruct (Z.eqb_spec (n_rx g) 0) as [E0 | E0]; [lia |]. cbn [andb].
        repeat split; try lia. intros _. rewrite IH4 by lia. exact Hpay.
Qed.

Lemma count_rx_ended_app evs1 evs2 :
  count_rx_ended (evs1 ++ evs2)
  = (count_rx_ended evs1 + count_rx_ended evs2)%nat.
Proof. unfold count_rx_ended. rewrite filter_app, length_app. reflexivity. Qed.

(** C3 (as amended). On a receiver, in a flood with at most 255 [rx_ended]
    callbacks, the payload buffer has been stored into exactly once when
    [n_rx >= 1] and not at all when [n_rx = 0], at every point of the flood;
    once [n_rx >= 1], whatever calls follow store nothing more and leave the
    buffer as it is. *)
Theorem payload_written_once cfg hw g initiator buf len n_tx_max ws cal
    evs1 evs2 :
  initiator <> node_id cfg ->
  (count_rx_ended (evs1 ++ evs2) <= 255)%nat ->
  let r1 := (glossy_start cfg hw initiator buf len n_tx_max ws cal ;;
             run cfg hw evs1) g in
  let r2 := run cfg hw evs2 (state_of r1) in
  count_memcpy (trace_of r1)
  = (if 1 <=? n_rx (state_of r1) then 1%nat else 0%nat) /\
  (1 <= n_rx (state_of r1) ->
   count_memcpy (trace_of r2) = 0%nat /\
   payload (state_of r2) = payload (state_of r1)).
Proof.
  intros Hne Hcnt. cbv zeta. rewrite count_rx_ended_app in Hcnt.
  destruct (bind_run (glossy_start cfg hw initiator buf len n_tx_max ws cal)
              (fun _ => run cfg hw evs1) g) as [-> ->].
  destruct (glossy_start_post cfg hw initiator buf len n_tx_max ws cal g)
    as (Hi & Hrx & _ & _ & _ & Hm & _).
  revert Hi Hrx Hm.
  generalize (state_of (glossy_start cfg hw initiator buf len n_tx_max ws cal g)) as gs.
  generalize (trace_of (glossy_start cfg hw initiator buf len n_tx_max ws cal g)) as ts.
  intros ts gs Hi Hrx Hm.
  assert (Hrecv : IS_INITIATOR cfg gs = false).
  { unfold IS_INITIATOR. rewrite Hi. apply Z.eqb_neq. exact Hne. }
  destruct (run_payload cfg hw evs1 gs Hrecv ltac:(lia) ltac:(lia))
    as (Hi1 & Hb1 & Hm1 & _).
  rewrite count_memcpy_app, Hm, Hm1, Hrx. cbn [Z.eqb andb Nat.add].
  split; [reflexivity |]. intros Hge.
  assert (Hrecv1 : IS_INITIATOR cfg (state_of (run cfg hw evs1 gs)) = false).
  { unfold IS_INITIATOR in *. rewrite Hi1. exact Hrecv. }
  destruct (run_payload cfg hw evs2 _ Hrecv1 ltac:(lia) ltac:(lia))
    as (_ & _ & Hm2 & Hp2).
  rewrite Hm2. split; [| apply Hp2; exact Hge].
  destruct (Z.eqb_spec (n_rx (state_of (run cfg hw evs1 gs))) 0); [lia | reflexivity].
Qed.

(** *** The bound on the number of transmissions *)

Lemma step_n_tx_bounded cfg hw k e g :
  1 <= k <= 15 ->
  active g <> 0 ->
  n_tx_bounded k g ->
  carries_n_tx_max k e ->
  n_tx_bounded k (state_of (step cfg hw e g)).
Proof.
  intros Hk Hact (Hh & Hn & Hlt) Hc. specialize (Hlt Hact).
  pose proof (step_summary cfg hw e g) as H. revert H.
  generalize (state_of (step cfg hw e g)) as g'.
  generalize (trace_of (step cfg hw e g)) as tr.
  intros tr g' H. unfold n_tx_bounded.
  assert (Hblk : R_blk g g' tr ->
            GET_N_TX_MAX (pkt_type (header g')) = k /\ 0 <= n_tx g' <= k /\
            (active g' <> 0 -> n_tx g' < k)).
  { intros (Hcore & _). apply core_fields in Hcore.
    destruct Hcore as (_ & _ & Htx & _ & Hhdr & _). rewrite Htx, Hhdr.
    repeat split; try lia; try assumption. }
  destruct e; unfold step_post in H; try (apply Hblk; exact H).
  - destruct (result (process_glossy_header cfg pkt pkt_len true g));
      unfold rx_ended_post in H; [| apply Hblk; exact H].
    destruct H as (_ & Htx & _ & Hhdr & _ & _).
    rewrite Htx, Hhdr. cbn in Hc |- *. repeat split; try lia; try assumption.
  - destruct H as (_ & _ & _ & Hhdr & Htx & _ & _ & Ha).
    rewrite Hh in Ha. rewrite u8_small in Htx, Ha by lia.
    rewrite Htx, Hhdr. split; [exact Hh |]. split; [lia |].
    destruct (Z.eqb_spec (n_tx g + 1) k) as [E | E].
    + replace (k >? 0) with true in Ha by (symmetry; apply Z.gtb_lt; lia).
      cbn in Ha. intros Hc'. contradiction.
    + intros _. lia.
  - destruct H as (Hcore & _). injection Hcore as _ _ Htx _ _ Hpt.
    rewrite Htx, Hpt. repeat split; try lia; try assumption.
  - destruct H as (Hcore & Ha & _). injection Hcore as _ _ Htx _ Hhdr.
    rewrite Htx, Hhdr. repeat split; try lia; try assumption.
Qed.

Lemma run_while_active_cons cfg hw e evs g :
  state_of (run_while_active cfg hw (e :: evs) g)
  = if truthy (active g)
    then state_of (run_while_active cfg hw evs (state_of (step cfg hw e g)))
    else g.
Proof.
  cbn [run_while_active]. unfold bind at 1, get. cbn [fst snd].
  destruct (truthy (active g)).
  - set (m := bind _ _).
    destruct (bind_run (step cfg hw e) (fun _ => run_while_active cfg hw evs) g)
      as [Hs _].
    fold m in Hs. unfold state_of in *.
    destruct (m g) as [[b g2] t2]. exact Hs.
  - reflexivity.
Qed.

Lemma run_while_active_n_tx_bounded cfg hw k evs : forall g,
  1 <= k <= 15 ->
  n_tx_bounded k g ->
  Forall (carries_n_tx_max k) evs ->
  n_tx_bounded k (state_of (run_while_active cfg hw evs g)).
Proof.
  induction evs as [| e evs IH]; intros g Hk Hb Hc.
  - exact Hb.
  - rewrite run_while_active_cons. inversion Hc; subst.
    destruct (truthy (active g)) eqn:Ea; [| exact Hb].
    apply IH; try assumption.
    apply step_n_tx_bounded; try assumption.
    apply truthy_true. exact Ea.
Qed.

Lemma land_15_small k : 0 <= k <= 15 -> Z.land k GLOSSY_HEADER_N_TX_MASK = k.
Proof.
  intros H. change GLOSSY_HEADER_N_TX_MASK with (Z.ones 4).
  rewrite Z.land_ones by lia. apply Z.mod_small. change (2 ^ 4) with 16. lia.
Qed.

(** C6 (as amended). A flood started with [n_tx_max = k], [1 <= k <= 15],
    whose calls are delivered only while it is active and whose received
    packets carry [k], ends with [n_tx <= n_tx_max]. *)
Theorem n_tx_bounded_at_stop cfg hw g initiator buf len k ws cal evs :
  1 <= k <= 15 ->
  Forall (carries_n_tx_max k) evs ->
  let r := (glossy_start cfg hw initiator buf len k ws cal ;;
            run_while_active cfg hw evs ;;
            glossy_stop cfg hw) g in
  active (state_of r) = 0 /\
  GET_N_TX_MAX (pkt_type (header (state_of r))) = k /\
  n_tx (state_of r) <= k.
Proof.
  intros Hk Hc. cbv zeta.
  destruct (bind_run (glossy_start cfg hw initiator buf len k ws cal)
              (fun _ => run_while_active cfg hw evs ;; glossy_stop cfg hw) g)
    as [-> _].
  destruct (glossy_start_post cfg hw initiator buf len k ws cal g)
    as (_ & _ & Htx & _ & Hh & _ & _).
  revert Htx Hh.
  generalize (state_of (glossy_start cfg hw initiator buf len k ws cal g)) as gs.
  intros gs Htx Hh.
  destruct (bind_run (run_while_active cfg hw evs)
              (fun _ => glossy_stop cfg hw) gs) as [-> _].
  assert (Hb : n_tx_bounded k gs).
  { unfold n_tx_bounded. rewrite Hh, Htx. cbn [pkt_type].
    destruct (SET_PKT_TYPE_fields cfg ws k) as (_ & _ & ->).
    rewrite land_15_small by lia. repeat split; lia. }
  pose proof (run_while_active_n_tx_bounded cfg hw k evs gs Hk Hb Hc) as Hr.
  revert Hr. generalize (state_of (run_while_active cfg hw evs gs)) as g1.
  intros g1 (H1 & H2 & _).
  destruct (glossy_stop_post cfg hw g1) as (Hcore & Ha & _).
  unfold core_noact in Hcore. injection Hcore as _ _ Hn _ Hhd.
  rewrite Ha, Hn, Hhd. repeat split; try lia; assumption.
Qed.

(** *** Unbounded floods on a receiver *)

Lemma step_unbounded_receiver cfg hw e g :
  unbounded_receiver cfg g ->
  carries_n_tx_max 0 e ->
  is_stop e = false ->
  n_tx g + (if is_tx_ended e then 1 else 0) <= 255 ->
  unbounded_receiver cfg (state_of (step cfg hw e g)) /\
  n_tx (state_of (step cfg hw e g))
  = n_tx g + (if is_tx_ended e then 1 else 0).
Proof.
  intros (Hrecv & Hh & Hact & Hn) Hc Hs Hb.
  pose proof (step_summary cfg hw e g) as H. revert H.
  generalize (state_of (step cfg hw e g)) as g'.
  generalize (trace_of (step cfg hw e g)) as tr.
  intros tr g' H. unfold unbounded_receiver, IS_INITIATOR in *.
  assert (Hblk : R_blk g g' tr -> is_tx_ended e = false ->
            ((initiator_id g' =? node_id cfg) = false /\
             GET_N_TX_MAX (pkt_type (header g')) = 0 /\ active g' = 1 /\
             0 <= n_tx g') /\
            n_tx g' = n_tx g + (if is_tx_ended e then 1 else 0)).
  { intros (Hcore & _) ->. apply core_fields in Hcore.
    destruct Hcore as (Hi & _ & Htx & _ & Hhdr & Ha).
    rewrite Hi, Htx, Hhdr, Ha. repeat split; try lia; assumption. }
  destruct e; unfold step_post in H; try discriminate Hs;
    try (apply Hblk; [exact H | reflexivity]).
  - destruct (result (process_glossy_header cfg pkt pkt_len true g));
      unfold rx_ended_post in H; [| apply Hblk; [exact H | reflexivity]].
    destruct H as (Hi & Htx & _ & Hhdr & _ & Hrel).
    cbn in Hc. rewrite Hc in Hrel. cbn [Z.eqb orb] in Hrel.
    destruct Hrel as (Ha & _).
    rewrite Hi, Htx, Hhdr, Ha. cbn [pkt_type relayed_header is_tx_ended].
    repeat split; try lia; assumption.
  - destruct H as (Hi & _ & _ & Hhdr & Htx & _ & _ & Ha).
    cbn [is_tx_ended] in *.
    rewrite Hh in Ha. rewrite u8_small in Htx, Ha by lia.
    destruct (Z.eqb_spec (n_tx g + 1) 0) as [E | E]; [lia |].
    cbn [andb] in Ha.
    rewrite Hi, Htx, Hhdr, Ha. repeat split; try lia; assumption.
  - destruct H as (Hcore & _). injection Hcore as Hi _ Htx _ Ha Hpt.
    rewrite Hi, Htx, Hpt, Ha. cbn [is_tx_ended].
    repeat split; try lia; assumption.
Qed.

Lemma count_tx_ended_cons e evs :
  count_tx_ended (e :: evs)
  = ((if is_tx_ended e then 1 else 0) + count_tx_ended evs)%nat.
Proof. unfold count_tx_ended. cbn [filter]. destruct (is_tx_ended e); reflexivity. Qed.

Lemma run_unbounded_receiver cfg hw evs : forall g,
  unbounded_receiver cfg g ->
  Forall (fun e => carries_n_tx_max 0 e /\ is_stop e = false) evs ->
  n_tx g + Z.of_nat (count_tx_ended evs) <= 255 ->
  unbounded_receiver cfg (state_of (run cfg hw evs g)).
Proof.
  induction evs as [| e evs IH]; intros g Hu Hf Hb.
  - exact Hu.
  - destruct (run_cons cfg hw e evs g) as [-> _].
    inversion Hf as [| ? ? [Hc Hs] Hf']; subst.
    rewrite count_tx_ended_cons in Hb.
    destruct (step_unbounded_receiver cfg hw e g Hu Hc Hs) as (Hu' & Hn').
    { destruct (is_tx_ended e); lia. }
    apply IH; try assumption. rewrite Hn'.
    destruct (is_tx_ended e); lia.
Qed.

(** C9 (as amended). A receiver started with [n_tx_max = 0] whose received
    packets carry [n_tx_max = 0] stays active through every sequence of
    callbacks (no [glossy_stop] by the caller) that holds at most 255
    [tx_ended]. *)
Theorem unbounded_receiver_stays_active cfg hw g initiator buf len ws cal evs :
  initiator <> node_id cfg ->
  Forall (fun e => carries_n_tx_max 0 e /\ is_stop e = false) evs ->
  (count_tx_ended evs <= 255)%nat ->
  active (state_of ((glossy_start cfg hw initiator buf len 0 ws cal ;;
                     run cfg hw evs) g)) = 1.
Proof.
  intros Hne Hf Hcnt.
  destruct (bind_run (glossy_start cfg hw initiator buf len 0 ws cal)
              (fun _ => run cfg hw evs) g) as [-> _].
  destruct (glossy_start_post cfg hw initiator buf len 0 ws cal g)
    as (Hi & _ & Htx & _ & Hh & _ & Ha).
  specialize (Ha Hne). revert Hi Htx Hh Ha.
  generalize (state_of (glossy_start cfg hw initiator buf len 0 ws cal g)) as gs.
  intros gs Hi Htx Hh Ha.
  assert (Hu : unbounded_receiver cfg gs).
  { unfold unbounded_receiver, IS_INITIATOR. rewrite Hi, Hh, Htx, Ha.
    cbn [pkt_type].
    destruct (SET_PKT_TYPE_fields cfg ws 0) as (_ & _ & ->).
    split; [apply Z.eqb_neq; exact Hne |]. repeat split; try lia. }
  apply (run_unbounded_receiver cfg hw evs gs Hu Hf). lia.
Qed.

(** C1 (as amended). After an accepted reception that is relayed, [g.header]
    is the received header with [relay_cnt] replaced by
    [(relay_cnt + 1) mod 256], and the one header handed to the TX FIFO is its
    first [GLOSSY_HEADER_LEN] bytes: when the header has two bytes the relay
    counter on the wire is the received one plus 1 modulo 256, hence plus 1
    whenever the received one is below 255. *)
Theorem rx_ended_relay_cnt cfg hw t pkt pkt_len g :
  result (process_glossy_header cfg pkt pkt_len true g) = true ->
  GET_N_TX_MAX (nth 0 pkt 0) = 0 \/ n_tx g < GET_N_TX_MAX (nth 0 pkt 0) ->
  let r := glossy_rx_ended cfg hw t pkt pkt_len g in
  header (state_of r)
  = {| pkt_type := nth 0 pkt 0; relay_cnt := (nth 1 pkt 0 + 1) mod 256 |} /\
  tx_fifo_headers (trace_of r) = [header_bytes cfg (state_of r)] /\
  (GLOSSY_HEADER_LEN cfg (state_of r) = 2 ->
   tx_relay_cnt (trace_of r) = Some ((nth 1 pkt 0 + 1) mod 256)) /\
  (GLOSSY_HEADER_LEN cfg (state_of r) = 2 -> 0 <= nth 1 pkt 0 < 255 ->
   tx_relay_cnt (trace_of r) = Some (nth 1 pkt 0 + 1)).
Proof.
  intros Hok Hrel. cbv zeta.
  pose proof (glossy_rx_ended_summary cfg hw t pkt pkt_len g) as H.
  cbv zeta in H. rewrite Hok in H. unfold rx_ended_post in H.
  destruct H as (_ & _ & _ & Hh & _ & Hf).
  replace ((GET_N_TX_MAX (nth 0 pkt 0) =? 0)
           || (n_tx g <? GET_N_TX_MAX (nth 0 pkt 0))) with true in Hf.
  2:{ symmetry. apply orb_true_iff.
      destruct Hrel as [E | E]; [left; apply Z.eqb_eq | right; apply Z.ltb_lt];
        exact E. }
  destruct Hf as (_ & Hf).
  assert (Hrc : GLOSSY_HEADER_LEN cfg (state_of (glossy_rx_ended cfg hw t pkt pkt_len g)) = 2 ->
                tx_relay_cnt (trace_of (glossy_rx_ended cfg hw t pkt pkt_len g))
                = Some ((nth 1 pkt 0 + 1) mod 256)).
  { intros H2. unfold tx_relay_cnt. rewrite Hf. unfold header_bytes.
    rewrite H2, Hh. reflexivity. }
  split; [exact Hh |]. split; [exact Hf |]. split; [exact Hrc |].
  intros H2 Hr. rewrite (Hrc H2). rewrite Z.mod_small by lia. reflexivity.
Qed.

Lemma set_stats_same g : set_stats (stats g) g = g.
Proof. destruct g; reflexivity. Qed.

Lemma step_never_activates cfg hw e g :
  active g = 0 -> active (state_of (step cfg hw e g)) = 0.
Proof.
  intros Ha.
  pose proof (step_summary cfg hw e g) as H. revert H.
  generalize (state_of (step cfg hw e g)) as g'.
  generalize (trace_of (step cfg hw e g)) as tr.
  intros tr g' H.
  assert (Hblk : R_blk g g' tr -> active g' = 0).
  { intros (Hcore & _). apply core_fields in Hcore.
    destruct Hcore as (_ & _ & _ & _ & _ & ->). exact Ha. }
  destruct e; unfold step_post in H; try (apply Hblk; exact H).
  - destruct (result (process_glossy_header cfg pkt pkt_len true g));
      unfold rx_ended_post in H; [| apply Hblk; exact H].
    destruct H as (_ & _ & _ & _ & _ & Hrel).
    destruct (_ || _); destruct Hrel as (-> & _); auto.
  - destruct H as (_ & _ & _ & _ & _ & _ & _ & ->).
    destruct (_ && _); auto.
  - destruct H as (Hcore & _). injection Hcore as _ _ _ _ -> _. exact Ha.
  - destruct H as (_ & -> & _). reflexivity.
Qed.

(** C5 (as amended). On an inactive flood [glossy_rx_failed] and
    [glossy_rx_tx_error] command nothing but the re-enabling of the timer
    update interrupt and change no field outside the statistics (none at all
    without statistics), and no call of the flood sets [active] again. *)
Theorem inactive_failure_callbacks cfg hw t e g :
  active g = 0 ->
  state_of (glossy_rx_failed cfg t g)
  = set_stats (stats (state_of (glossy_rx_failed cfg t g))) g /\
  trace_of (glossy_rx_failed cfg t g) = [rtimer_ext_update_enable] /\
  state_of (glossy_rx_tx_error cfg t g)
  = set_stats (stats (state_of (glossy_rx_tx_error cfg t g))) g /\
  trace_of (glossy_rx_tx_error cfg t g) = [rtimer_ext_update_enable] /\
  (GLOSSY_CONF_COLLECT_STATS cfg = false ->
   state_of (glossy_rx_failed cfg t g) = g /\
   state_of (glossy_rx_tx_error cfg t g) = g) /\
  active (state_of (step cfg hw e g)) = 0.
Proof.
  intros Ha.
  split; [| split; [| split; [| split; [| split]]]].
  6: apply step_never_activates; exact Ha.
  5: intros Hs.
  all: unfold glossy_rx_failed, glossy_rx_tx_error, count_rx_fail; unfold_m;
    try rewrite Hs.
  all: crunch.
  all: try match goal with
           | H : truthy (active _) = true |- _ =>
             rewrite Ha in H; discriminate H
           end.
  all: try reflexivity; try (split; reflexivity).
  all: rewrite ?set_stats_same; try reflexivity.
Qed.

(** *** add_T_slot_measurement *)

(** C7 (as amended). [add_T_slot_measurement] records a measurement [m]
    (adds it to [T_slot_sum], increments [n_T_slot] modulo 256) iff
    [|m - T_slot_estimated| < T_SLOT_TOLERANCE], strictly, with the two window
    bounds computed without 32-bit wrap-around; otherwise it leaves the state
    as it is.  Every recorded [m] has [|m - T_slot_estimated| <= 10]. *)
Theorem add_T_slot_measurement_window cfg g m :
  0 <= m < 2 ^ 32 ->
  0 <= T_slot_estimated g < 2 ^ 32 ->
  (in_T_slot_window g m ->
   state_of (add_T_slot_measurement cfg m g)
   = set_n_T_slot (u8 (n_T_slot g + 1))
       (set_T_slot_sum (clk cfg (T_slot_sum g + m)) g)) /\
  (~ in_T_slot_window g m ->
   state_of (add_T_slot_measurement cfg m g) = g) /\
  (state_of (add_T_slot_measurement cfg m g) <> g ->
   Z.abs (m - T_slot_estimated g) <= T_SLOT_TOLERANCE).
Proof.
  intros Hm He.
  unfold add_T_slot_measurement, in_T_slot_window, T_SLOT_TOLERANCE, u32.
  unfold_m.
  change (2 ^ 32) with 4294967296 in *.
  destruct (_ && _) eqn:E; msimpl; to_prop.
  - assert (W : 10 <= T_slot_estimated g /\
                T_slot_estimated g + 10 < 4294967296 /\
                Z.abs (m - T_slot_estimated g) < 10).
    { destruct E as [E1 E2].
      revert E1 E2. generalize (T_slot_estimated g) He. intros e He' E1 E2.
      Z.div_mod_to_equations. lia. }
    repeat split; try tauto; intros; try reflexivity; lia.
  - assert (W : ~ (10 <= T_slot_estimated g /\
                   T_slot_estimated g + 10 < 4294967296 /\
                   Z.abs (m - T_slot_estimated g) < 10)).
    { intros [W1 [W2 W3]].
      rewrite !Z.mod_small in E by lia. lia. }
    repeat split; try tauto; intros; try reflexivity; congruence.
Qed.

(** *** process_glossy_header *)

(** What the header check accepts.  With [header_ok] not latched,
    [process_glossy_header] accepts iff the tag is the configured one, the
    sync bits agree, [n_tx_max] agrees or is locally unknown, the payload
    length agrees or is locally unknown, and the packet is not longer than
    [GLOSSY_MAX_PACKET_LEN].  Unlike its two neighbours the sync test has no
    "unknown" alternative, although its comment announces one. *)
Theorem process_glossy_header_accepts cfg g pkt pkt_len crc_ok :
  header_ok g = 0 ->
  result (process_glossy_header cfg pkt pkt_len crc_ok g) = true <->
  (GET_COMMON_HEADER (nth 0 pkt 0) = GLOSSY_COMMON_HEADER cfg /\
   GET_SYNC (nth 0 pkt 0) = GET_SYNC (pkt_type (header g)) /\
   (GET_N_TX_MAX (nth 0 pkt 0) = GET_N_TX_MAX (pkt_type (header g)) \/
    GET_N_TX_MAX (pkt_type (header g)) = GLOSSY_UNKNOWN_N_TX_MAX cfg) /\
   (pkt_len - GLOSSY_HEADER_LEN cfg g = payload_len g \/
    payload_len g = GLOSSY_UNKNOWN_PAYLOAD_LEN cfg) /\
   pkt_len <= GLOSSY_MAX_PACKET_LEN cfg).
Proof.
  intros H. unfold process_glossy_header, GLOSSY_MAX_PACKET_LEN. unfold_m.
  rewrite H. msimpl.
  generalize (GLOSSY_HEADER_LEN cfg g). intros hl.
  crunch; to_prop; split; intros; try discriminate; try reflexivity;
    intuition (try lia; try congruence).
Qed.

(** C4. The sync test of [process_glossy_header] has no "unknown" case.
    A receiver started without the sync bit, with [n_tx_max] and the payload
    length unknown and [header_ok] not latched, is offered a packet of a
    synchronising flood: the tag is the configured one, the local [n_tx_max]
    and payload length are the unknown sentinels and the packet is not too
    long, so every check but the sync test passes; the header is refused at
    both stages, and [glossy_rx_ended] drops the packet, learning nothing.
    The same packet without the sync bit is accepted. *)
Theorem sync_mode_is_never_learned :
  let g := receiver_started_nosync in
  let pkt := world_pkt 0 3 in
  header_ok g = 0 /\
  GET_COMMON_HEADER (nth 0 pkt 0) = GLOSSY_COMMON_HEADER cc430 /\
  GET_N_TX_MAX (pkt_type (header g)) = GLOSSY_UNKNOWN_N_TX_MAX cc430 /\
  payload_len g = GLOSSY_UNKNOWN_PAYLOAD_LEN cc430 /\
  7 <= GLOSSY_MAX_PACKET_LEN cc430 /\
  GET_SYNC (pkt_type (header g)) = 0 /\
  GET_SYNC (nth 0 pkt 0) = GLOSSY_HEADER_SYNC_MASK /\
  result (process_glossy_header cc430 pkt 7 false g) = false /\
  result (process_glossy_header cc430 pkt 7 true g) = false /\
  n_rx (state_of (glossy_rx_ended cc430 hw0 200 pkt 7 g)) = 0 /\
  header (state_of (glossy_rx_ended cc430 hw0 200 pkt 7 g)) = header g /\
  tx_fifo_headers (trace_of (glossy_rx_ended cc430 hw0 200 pkt 7 g)) = [] /\
  result (process_glossy_header cc430 (0xc0 :: tl pkt) 6 true g) = true.
Proof.
  cbv zeta.
  repeat match goal with |- _ /\ _ => split end;
    vm_compute; solve [reflexivity | discriminate].
Qed.

(** *** C1 on concrete floods: relay counter at 255 *)
Lemma relay_cnt_wraps_at_255 :
  result (process_glossy_header cc430 (world_pkt 0 255) 7 true receiver_started)
  = true /\
  GET_N_TX_MAX (nth 0 (world_pkt 0 255) 0) = 0 /\
  tx_relay_cnt
    (trace_of (glossy_rx_ended cc430 hw0 200 (world_pkt 0 255) 7
                 receiver_started))
  <> Some (nth 1 (world_pkt 0 255) 0 + 1).
Proof.
  split; [vm_compute; reflexivity |]. split; [vm_compute; reflexivity |].
  vm_compute. discriminate.
Qed.

Lemma rx_ended_relay_cnt_witness :
  tx_relay_cnt
    (trace_of (glossy_rx_ended cc430 hw0 200 (world_pkt 0 3) 7
                 receiver_started))
  = Some 4.
Proof.
  apply (proj2 (proj2 (proj2
    (rx_ended_relay_cnt cc430 hw0 200 (world_pkt 0 3) 7 receiver_started
       ltac:(vm_compute; reflexivity)
       ltac:(left; vm_compute; reflexivity))))).
  - vm_compute; reflexivity.
  - vm_compute. split; [discriminate | reflexivity].
Defined.

(** *** C2 on concrete floods: order of product and division *)
Lemma stop_divides_the_product :
  active measured_state = 1 /\ t_ref_updated measured_state = 1 /\
  n_T_slot measured_state > 0 /\
  t_ref (state_of (glossy_stop cc430 hw0 measured_state))
  <> t_ref measured_state
     - relay_cnt_t_ref measured_state
       * (T_slot_sum measured_state / n_T_slot measured_state).
Proof.
  repeat split; try (vm_compute; reflexivity). vm_compute. discriminate.
Qed.

(** *** C3 on concrete floods: wrap-around of [n_rx] *)
Lemma payload_written_n_rx_wraps :
  let r := run cc430 hw0 (concat (repeat rx_tx_round 256)) receiver_started in
  count_memcpy (trace_of r) = 1%nat /\ ~ (n_rx (state_of r) >= 1).
Proof. vm_compute. split; [reflexivity | intros H; apply H; reflexivity]. Qed.

Lemma payload_written_once_witness :
  let r1 := (glossy_start cc430 hw0 1 [0; 0; 0; 0; 0] 0 0 1 0 ;;
             run cc430 hw0 [ev_rx_started 100;
                            ev_rx_ended 200 (world_pkt 0 3) 7]) g0 in
  let r2 := run cc430 hw0 rx_tx_round (state_of r1) in
  count_memcpy (trace_of r1) = 1%nat /\
  count_memcpy (trace_of r2) = 0%nat /\
  payload (state_of r2) = payload (state_of r1).
Proof.
  cbv zeta.
  destruct (payload_written_once cc430 hw0 g0 1 [0; 0; 0; 0; 0] 0 0 1 0
              [ev_rx_started 100; ev_rx_ended 200 (world_pkt 0 3) 7]
              rx_tx_round
              ltac:(vm_compute; discriminate)
              ltac:(vm_compute; lia)) as [H1 H2].
  split; [exact H1 |]. apply H2. vm_compute. discriminate.
Defined.

(** *** C4 on concrete floods: an accepted header *)
Lemma process_glossy_header_accepts_witness :
  result (process_glossy_header cc430 (world_pkt 0 3) 7 false receiver_started)
  = true.
Proof.
  apply (proj2 (process_glossy_header_accepts cc430 receiver_started
                  (world_pkt 0 3) 7 false ltac:(reflexivity))).
  vm_compute. repeat split; try discriminate; auto.
Defined.

(** *** C5 on concrete floods: callbacks after [glossy_stop] *)
Lemma late_callbacks_mutate_state :
  active receiver_stopped = 0 /\
  state_of (glossy_rx_started cc430 500 receiver_stopped) <> receiver_stopped /\
  n_rx (state_of (glossy_rx_ended cc430 hw0 600 (world_pkt 0 3) 7
                    receiver_stopped))
  <> n_rx receiver_stopped /\
  n_tx (state_of (glossy_tx_ended cc430 hw0 700 receiver_stopped))
  <> n_tx receiver_stopped.
Proof.
  split; [reflexivity |]. repeat split; vm_compute; discriminate.
Qed.

Lemma inactive_failure_callbacks_witness :
  trace_of (glossy_rx_failed cc430 500 receiver_stopped)
  = [rtimer_ext_update_enable] /\
  active (state_of (step cc430 hw0 (ev_rx_ended 600 (world_pkt 0 3) 7)
                      receiver_stopped)) = 0.
Proof.
  destruct (inactive_failure_callbacks cc430 hw0 500
              (ev_rx_ended 600 (world_pkt 0 3) 7) receiver_stopped
              ltac:(reflexivity)) as (_ & H1 & _ & _ & _ & H2).
  split; assumption.
Defined.

(** *** C6 on concrete floods: receptions without relay *)
Lemma n_rx_exceeds_n_tx_max :
  let r := (glossy_start cc430 hw0 1 [0; 0; 0; 0; 0] 0 1 1 0 ;;
            run_while_active cc430 hw0 two_receptions_no_relay ;;
            glossy_stop cc430 hw0) g0 in
  GET_N_TX_MAX (pkt_type (header (state_of r))) = 1 /\
  ~ (n_rx (state_of r) <= GET_N_TX_MAX (pkt_type (header (state_of r)))).
Proof. vm_compute. split; [reflexivity | intros H; apply H; reflexivity]. Qed.

Lemma n_tx_bounded_at_stop_witness :
  let r := (glossy_start cc430 hw0 1 [0; 0; 0; 0; 0] 0 1 1 0 ;;
            run_while_active cc430 hw0
              [ev_rx_started 100; ev_rx_ended 200 (world_pkt 1 0) 7;
               ev_tx_started 300; ev_tx_ended 400] ;;
            glossy_stop cc430 hw0) g0 in
  active (state_of r) = 0 /\
  GET_N_TX_MAX (pkt_type (header (state_of r))) = 1 /\
  n_tx (state_of r) <= 1.
Proof.
  apply (n_tx_bounded_at_stop cc430 hw0 g0 1 [0; 0; 0; 0; 0] 0 1 1 0).
  - lia.
  - repeat constructor.
Defined.

(** *** C7 on concrete floods: the bounds of the window *)
Lemma window_bounds_are_strict :
  Z.abs (1010 - T_slot_estimated estimated_1000) <= T_SLOT_TOLERANCE /\
  state_of (add_T_slot_measurement cc430 1010 estimated_1000) = estimated_1000 /\
  Z.abs (5 - T_slot_estimated estimated_5) <= T_SLOT_TOLERANCE /\
  state_of (add_T_slot_measurement cc430 5 estimated_5) = estimated_5.
Proof. vm_compute. repeat split; discriminate. Qed.

Lemma add_T_slot_measurement_window_witness :
  state_of (add_T_slot_measurement cc430 1003 estimated_1000)
  = set_n_T_slot (u8 (n_T_slot estimated_1000 + 1))
      (set_T_slot_sum (clk cc430 (T_slot_sum estimated_1000 + 1003))
         estimated_1000).
Proof.
  apply (proj1 (add_T_slot_measurement_window cc430 estimated_1000 1003
                  ltac:(vm_compute; split; [discriminate | reflexivity])
                  ltac:(vm_compute; split; [discriminate | reflexivity]))).
  vm_compute. repeat split; discriminate.
Defined.

(** *** C9 on concrete floods: wrap-around of [n_tx] *)
Lemma unbounded_receiver_stops_at_wrap :
  Forall (fun e => carries_n_tx_max 0 e /\ is_stop e = false)
    (concat (repeat rx_tx_round 256)) /\
  active (state_of ((glossy_start cc430 hw0 1 [0; 0; 0; 0; 0] 0 0 1 0 ;;
                     run cc430 hw0 (concat (repeat rx_tx_round 256))) g0))
  <> 1.
Proof.
  split.
  - apply Forall_concat. apply Forall_forall. intros l Hl.
    apply repeat_spec in Hl. subst l. repeat constructor.
  - vm_compute. discriminate.
Qed.

Lemma unbounded_receiver_stays_active_witness :
  active (state_of ((glossy_start cc430 hw0 1 [0; 0; 0; 0; 0] 0 0 1 0 ;;
                     run cc430 hw0 rx_tx_round) g0)) = 1.
Proof.
  apply (unbounded_receiver_stays_active cc430 hw0 g0 1 [0; 0; 0; 0; 0] 0 1 0).
  - vm_compute; discriminate.
  - repeat constructor.
  - vm_compute; lia.
Defined.

(** *** C10 on concrete floods: three CRC-ok packets out of four *)
Lemma glossy_get_per_fsr_range_witness :
  glossy_get_per stats_3_of_4 = 2500 /\ glossy_get_fsr stats_3_of_4 = 10000.
Proof.
  destruct (glossy_get_per_fsr_range stats_3_of_4
              ltac:(vm_compute; split; discriminate)
              ltac:(reflexivity)
              ltac:(vm_compute; split; discriminate)
              ltac:(reflexivity)) as (H1 & H2 & _).
  split; [exact H1 | exact H2].
Defined.

(** * Further properties of glossy.c *)

(** X1. Packet type byte: what [SET_PKT_TYPE] encodes, the [GET_] macros
    decode.  The tag is the configured one, the sync bit is set iff
    [with_sync] is non-zero, and of [n_tx_max] only the low four bits are
    kept, so 16 encodes as 0, the value reserved for "unknown". *)
Theorem pkt_type_roundtrip cfg with_sync n_tx_max :
  GET_COMMON_HEADER (SET_PKT_TYPE cfg with_sync n_tx_max)
  = GLOSSY_COMMON_HEADER cfg /\
  GET_SYNC (SET_PKT_TYPE cfg with_sync n_tx_max)
  = (if with_sync =? 0 then 0 else GLOSSY_HEADER_SYNC_MASK) /\
  GET_N_TX_MAX (SET_PKT_TYPE cfg with_sync n_tx_max) = n_tx_max mod 16 /\
  GET_N_TX_MAX (SET_PKT_TYPE cfg with_sync 16) = 0.
Proof.
  destruct (SET_PKT_TYPE_fields cfg with_sync n_tx_max) as (H1 & H2 & H3).
  destruct (SET_PKT_TYPE_fields cfg with_sync 16) as (_ & _ & H4).
  rewrite H1, H2, H3, H4. unfold truthy.
  change GLOSSY_HEADER_N_TX_MASK with (Z.ones 4).
  rewrite Z.land_ones by lia.
  repeat split. destruct (with_sync =? 0); reflexivity.
Qed.

Lemma lor_shiftl_8 a b :
  0 <= b < 256 -> Z.lor (Z.shiftl a 8) b = a * 256 + b.
Proof.
  intros Hb. rewrite Z.shiftl_mul_pow2 by lia. change (2 ^ 8) with 256.
  assert (L : Z.land (a * 256) b = 0).
  { apply Z.bits_inj'. intros n Hn. rewrite Z.land_spec, Z.testbit_0_l.
    destruct (Z.ltb_spec n 8).
    + change 256 with (2 ^ 8). rewrite Z.mul_pow2_bits_low by lia. reflexivity.
    + destruct (Z.eq_dec b 0) as [-> | Hnz].
      * rewrite Z.testbit_0_l. apply andb_false_r.
      * rewrite (Z.bits_above_log2 b n), andb_false_r; [reflexivity | lia |].
        apply Z.log2_lt_pow2; [lia |].
        apply Z.lt_le_trans with (2 ^ 8); [change (2 ^ 8) with 256; lia |].
        apply Z.pow_le_mono_r; lia. }
  rewrite <- Z.lxor_lor by exact L. symmetry. apply Z.add_nocarry_lxor. exact L.
Qed.

(** X2. [glossy_get_header] packs the header into 16 bits, the packet type
    in the high byte and the relay counter in the low byte: both are
    recovered by division and remainder. *)
Theorem glossy_get_header_unpack g :
  0 <= pkt_type (header g) < 256 ->
  0 <= relay_cnt (header g) < 256 ->
  glossy_get_header g / 256 = pkt_type (header g) /\
  glossy_get_header g mod 256 = relay_cnt (header g).
Proof.
  intros Hp Hr. unfold glossy_get_header, u16.
  rewrite lor_shiftl_8 by exact Hr.
  rewrite (Z.mod_small (_ + _)) by lia.
  split.
  - rewrite Z.div_add_l by lia. rewrite Z.div_small by lia. lia.
  - rewrite Z.add_comm, Z.mod_add by lia. apply Z.mod_small. lia.
Qed.

Lemma glossy_get_header_unpack_witness :
  glossy_get_header receiver_started / 256 = 0xd0 /\
  glossy_get_header receiver_started mod 256 = 0.
Proof.
  apply (glossy_get_header_unpack receiver_started); vm_compute;
    split; (discriminate || reflexivity).
Defined.

(** X3. A packet longer than [GLOSSY_MAX_PACKET_LEN] is never accepted once
    its CRC has been checked, whether or not its header had been accepted
    before: [process_glossy_header] returns 0 and changes nothing, and
    [glossy_rx_ended] counts no reception, keeps the header and the payload
    buffer and writes nothing into the TX FIFO. *)
Theorem oversized_packet_rejected cfg hw t pkt pkt_len g :
  pkt_len > GLOSSY_MAX_PACKET_LEN cfg ->
  process_glossy_header cfg pkt pkt_len true g = (false, g, []) /\
  let r := glossy_rx_ended cfg hw t pkt pkt_len g in
  n_rx (state_of r) = n_rx g /\
  header (state_of r) = header g /\
  payload (state_of r) = payload g /\
  tx_fifo_headers (trace_of r) = [] /\
  count_memcpy (trace_of r) = 0%nat.
Proof.
  intros Hlen. unfold GLOSSY_MAX_PACKET_LEN in Hlen.
  assert (Hgt : (pkt_len >? GLOSSY_CONF_PAYLOAD_LEN cfg
                           + GLOSSY_MAX_HEADER_LEN cfg) = true)
    by (apply Z.gtb_lt; lia).
  assert (Hp : process_glossy_header cfg pkt pkt_len true g = (false, g, [])).
  { unfold process_glossy_header. unfold_m. rewrite Hgt.
    rewrite !orb_true_r. crunch; reflexivity. }
  split; [exact Hp |]. cbv zeta.
  pose proof (glossy_rx_ended_summary cfg hw t pkt pkt_len g) as H.
  cbv zeta in H. rewrite Hp in H. cbn [result fst] in H.
  destruct H as (Hc & Hm & Hf). apply core_fields in Hc.
  destruct Hc as (_ & Hrx & _ & Hpay & Hh & _). auto.
Qed.

Lemma oversized_packet_rejected_witness :
  process_glossy_header cc430 (world_pkt 0 3) 105 true receiver_started
  = (false, receiver_started, []).
Proof.
  apply (proj1 (oversized_packet_rejected cc430 hw0 200 (world_pkt 0 3) 105
                  receiver_started ltac:(reflexivity))).
Defined.

(** X4. The header phase ([crc_ok = 0]) stores nothing: it can only latch
    [header_ok].  The CRC phase, when it accepts, stores the received header,
    derives [payload_len] from the packet length and the header length of
    the received packet type (modulo 256), and reprograms the RX header
    length of the radio. *)
Theorem header_learned_on_crc_ok cfg pkt pkt_len g :
  (let r := process_glossy_header cfg pkt pkt_len false g in
   header (state_of r) = header g /\
   payload_len (state_of r) = payload_len g /\
   trace_of r = []) /\
  (let r := process_glossy_header cfg pkt pkt_len true g in
   result r = true ->
   header (state_of r) = header_of_pkt pkt /\
   payload_len (state_of r)
   = (pkt_len - GLOSSY_HEADER_LEN cfg (state_of r)) mod 256 /\
   header_ok (state_of r) <> 0 /\
   trace_of r = [rf1a_set_header_len_rx (GLOSSY_HEADER_LEN cfg (state_of r))]).
Proof.
  split; cbv zeta; unfold process_glossy_header; unfold_m.
  - crunch; repeat split.
  - crunch; intros Hr; try discriminate Hr; repeat split; try discriminate.
    all: match goal with
         | H : negb (truthy (header_ok _)) = false |- _ =>
           apply negb_false_iff, truthy_true in H; exact H
         end.
Qed.

Lemma header_learned_on_crc_ok_witness :
  header (state_of (process_glossy_header cc430 (world_pkt 0 3) 7 true
                      receiver_started))
  = header_of_pkt (world_pkt 0 3).
Proof.
  apply (proj2 (header_learned_on_crc_ok cc430 (world_pkt 0 3) 7
                  receiver_started)).
  vm_compute. reflexivity.
Defined.

(** X5. [glossy_stop] on an active flood issues the same seven commands in
    the same order whatever the state, deactivates the flood, and counts the
    flood in the lifetime statistics on a receiver only: [flood_cnt] when a
    reception had started, [flood_cnt_success] when one had succeeded.  The
    packet counters and the error counter are not touched. *)
Theorem glossy_stop_active cfg hw g :
  active g <> 0 ->
  let r := glossy_stop cfg hw g in
  trace_of r = stop_commands /\
  active (state_of r) = 0 /\
  result r = n_rx g /\
  flood_cnt (stats (state_of r))
  = (if GLOSSY_CONF_COLLECT_STATS cfg && negb (IS_INITIATOR cfg g)
        && negb (last_flood_n_rx_started (stats g) =? 0)
     then (flood_cnt (stats g) + 1) mod 2 ^ 32 else flood_cnt (stats g)) /\
  flood_cnt_success (stats (state_of r))
  = (if GLOSSY_CONF_COLLECT_STATS cfg && negb (IS_INITIATOR cfg g)
        && negb (n_rx g =? 0)
     then (flood_cnt_success (stats g) + 1) mod 2 ^ 32
     else flood_cnt_success (stats g)) /\
  pkt_cnt (stats (state_of r)) = pkt_cnt (stats g) /\
  pkt_cnt_crcok (stats (state_of r)) = pkt_cnt_crcok (stats g) /\
  error_cnt (stats (state_of r)) = error_cnt (stats g).
Proof.
  intros Ha. apply truthy_true in Ha. cbv zeta.
  unfold glossy_stop, truthy in *. unfold_m. rewrite Ha.
  crunch; repeat split.
Qed.

Lemma glossy_stop_active_witness :
  trace_of (glossy_stop cc430 hw0 receiver_started) = stop_commands.
Proof.
  apply (glossy_stop_active cc430 hw0 receiver_started). vm_compute.
  discriminate.
Defined.

(** X6. [glossy_reset_stats] clears the five lifetime counters and nothing
    else: the statistics of the last flood and every field outside the
    statistics are as before.  The packet error rate then reads 0 and the
    flood success rate 10000. *)
Theorem reset_stats_rates g :
  let g' := state_of (glossy_reset_stats g) in
  glossy_get_per g' = 0 /\ glossy_get_fsr g' = 10000 /\
  lifetime_stats (stats g') = (0, 0, 0, 0, 0) /\
  last_flood_stats (stats g') = last_flood_stats (stats g) /\
  set_stats (stats g) g' = g /\
  trace_of (glossy_reset_stats g) = [].
Proof.
  cbv zeta. destruct g as [? ? ? ? ? ? ? ? ? ? ? ? ? ? ? ? ? ? ? ? ? ? st].
  destruct st. repeat split.
Qed.

(** X7. When the reference was captured at relay count 0 (the initiator's
    own first transmission), [glossy_stop] leaves [t_ref] where it is. *)
Theorem glossy_stop_keeps_hop0_reference cfg hw g :
  relay_cnt_t_ref g = 0 ->
  0 <= t_ref g < 2 ^ RTIMER_EXT_CLOCK_BITS cfg ->
  t_ref (state_of (glossy_stop cfg hw g)) = t_ref g.
Proof.
  intros Hr Ht. unfold glossy_stop. unfold_m. rewrite Hr.
  crunch; try reflexivity.
  all: unfold clk, u32; rewrite ?Z.mul_0_l, ?Zmod_0_l, ?Zdiv_0_l, ?Z.sub_0_r.
  all: apply Z.mod_small; exact Ht.
Qed.

Lemma glossy_stop_keeps_hop0_reference_witness :
  t_ref (state_of (glossy_stop cc430 hw0 receiver_started))
  = t_ref receiver_started.
Proof.
  apply (glossy_stop_keeps_hop0_reference cc430 hw0 receiver_started).
  - reflexivity.
  - vm_compute. split; [discriminate | reflexivity].
Defined.

(** X8. [n_tx] counts the completed transmissions of a flood modulo 256:
    over any sequence of calls it advances by the number of [tx_ended]
    callbacks and by nothing else. *)
Theorem n_tx_counts_tx_ended cfg hw evs : forall g,
  0 <= n_tx g < 256 ->
  n_tx (state_of (run cfg hw evs g))
  = (n_tx g + Z.of_nat (count_tx_ended evs)) mod 256.
Proof.
  induction evs as [| e evs IH]; intros g Hn.
  - cbn. rewrite Z.add_0_r, Z.mod_small by lia. reflexivity.
  - destruct (run_cons cfg hw e evs g) as [-> _].
    rewrite count_tx_ended_cons.
    pose proof (step_summary cfg hw e g) as H. revert H.
    generalize (state_of (step cfg hw e g)) as g'.
    generalize (trace_of (step cfg hw e g)) as tr.
    intros tr g' H.
    assert (Hsame : n_tx g' = n_tx g -> is_tx_ended e = false ->
              n_tx (state_of (run cfg hw evs g'))
              = (n_tx g + Z.of_nat ((if is_tx_ended e then 1 else 0)
                                     + count_tx_ended evs)) mod 256).
    { intros E ->. rewrite IH by (rewrite E; exact Hn). rewrite E.
      reflexivity. }
    destruct e; unfold step_post in H.
    1-3, 6-7: destruct H as (Hc & _); apply core_fields in Hc;
      apply Hsame; [tauto | reflexivity].
    + destruct (result (process_glossy_header cfg pkt pkt_len true g));
        unfold rx_ended_post in H.
      * apply Hsame; [tauto | reflexivity].
      * destruct H as (Hc & _); apply core_fields in Hc.
        apply Hsame; [tauto | reflexivity].
    + destruct H as (_ & _ & _ & _ & Htx & _). cbn [is_tx_ended].
      rewrite IH by (rewrite Htx; unfold u8; apply Z.mod_pos_bound; lia).
      rewrite Htx. unfold u8. rewrite Nat2Z.inj_add.
      change (Z.of_nat 1) with 1.
      rewrite Zplus_mod_idemp_l. f_equal. lia.
    + destruct H as (Hc & _). injection Hc as _ _ Htx _ _ _.
      apply Hsame; [exact Htx | reflexivity].
    + destruct H as (Hc & _). injection Hc as _ _ Htx _ _.
      apply Hsame; [exact Htx | reflexivity].
Qed.

Lemma n_tx_counts_tx_ended_witness :
  n_tx (state_of (run cc430 hw0 rx_tx_round receiver_started)) = 1.
Proof.
  apply (n_tx_counts_tx_ended cc430 hw0 rx_tx_round receiver_started).
  vm_compute. split; [discriminate | reflexivity].
Defined.

(** X9. On the initiator no call of the flood ever stores into the payload
    buffer: it holds the caller's payload throughout. *)
Theorem initiator_payload_untouched cfg hw evs : forall g,
  IS_INITIATOR cfg g = true ->
  payload (state_of (run cfg hw evs g)) = payload g /\
  count_memcpy (trace_of (run cfg hw evs g)) = 0%nat.
Proof.
  induction evs as [| e evs IH]; intros g Hi.
  - split; reflexivity.
  - destruct (run_cons cfg hw e evs g) as [-> ->].
    pose proof (step_summary cfg hw e g) as H. revert H.
    generalize (state_of (step cfg hw e g)) as g'.
    generalize (trace_of (step cfg hw e g)) as tr.
    intros tr g' H.
    assert (Hk : initiator_id g' = initiator_id g /\ payload g' = payload g /\
                 count_memcpy tr = 0%nat).
    { destruct e; unfold step_post in H.
      1-3, 6-7: destruct H as (Hc & Hm & _); apply core_fields in Hc; tauto.
      - destruct (result (process_glossy_header cfg pkt pkt_len true g));
          unfold rx_ended_post in H.
        + destruct H as (Hid & _ & _ & _ & Hcpy & _).
          rewrite Hi in Hcpy. cbn [negb andb] in Hcpy. tauto.
        + destruct H as (Hc & Hm & _); apply core_fields in Hc; tauto.
      - destruct H as (Hid & _ & Hpay & _ & _ & Hm & _). tauto.
      - destruct H as (Hc & Hm). injection Hc as Hid _ _ Hpay _ _. tauto.
      - destruct H as (Hc & _ & Hm & _). injection Hc as Hid _ _ Hpay _. tauto. }
    destruct Hk as (Hid & Hpay & Hm).
    destruct (IH g') as (IH1 & IH2).
    { unfold IS_INITIATOR in *. rewrite Hid. exact Hi. }
    rewrite count_memcpy_app, Hm, IH1, IH2, Hpay. split; reflexivity.
Qed.

Lemma initiator_payload_untouched_witness :
  payload (state_of (run cc430 hw0 rx_tx_round
                       (set_initiator_id 2 receiver_started)))
  = [0; 0; 0; 0; 0].
Proof.
  apply (initiator_payload_untouched cc430 hw0 rx_tx_round
           (set_initiator_id 2 receiver_started)).
  reflexivity.
Defined.

Lemma process_glossy_header_rejected_early cfg hdr len g :
  result (process_glossy_header cfg hdr len false g) = false ->
  process_glossy_header cfg hdr len false g = (false, g, []).
Proof.
  unfold process_glossy_header. unfold_m.
  crunch; intros H; try discriminate H; reflexivity.
Qed.

Lemma bind_silent {A B} (m : M A) (k : A -> M B) g a g1 :
  m g = (a, g1, []) -> bind m k g = k a g1.
Proof.
  intros H. unfold bind. rewrite H.
  destruct (k a g1) as [[b g2] t2]. reflexivity.
Qed.

(** X10. A header that fails the checks aborts the reception: the failure
    is counted once for the packet (not again by [glossy_rx_failed], nor if
    it had been counted already), the timer update interrupt is re-enabled,
    and the RX FIFO is flushed and reception restarted iff the flood is
    active.  The stored header is not touched. *)
Theorem header_received_rejects cfg t hdr len g :
  result (process_glossy_header cfg hdr len false g) = false ->
  let r := glossy_header_received cfg t hdr len g in
  trace_of r
  = rtimer_ext_update_enable
    :: (if active g =? 0 then [] else [rf1a_flush_rx_fifo; rf1a_start_rx]) /\
  last_flood_n_rx_fail (stats (state_of r))
  = (if GLOSSY_CONF_COLLECT_STATS cfg && (already_counted (stats g) =? 0)
     then (last_flood_n_rx_fail (stats g) + 1) mod 256
     else last_flood_n_rx_fail (stats g)) /\
  header (state_of r) = header g /\
  header_ok (state_of r) = header_ok g /\
  n_rx (state_of r) = n_rx g.
Proof.
  intros Hr. apply process_glossy_header_rejected_early in Hr. cbv zeta.
  assert (Heq : glossy_header_received cfg t hdr len g
                = (count_rx_fail cfg ;; glossy_rx_failed cfg t) g).
  { unfold glossy_header_received. rewrite (bind_silent _ _ _ _ _ Hr).
    reflexivity. }
  rewrite Heq. clear Heq.
  unfold glossy_rx_failed, count_rx_fail, truthy. unfold_m.
  destruct (GLOSSY_CONF_COLLECT_STATS cfg) eqn:E1;
    destruct (already_counted (stats g) =? 0) eqn:E2;
    destruct (active g =? 0) eqn:E3;
    repeat (progress (msimpl; rewrite ?E1, ?E2, ?E3; cbn [Z.eqb negb]));
    repeat split.
Qed.

Lemma header_received_rejects_witness :
  trace_of (glossy_header_received cc430 150 [0x10; 0] 7 receiver_started)
  = [rtimer_ext_update_enable; rf1a_flush_rx_fifo; rf1a_start_rx].
Proof.
  apply (header_received_rejects cc430 150 [0x10; 0] 7 receiver_started).
  vm_compute. reflexivity.
Defined.

#[local] Instance R_quiet_frame : Frame R_quiet.
Proof.
  split; unfold R_quiet.
  - intros g. split; reflexivity.
  - intros g1 g2 g3 t1 t2 (-> & H1) (-> & H2). split; [reflexivity | congruence].
Qed.

Ltac quiet_side := unfold R_quiet; cbn; split; reflexivity.

Lemma stop_trace_when_active cfg hw g :
  active g <> 0 ->
  trace_of (glossy_stop cfg hw g) = stop_commands /\
  header (state_of (glossy_stop cfg hw g)) = header g /\
  active (state_of (glossy_stop cfg hw g)) = 0.
Proof.
  intros Ha. apply truthy_true in Ha.
  unfold glossy_stop. unfold_m. rewrite Ha.
  crunch; repeat split.
Qed.

Lemma wp_when_emit (c : bool) e (Q : unit -> _ -> _ -> Prop) g :
  Q tt g (if c then [e] else []) -> wp (when c (emit e)) Q g.
Proof. destruct c; auto. Qed.

(** X11. What [glossy_start] commands, by role.  After the configuration
    commands (with the manual calibration iff asked for) and the RX header
    length, a receiver starts reception; an initiator starts transmission
    and writes the header, with relay counter 0, and [payload_len] bytes of
    the caller's buffer into the TX FIFO; an initiator whose packet would
    exceed [GLOSSY_MAX_PACKET_LEN] stops at once, transmits nothing and is
    left inactive. *)
Theorem glossy_start_commands cfg hw initiator buf len n_tx_max ws cal g :
  let r := glossy_start cfg hw initiator buf len n_tx_max ws cal g in
  let g' := state_of r in
  let hlen := GLOSSY_HEADER_LEN cfg g' in
  header g' = {| pkt_type := SET_PKT_TYPE cfg ws n_tx_max; relay_cnt := 0 |} /\
  trace_of r
  = start_config_commands hlen cal
    ++ (if initiator =? node_id cfg then
          if len + hlen >? GLOSSY_MAX_PACKET_LEN cfg then stop_commands
          else [rf1a_start_tx;
                rf1a_write_to_tx_fifo (header_bytes cfg g')
                  (read_bytes buf 0 len)]
        else [rf1a_start_rx]) /\
  active g'
  = (if (initiator =? node_id cfg)
        && (len + hlen >? GLOSSY_MAX_PACKET_LEN cfg) then 0 else 1) /\
  ((initiator =? node_id cfg)
   && negb (len + hlen >? GLOSSY_MAX_PACKET_LEN cfg) = true ->
   t_timeout g' = clk cfg (now_hf hw + TIMEOUT_EXTRA_TICKS) /\
   relay_cnt_timeout g' = 0).
Proof.
  cbv zeta.
  set (P := fun (_ : unit) (g' : glossy_state_t) (tr : list effect) =>
    header g' = {| pkt_type := SET_PKT_TYPE cfg ws n_tx_max; relay_cnt := 0 |} /\
    tr = start_config_commands (GLOSSY_HEADER_LEN cfg g') cal
         ++ (if initiator =? node_id cfg then
               if len + GLOSSY_HEADER_LEN cfg g' >? GLOSSY_MAX_PACKET_LEN cfg
               then stop_commands
               else [rf1a_start_tx;
                     rf1a_write_to_tx_fifo (header_bytes cfg g')
                       (read_bytes buf 0 len)]
             else [rf1a_start_rx]) /\
    active g'
    = (if (initiator =? node_id cfg)
          && (len + GLOSSY_HEADER_LEN cfg g' >? GLOSSY_MAX_PACKET_LEN cfg)
       then 0 else 1) /\
    ((initiator =? node_id cfg)
     && negb (len + GLOSSY_HEADER_LEN cfg g' >? GLOSSY_MAX_PACKET_LEN cfg)
     = true ->
     t_timeout g' = clk cfg (now_hf hw + TIMEOUT_EXTRA_TICKS) /\
     relay_cnt_timeout g' = 0)).
  change (wp (glossy_start cfg hw initiator buf len n_tx_max ws cal) P g).
  unfold glossy_start.
  apply wp_bind, wp_emit.
  do 12 (apply wp_bind, wp_modify).
  apply (wp_bind_keeps R_quiet); [ solve [keeps_all quiet_side] |].
  intros ? g1 t1 (-> & Hq). cbn in Hq.
  injection Hq as Hi Hpay Hlen Hhdr Hact _ _.
  do 2 (apply wp_bind, wp_modify).
  do 5 (apply wp_bind, wp_emit).
  set (g2 := upd_header _ (upd_header _ g1)).
  assert (Hi2 : initiator_id g2 = initiator) by (rewrite <- Hi; reflexivity).
  assert (Hpay2 : payload g2 = buf) by (rewrite <- Hpay; reflexivity).
  assert (Hlen2 : payload_len g2 = len) by (rewrite <- Hlen; reflexivity).
  assert (Hact2 : active g2 = 1) by (rewrite <- Hact; reflexivity).
  assert (Hhdr2 : header g2
     = {| pkt_type := SET_PKT_TYPE cfg ws n_tx_max; relay_cnt := 0 |})
    by reflexivity.
  clearbody g2. clear Hi Hpay Hlen Hhdr Hact g1.
  assert (Hhl : forall g', header g' = header g2 ->
            GLOSSY_HEADER_LEN cfg g' = GLOSSY_HEADER_LEN cfg g2 /\
            header_bytes cfg g' = header_bytes cfg g2).
  { intros g' Hg'.
    unfold header_bytes, GLOSSY_HEADER_LEN, WITH_RELAY_CNT, WITH_SYNC.
    rewrite Hg'. split; reflexivity. }
  apply wp_bind, wp_when_emit.
  apply wp_bind, wp_get. apply wp_bind, wp_emit.
  unfold IS_INITIATOR at 1. rewrite Hi2, Hlen2.
  destruct (initiator =? node_id cfg) eqn:Einit.
  - destruct (len + GLOSSY_HEADER_LEN cfg g2 >? GLOSSY_MAX_PACKET_LEN cfg)
      eqn:Eover.
    + apply wp_bind. unfold wp at 1.
      destruct (stop_trace_when_active cfg hw g2) as (Ht & Hh & Ha);
        [rewrite Hact2; discriminate |].
      apply wp_ret. unfold P.
      destruct (Hhl _ Hh) as [-> ->]. rewrite Ht, Hh, Ha, Eover.
      unfold start_config_commands. cbn [app andb negb].
      rewrite app_nil_r.
      split; [exact Hhdr2 |]. split; [| split; [reflexivity | discriminate]].
      destruct (truthy cal); reflexivity.
    + apply wp_bind, wp_modify. apply wp_bind, wp_emit.
      apply (wp_bind_keeps R_quiet); [ solve [keeps_all quiet_side] |].
      intros ? g3 t3 (-> & Hq). cbn in Hq.
      injection Hq as Hi3 Hpay3 Hlen3 Hhdr3 Hact3 Htmo3 Hrct3.
      apply wp_bind, wp_emit. apply wp_modify. unfold P.
      set (g4 := set_relay_cnt_timeout 0 g3).
      assert (Hh4 : header g4 = header g2) by (rewrite <- Hhdr3; reflexivity).
      assert (Ha4 : active g4 = 1) by (rewrite <- Hact2, <- Hact3; reflexivity).
      assert (Ht4 : t_timeout g4 = clk cfg (now_hf hw + TIMEOUT_EXTRA_TICKS))
        by (rewrite <- Htmo3; reflexivity).
      assert (Hr4 : relay_cnt_timeout g4 = 0) by reflexivity.
      clearbody g4.
      destruct (Hhl _ Hh4) as [-> ->]. rewrite Hh4, Ha4, Ht4, Hr4, Eover.
      unfold start_config_commands. cbn [app andb negb].
      rewrite Hpay2.
      split; [exact Hhdr2 |]. split; [| split; [| split]; reflexivity].
      destruct (truthy cal); reflexivity.
  - apply wp_bind, wp_emit.
    apply (wp_keeps R_quiet); [ solve [keeps_all quiet_side] |].
    intros ? g3 t3 (-> & Hq).
    injection Hq as Hi3 Hpay3 Hlen3 Hhdr3 Hact3 Htmo3 Hrct3.
    unfold P. destruct (Hhl _ Hhdr3) as [-> _]. rewrite Hhdr3, Hact3.
    unfold start_config_commands. cbn [app andb negb].
    split; [exact Hhdr2 |]. split; [| split; [exact Hact2 | discriminate]].
    destruct (truthy cal); reflexivity.
Qed.

Lemma glossy_start_commands_witness :
  t_timeout (state_of (glossy_start cc430 hw0 2 [72; 69; 76; 76; 79] 5 2 1 0 g0))
  = 1070 /\
  relay_cnt_timeout
    (state_of (glossy_start cc430 hw0 2 [72; 69; 76; 76; 79] 5 2 1 0 g0)) = 0.
Proof.
  destruct (glossy_start_commands cc430 hw0 2 [72; 69; 76; 76; 79] 5 2 1 0 g0)
    as (_ & _ & _ & H).
  apply H. vm_compute. reflexivity.
Defined.

Lemma timer_schedules_app t1 t2 :
  timer_schedules (t1 ++ t2) = timer_schedules t1 ++ timer_schedules t2.
Proof. apply flat_map_app. Qed.

#[local] Instance R_timer_frame : Frame R_timer.
Proof.
  split; unfold R_timer.
  - intros g. repeat split.
  - intros g1 g2 g3 t1 t2 (H1 & H2 & H3) (H4 & H5 & H6).
    rewrite timer_schedules_app, H3, H6.
    split; [eapply (frame_trans (R := R_blk)); eassumption |].
    split; [congruence | reflexivity].
Qed.

Ltac timer_side := unfold R_timer, R_blk, core; cbn; repeat split.

Lemma glossy_stop_timer cfg hw g :
  let r := glossy_stop cfg hw g in
  (t_timeout (state_of r), T_slot_estimated (state_of r),
   relay_cnt_timeout (state_of r), header (state_of r))
  = (t_timeout g, T_slot_estimated g, relay_cnt_timeout g, header g) /\
  timer_schedules (trace_of r) = [].
Proof.
  unfold glossy_stop. unfold_m. crunch; split; reflexivity.
Qed.

(** X12. [glossy_tx_ended] arms the retransmission timeout exactly when the
    flood goes on, the timeout is compiled in, the node is the initiator and
    nothing has been received yet; it is armed once, [SLOT_TIMEOUT_MIN = 2]
    estimated slots after [t_timeout], and when the header carries a relay
    counter [relay_cnt_timeout] is set two slots ahead of the counter just
    sent. *)
Theorem tx_ended_arms_timeout cfg hw t g :
  let r := glossy_tx_ended cfg hw t g in
  let k := GET_N_TX_MAX (pkt_type (header g)) in
  let stops := ((n_tx g + 1) mod 256 =? k)
               && ((k >? 0) || negb (IS_INITIATOR cfg g)) in
  let arms := negb stops && GLOSSY_CONF_RETRANSMISSION_TIMEOUT cfg
              && IS_INITIATOR cfg g && (n_rx g =? 0) in
  timer_schedules (trace_of r)
  = (if arms
     then [clk cfg (t_timeout g + u32 (SLOT_TIMEOUT_MIN * T_slot_estimated g))]
     else []) /\
  relay_cnt_timeout (state_of r)
  = (if arms && truthy (WITH_RELAY_CNT cfg g)
     then (relay_cnt (header g) + SLOT_TIMEOUT_MIN) mod 256
     else relay_cnt_timeout g).
Proof.
  cbv zeta.
  set (P := fun (_ : unit) (g' : glossy_state_t) (tr : list effect) =>
    timer_schedules tr
    = (if negb (((n_tx g + 1) mod 256 =? GET_N_TX_MAX (pkt_type (header g)))
                && ((GET_N_TX_MAX (pkt_type (header g)) >? 0)
                    || negb (IS_INITIATOR cfg g)))
          && GLOSSY_CONF_RETRANSMISSION_TIMEOUT cfg
          && IS_INITIATOR cfg g && (n_rx g =? 0)
       then [clk cfg (t_timeout g
                      + u32 (SLOT_TIMEOUT_MIN * T_slot_estimated g))]
       else []) /\
    relay_cnt_timeout g'
    = (if negb (((n_tx g + 1) mod 256 =? GET_N_TX_MAX (pkt_type (header g)))
                && ((GET_N_TX_MAX (pkt_type (header g)) >? 0)
                    || negb (IS_INITIATOR cfg g)))
          && GLOSSY_CONF_RETRANSMISSION_TIMEOUT cfg
          && IS_INITIATOR cfg g && (n_rx g =? 0)
          && truthy (WITH_RELAY_CNT cfg g)
       then (relay_cnt (header g) + SLOT_TIMEOUT_MIN) mod 256
       else relay_cnt_timeout g)).
  change (wp (glossy_tx_ended cfg hw t) P g).
  unfold glossy_tx_ended.
  apply (wp_bind_keeps R_timer); [ solve [keeps_all timer_side] |].
  intros ? g1 t1 H1. apply wp_bind, wp_get.
  apply (wp_bind_keeps R_timer);
    [ unfold update_t_ref, add_T_slot_measurement;
      solve [keeps_all timer_side] |].
  intros ? g2 t2 H2.
  assert (Hb : R_timer g g2 (t1 ++ [] ++ t2)).
  { eapply (frame_trans (R := R_timer)); [eassumption | exact H2]. }
  clear H1 H2. destruct Hb as ((Hc & _) & Htm & Hs).
  apply core_fields in Hc. destruct Hc as (Hi & Hrx & Htx & _ & Hhdr & _).
  injection Htm as Hto Hest Hrct.
  apply wp_bind, wp_modify. apply wp_bind, wp_get.
  set (g3 := set_n_tx _ g2).
  assert (Hi3 : initiator_id g3 = initiator_id g) by (rewrite <- Hi; reflexivity).
  assert (Hrx3 : n_rx g3 = n_rx g) by (rewrite <- Hrx; reflexivity).
  assert (Htx3 : n_tx g3 = (n_tx g + 1) mod 256) by (rewrite <- Htx; reflexivity).
  assert (Hhdr3 : header g3 = header g) by (rewrite <- Hhdr; reflexivity).
  assert (Hto3 : t_timeout g3 = t_timeout g) by (rewrite <- Hto; reflexivity).
  assert (Hest3 : T_slot_estimated g3 = T_slot_estimated g)
    by (rewrite <- Hest; reflexivity).
  assert (Hrct3 : relay_cnt_timeout g3 = relay_cnt_timeout g)
    by (rewrite <- Hrct; reflexivity).
  clearbody g3. clear Hi Hrx Htx Hhdr Hto Hest Hrct g2.
  unfold IS_INITIATOR in *. rewrite Hi3, Hrx3, Htx3, Hhdr3.
  assert (Hs' : timer_schedules t1 = [] /\ timer_schedules t2 = []).
  { rewrite !timer_schedules_app in Hs. cbn [timer_schedules flat_map app] in Hs.
    apply app_eq_nil in Hs. exact Hs. }
  destruct Hs' as (Hs1 & Hs2). clear Hs.
  destruct (((n_tx g + 1) mod 256 =? GET_N_TX_MAX (pkt_type (header g)))
            && ((GET_N_TX_MAX (pkt_type (header g)) >? 0)
                || negb (initiator_id g =? node_id cfg))) eqn:Estop.
  - apply wp_bind. unfold wp at 1.
    destruct (glossy_stop_timer cfg hw g3) as (Hk & Hsch).
    injection Hk as _ _ Hr _. apply wp_ret. unfold P.
    rewrite !timer_schedules_app, Hs1, Hs2, Hsch, Hr, Hrct3.
    split; reflexivity.
  - unfold P, schedule_timeout, wp. unfold_m. cbn [negb andb].
    destruct (GLOSSY_CONF_RETRANSMISSION_TIMEOUT cfg);
      destruct (initiator_id g =? node_id cfg);
      destruct (n_rx g =? 0); cbn [andb];
      try (msimpl; rewrite !timer_schedules_app, Hs1, Hs2;
           split; [reflexivity | exact Hrct3]).
    assert (Hw : WITH_RELAY_CNT cfg g3 = WITH_RELAY_CNT cfg g).
    { unfold WITH_RELAY_CNT, WITH_SYNC. rewrite Hhdr3. reflexivity. }
    msimpl. rewrite Hw.
    destruct (truthy (WITH_RELAY_CNT cfg g)); msimpl;
      rewrite !timer_schedules_app, Hs1, Hs2, ?Hhdr3, Hto3, Hest3;
      split; try reflexivity; exact Hrct3.
Qed.

Lemma timeout_expired_busy cfg hw t g :
  is_busy hw = true ->
  timeout_expired cfg hw t g
  = (tt, set_relay_cnt_timeout (u8 (relay_cnt_timeout g + 1)) g,
     [rtimer_ext_schedule (clk cfg (t + T_slot_estimated g))]).
Proof. intros H. unfold timeout_expired. rewrite H. reflexivity. Qed.

Lemma run_timeouts_busy cfg hw ts : forall g,
  is_busy hw = true ->
  0 <= relay_cnt_timeout g < 256 ->
  let r := run cfg hw (map ev_timeout_expired ts) g in
  state_of r
  = match ts with
    | [] => g
    | _ => set_relay_cnt_timeout
             ((relay_cnt_timeout g + Z.of_nat (length ts)) mod 256) g
    end /\
  timer_schedules (trace_of r)
  = map (fun t => clk cfg (t + T_slot_estimated g)) ts.
Proof.
  induction ts as [| t ts IH]; intros g Hb Hr; cbv zeta.
  - split; reflexivity.
  - cbn [map]. destruct (run_cons cfg hw (ev_timeout_expired t)
                           (map ev_timeout_expired ts) g) as [-> ->].
    cbn [step]. rewrite timeout_expired_busy by exact Hb.
    cbn [state_of trace_of fst snd].
    destruct (IH (set_relay_cnt_timeout (u8 (relay_cnt_timeout g + 1)) g) Hb)
      as (IH1 & IH2).
    { cbn. unfold u8. apply Z.mod_pos_bound. lia. }
    rewrite timer_schedules_app, IH1, IH2. cbn [timer_schedules flat_map app map].
    split; [| reflexivity].
    destruct ts as [| t' ts'].
    + cbn. unfold u8. reflexivity.
    + cbn [length]. unfold set_relay_cnt_timeout at 1. cbn.
      unfold set_relay_cnt_timeout. f_equal. unfold u8.
      rewrite Zplus_mod_idemp_l. f_equal. lia.
Qed.

(** X13. The retransmission timeout, postponed once for every expiry that
    finds the radio busy and fired at the first that finds it idle, sends
    the initiator's packet again with the relay counter that the slot in
    which it goes out would have: [relay_cnt_timeout] advanced by the number
    of postponements (modulo 256).  Every postponement re-arms the timer one
    estimated slot later; the firing restarts TX, hands header and payload
    to the FIFO and takes the expiry time as the new [t_timeout]. *)
Theorem timeout_retransmits cfg hw_busy hw_idle ts t_idle g :
  is_busy hw_busy = true ->
  is_busy hw_idle = false ->
  0 <= relay_cnt_timeout g < 256 ->
  let r1 := run cfg hw_busy (map ev_timeout_expired ts) g in
  let r := timeout_expired cfg hw_idle t_idle (state_of r1) in
  timer_schedules (trace_of r1)
  = map (fun t => clk cfg (t + T_slot_estimated g)) ts /\
  header (state_of r)
  = {| pkt_type := pkt_type (header g);
       relay_cnt := (relay_cnt_timeout g + Z.of_nat (length ts)) mod 256 |} /\
  trace_of r
  = [rf1a_start_tx;
     rf1a_write_to_tx_fifo (header_bytes cfg (state_of r))
       (read_bytes (payload g) 0 (payload_len g))] /\
  t_timeout (state_of r) = t_idle.
Proof.
  intros Hb Hi Hr. cbv zeta.
  destruct (run_timeouts_busy cfg hw_busy ts g Hb Hr) as (H1 & H2).
  rewrite H1, H2. split; [reflexivity |].
  unfold timeout_expired. rewrite Hi. unfold_m.
  destruct ts as [| t ts]; msimpl.
  - rewrite Z.add_0_r, Z.mod_small by lia. repeat split.
  - repeat split.
Qed.

Lemma timeout_retransmits_witness :
  header (state_of
            (timeout_expired cc430 hw0 900
               (state_of (run cc430
                            {| now_hf := 0; now_hf_later := 0; is_busy := true;
                               rssi := 0; last_packet_rssi := 0;
                               rssi_valid := false |}
                            (map ev_timeout_expired [500; 700])
                            (set_relay_cnt_timeout 2 receiver_started)))))
  = {| pkt_type := 0xd0; relay_cnt := 4 |}.
Proof.
  apply (timeout_retransmits cc430
           {| now_hf := 0; now_hf_later := 0; is_busy := true; rssi := 0;
              last_packet_rssi := 0; rssi_valid := false |}
           hw0 [500; 700] 900 (set_relay_cnt_timeout 2 receiver_started)).
  - reflexivity.
  - reflexivity.
  - vm_compute. split; [discriminate | reflexivity].
Defined.

Lemma tx_fifo_payloads_app t1 t2 :
  tx_fifo_payloads (t1 ++ t2) = tx_fifo_payloads t1 ++ tx_fifo_payloads t2.
Proof. apply flat_map_app. Qed.
Lemma memcpy_data_app t1 t2 :
  memcpy_data (t1 ++ t2) = memcpy_data t1 ++ memcpy_data t2.
Proof. apply flat_map_app. Qed.

#[local] Instance R_len_frame : Frame R_len.
Proof.
  split; unfold R_len.
  - intros g. repeat split.
  - intros g1 g2 g3 t1 t2 (H1 & H2 & H3) (H4 & H5 & H6).
    rewrite tx_fifo_payloads_app, memcpy_data_app, H2, H3, H5, H6.
    split; [congruence | split; reflexivity].
Qed.

Ltac len_side := unfold R_len; cbn; repeat split.
Tactic Notation "wp_len" "as" ident(g) ident(t) ident(H) :=
  apply (wp_bind_keeps R_len); [ solve [keeps_all len_side] | intros ? g t H ].

Lemma glossy_stop_len cfg hw : keeps R_len (glossy_stop cfg hw).
Proof. unfold glossy_stop. keeps_all len_side. Qed.

Lemma process_glossy_header_accept_len cfg pkt len g :
  let r := process_glossy_header cfg pkt len true g in
  result r = true ->
  header (state_of r) = header_of_pkt pkt /\
  payload_len (state_of r) = u8 (len - GLOSSY_HEADER_LEN cfg (state_of r)) /\
  (initiator_id (state_of r), n_rx (state_of r), n_tx (state_of r),
   payload (state_of r))
  = (initiator_id g, n_rx g, n_tx g, payload g) /\
  tx_fifo_payloads (trace_of r) = [] /\ memcpy_data (trace_of r) = [].
Proof.
  cbv zeta. unfold process_glossy_header. unfold_m.
  crunch; intros Hr; try discriminate Hr; repeat split.
Qed.

Lemma read_bytes_skipn buf off n :
  0 <= off -> read_bytes (skipn (Z.to_nat off) buf) 0 n = read_bytes buf off n.
Proof.
  intros Hoff. unfold read_bytes. change (Z.to_nat 0) with 0%nat.
  assert (H : forall h k s,
             map (fun i => nth i (skipn h buf) 0) (seq s k)
             = map (fun i => nth i buf 0) (seq (h + s) k)).
  { intros h k. induction k as [| k IH]; intros s; [reflexivity |].
    cbn [seq map]. f_equal.
    - rewrite nth_skipn. reflexivity.
    - rewrite IH. rewrite Nat.add_succ_r. reflexivity. }
  rewrite H, Nat.add_0_r. reflexivity.
Qed.

Lemma firstn_memcpy dst src n :
  firstn (Z.to_nat n) (memcpy dst src n) = read_bytes src 0 n.
Proof.
  unfold memcpy.
  assert (L : length (read_bytes src 0 n) = Z.to_nat n).
  { unfold read_bytes. rewrite length_map, length_seq. reflexivity. }
  rewrite firstn_app, L, Nat.sub_diag. cbn [firstn]. rewrite app_nil_r.
  rewrite <- L. apply firstn_all.
Qed.

#[local] Instance R_and_frame R1 R2 `{Frame R1} `{Frame R2} :
  Frame (R_and R1 R2).
Proof.
  split; unfold R_and.
  - intros g. split; apply frame_refl.
  - intros g1 g2 g3 t1 t2 (H1 & H2) (H3 & H4).
    split; eapply frame_trans; eassumption.
Qed.

Ltac pre_len_side :=
  unfold R_and, R_pre, R_blk, core, R_len; cbn; repeat split.

(** X14. The first accepted reception on a receiver delivers the payload:
    [payload_len] becomes the packet length minus the header length that
    goes with the received packet type (modulo 256), and that many bytes of
    the packet, taken right after the header, are stored at the start of the
    caller's buffer, the rest of which is kept.  When the packet is relayed,
    the same bytes are what the TX FIFO receives as payload. *)
Theorem first_reception_delivers_payload cfg hw t pkt pkt_len g :
  result (process_glossy_header cfg pkt pkt_len true g) = true ->
  IS_INITIATOR cfg g = false ->
  n_rx g = 0 ->
  let r := glossy_rx_ended cfg hw t pkt pkt_len g in
  let g' := state_of r in
  let hlen := GLOSSY_HEADER_LEN cfg g' in
  payload_len g' = (pkt_len - hlen) mod 256 /\
  payload g' = memcpy (payload g) (skipn (Z.to_nat hlen) pkt) (payload_len g') /\
  firstn (Z.to_nat (payload_len g')) (payload g')
  = read_bytes pkt hlen (payload_len g') /\
  memcpy_data (trace_of r) = [read_bytes pkt hlen (payload_len g')] /\
  (GET_N_TX_MAX (nth 0 pkt 0) = 0 \/ n_tx g < GET_N_TX_MAX (nth 0 pkt 0) ->
   tx_fifo_payloads (trace_of r) = [read_bytes pkt hlen (payload_len g')]).
Proof.
  intros Hok Hrecv Hn0. cbv zeta.
  set (P := fun (_ : unit) (g' : glossy_state_t) (tr : list effect) =>
    payload_len g' = (pkt_len - GLOSSY_HEADER_LEN cfg g') mod 256 /\
    payload g' = memcpy (payload g)
                   (skipn (Z.to_nat (GLOSSY_HEADER_LEN cfg g')) pkt)
                   (payload_len g') /\
    memcpy_data tr
    = [read_bytes (skipn (Z.to_nat (GLOSSY_HEADER_LEN cfg g')) pkt) 0
         (payload_len g')] /\
    (GET_N_TX_MAX (nth 0 pkt 0) = 0 \/ n_tx g < GET_N_TX_MAX (nth 0 pkt 0) ->
     tx_fifo_payloads tr
     = [read_bytes (skipn (Z.to_nat (GLOSSY_HEADER_LEN cfg g')) pkt) 0
          (payload_len g')])).
  assert (HP : wp (glossy_rx_ended cfg hw t pkt pkt_len) P g).
  2:{ unfold wp, P in HP. destruct HP as (H1 & H2 & H3 & H4).
      assert (Hh0 : 0 <= GLOSSY_HEADER_LEN cfg
                         (state_of (glossy_rx_ended cfg hw t pkt pkt_len g))).
      { unfold GLOSSY_HEADER_LEN. destruct (_ || _); lia. }
      rewrite read_bytes_skipn in H3, H4 by exact Hh0.
      split; [exact H1 |]. split; [exact H2 |]. split; [| split; assumption].
      rewrite H2 at 1. rewrite firstn_memcpy. apply read_bytes_skipn. exact Hh0. }
  unfold glossy_rx_ended.
  apply (wp_bind_keeps (R_and R_pre R_len)); [ solve [keeps_all pre_len_side] |].
  intros ? g1 t1 H1.
  apply (wp_bind_keeps (R_and R_pre R_len)); [ solve [keeps_all pre_len_side] |].
  intros ? gb tb H2.
  apply (wp_bind_keeps (R_and R_pre R_len)); [ solve [keeps_all pre_len_side] |].
  intros ? g2 t2 H3.
  assert (Hpre : (R_and R_pre R_len) g g2 (t1 ++ tb ++ t2)).
  { eapply (frame_trans (R := (R_and R_pre R_len))); [eassumption |].
    eapply (frame_trans (R := (R_and R_pre R_len))); eassumption. }
  clear H1 H2 H3.
  destruct Hpre as (((Hc & _) & Hhok & Hpl) & (_ & Hfp & Hmd)).
  apply core_fields in Hc. destruct Hc as (Hi & Hrx & Htx & Hpay & Hhdr & _).
  apply wp_bind. unfold wp at 1.
  pose proof (process_glossy_header_accept_len cfg pkt pkt_len g2) as Hp.
  cbv zeta in Hp.
  rewrite (process_glossy_header_result_ext cfg pkt pkt_len true g2 g) in *
    by assumption.
  rewrite Hok in *. specialize (Hp eq_refl).
  revert Hp.
  generalize (state_of (process_glossy_header cfg pkt pkt_len true g2)) as g3.
  generalize (trace_of (process_glossy_header cfg pkt pkt_len true g2)) as t3.
  intros t3 g3 (Hh3 & Hl3 & Hk3 & Hfp3 & Hmd3).
  injection Hk3 as Hi3 Hrx3 Htx3 Hpay3.
  rewrite Hi in Hi3. rewrite Hrx in Hrx3. rewrite Htx in Htx3.
  rewrite Hpay in Hpay3. clear Hi Hrx Htx Hpay Hhdr Hhok Hpl g2.
  apply wp_bind, wp_get. apply wp_bind, wp_modify. apply wp_bind, wp_get.
  set (g4 := upd_header _ g3).
  assert (Hhl : forall g', pkt_type (header g') = pkt_type (header g3) ->
            GLOSSY_HEADER_LEN cfg g' = GLOSSY_HEADER_LEN cfg g3).
  { intros g' Hg'. unfold GLOSSY_HEADER_LEN, WITH_RELAY_CNT, WITH_SYNC.
    rewrite Hg'. reflexivity. }
  assert (Hpt4 : pkt_type (header g4) = pkt_type (header g3)) by reflexivity.
  assert (Hpt4' : pkt_type (header g4) = nth 0 pkt 0)
    by (rewrite Hpt4, Hh3; reflexivity).
  assert (Hi4 : initiator_id g4 = initiator_id g) by (rewrite <- Hi3; reflexivity).
  assert (Hrx4 : n_rx g4 = n_rx g) by (rewrite <- Hrx3; reflexivity).
  assert (Htx4 : n_tx g4 = n_tx g) by (rewrite <- Htx3; reflexivity).
  assert (Hpay4 : payload g4 = payload g) by (rewrite <- Hpay3; reflexivity).
  assert (Hl4 : payload_len g4 = payload_len g3) by reflexivity.
  clearbody g4. clear Hi3 Hrx3 Htx3 Hpay3.
  rewrite Hpt4', Htx4.
  apply wp_bind. unfold wp at 1.
  set (ptr := skipn (Z.to_nat (GLOSSY_HEADER_LEN cfg g3)) pkt).
  set (relay := (GET_N_TX_MAX (nth 0 pkt 0) =? 0)
                || (n_tx g <? GET_N_TX_MAX (nth 0 pkt 0))).
  assert (Hblk : let r := (if relay
                           then emit (rf1a_write_to_tx_fifo (header_bytes cfg g4)
                                        (read_bytes ptr 0 (payload_len g4)))
                           else glossy_stop cfg hw ;; ret tt) g4 in
                 (initiator_id (state_of r), n_rx (state_of r),
                  payload (state_of r), header (state_of r),
                  payload_len (state_of r))
                 = (initiator_id g4, n_rx g4, payload g4, header g4,
                    payload_len g4) /\
                 tx_fifo_payloads (trace_of r)
                 = (if relay then [read_bytes ptr 0 (payload_len g4)] else []) /\
                 memcpy_data (trace_of r) = []).
  { destruct relay; [repeat split |]. cbv zeta.
    destruct (bind_run (glossy_stop cfg hw) (fun _ => ret tt) g4) as [-> ->].
    destruct (glossy_stop_len cfg hw g4) as (Hk & Hf & Hm).
    injection Hk as E1 E2 E3 E4 E5 E6.
    cbn [ret state_of trace_of fst snd]. rewrite app_nil_r, Hf, Hm.
    repeat split. congruence. }
  cbv zeta in Hblk. revert Hblk.
  generalize (state_of
    ((if relay
      then emit (rf1a_write_to_tx_fifo (header_bytes cfg g4)
                   (read_bytes ptr 0 (payload_len g4)))
      else glossy_stop cfg hw ;; ret tt) g4)) as g5.
  generalize (trace_of
    ((if relay
      then emit (rf1a_write_to_tx_fifo (header_bytes cfg g4)
                   (read_bytes ptr 0 (payload_len g4)))
      else glossy_stop cfg hw ;; ret tt) g4)) as t5.
  intros t5 g5 (Hk5 & Hfp5 & Hmd5).
  injection Hk5 as Hi5 Hrx5 Hpay5 Hh5 Hl5.
  wp_len as g6 t6 H6. destruct H6 as (Hk6 & Hfp6 & Hmd6).
  injection Hk6 as Hi6 Hrx6 _ Hpay6 Hh6 Hl6.
  apply wp_bind, wp_modify. apply wp_bind, wp_get.
  set (g7 := set_n_rx _ g6).
  assert (Hi7 : initiator_id g7 = initiator_id g)
    by (rewrite <- Hi4, <- Hi5, <- Hi6; reflexivity).
  assert (Hrx7 : n_rx g7 = 1).
  { change (n_rx g7) with (u8 (n_rx g6 + 1)).
    rewrite Hrx6, Hrx5, Hrx4, Hn0. reflexivity. }
  assert (Hpay7 : payload g7 = payload g)
    by (rewrite <- Hpay4, <- Hpay5, <- Hpay6; reflexivity).
  assert (Hh7 : header g7 = header g4) by (rewrite <- Hh5, <- Hh6; reflexivity).
  assert (Hl7 : payload_len g7 = payload_len g3)
    by (rewrite <- Hl4, <- Hl5, <- Hl6; reflexivity).
  clearbody g7. clear Hi5 Hrx5 Hpay5 Hh5 Hl5 Hi6 Hrx6 Hpay6 Hh6 Hl6.
  unfold IS_INITIATOR in *. rewrite Hi7, Hrecv, Hrx7. cbn [negb andb Z.eqb when].
  apply wp_bind. apply wp_bind, wp_modify, wp_emit.
  apply wp_bind, wp_get.
  apply (wp_keeps R_len);
    [ unfold update_t_ref, add_T_slot_measurement; solve [keeps_all len_side] |].
  intros ? g8 t8 (Hk8 & Hfp8 & Hmd8). cbn in Hk8.
  injection Hk8 as _ _ _ Hpay8 Hh8 Hl8.
  unfold P. clear P.
  assert (Hhl8 : GLOSSY_HEADER_LEN cfg g8 = GLOSSY_HEADER_LEN cfg g3).
  { apply Hhl. rewrite Hh8, Hh7. exact Hpt4. }
  rewrite Hhl8, Hl8, Hpay8, Hl7, Hpay7.
  rewrite !tx_fifo_payloads_app in Hfp. rewrite !memcpy_data_app in Hmd.
  apply app_eq_nil in Hfp. destruct Hfp as (Hfa & Hfp).
  apply app_eq_nil in Hfp. destruct Hfp as (Hfb & Hfc).
  apply app_eq_nil in Hmd. destruct Hmd as (Hma & Hmd).
  apply app_eq_nil in Hmd. destruct Hmd as (Hmb & Hmc).
  rewrite !memcpy_data_app, !tx_fifo_payloads_app, Hfa, Hfb, Hfc, Hma, Hmb, Hmc,
    Hfp3, Hmd3, Hfp5, Hmd5, Hfp6, Hmd6, Hfp8, Hmd8.
  cbn [app memcpy_data tx_fifo_payloads flat_map]. rewrite Hl4.
  split; [exact Hl3 |]. split; [reflexivity |]. split; [reflexivity |].
  intros Hrel. replace relay with true; [rewrite app_nil_r; reflexivity |].
  symmetry. unfold relay. apply orb_true_iff.
  destruct Hrel as [E | E]; [left; apply Z.eqb_eq | right; apply Z.ltb_lt]; exact E.
Qed.

Lemma first_reception_delivers_payload_witness :
  payload (state_of (glossy_rx_ended cc430 hw0 200 (world_pkt 0 3) 7
                       receiver_started))
  = [87; 79; 82; 76; 68].
Proof.
  destruct (first_reception_delivers_payload cc430 hw0 200 (world_pkt 0 3) 7
              receiver_started
              ltac:(vm_compute; reflexivity) ltac:(reflexivity)
              ltac:(reflexivity)) as (_ & H & _).
  rewrite H. vm_compute. reflexivity.
Defined.

#[local] Instance R_cap_frame : Frame R_cap.
Proof.
  split; unfold R_cap.
  - reflexivity.
  - intros g1 g2 g3 t1 t2 H1 H2. congruence.
Qed.

Ltac cap_side := unfold R_cap; cbn; reflexivity.
Ltac pre_cap_side :=
  unfold R_and, R_pre, R_blk, core, R_cap; cbn; repeat split.

Lemma process_glossy_header_accept_cap cfg pkt len g :
  let r := process_glossy_header cfg pkt len true g in
  result r = true ->
  header (state_of r) = header_of_pkt pkt /\
  payload_len (state_of r) = u8 (len - GLOSSY_HEADER_LEN cfg (state_of r)) /\
  R_cap g (state_of r) (trace_of r).
Proof.
  cbv zeta. unfold process_glossy_header, R_cap. unfold_m.
  crunch; intros Hr; try discriminate Hr; repeat split.
Qed.

Lemma glossy_stop_cap cfg hw : keeps R_cap (glossy_stop cfg hw).
Proof. unfold glossy_stop. keeps_all cap_side. Qed.

(** X15. The first accepted reception of a synchronising flood captures
    the time reference: [t_ref] is the start of the reception less the
    propagation allowance [TAU1], [relay_cnt_t_ref] and [relay_cnt_last_rx]
    are the relay counter the packet arrived with, and the slot length is
    estimated from the length of the received packet. *)
Theorem first_reception_captures_reference cfg hw t pkt pkt_len g :
  result (process_glossy_header cfg pkt pkt_len true g) = true ->
  GET_SYNC (nth 0 pkt 0) <> 0 ->
  t_ref_updated g = 0 ->
  let g' := state_of (glossy_rx_ended cfg hw t pkt pkt_len g) in
  t_ref_updated g' = 1 /\
  t_ref g' = clk cfg (t_rx_start g - NS_TO_RTIMER_EXT_HF cfg (TAU1 cfg)) /\
  relay_cnt_t_ref g' = nth 1 pkt 0 mod 256 /\
  relay_cnt_last_rx g' = nth 1 pkt 0 mod 256 /\
  T_slot_estimated g' = estimate_T_slot cfg (pkt_len mod 256).
Proof.
  intros Hok Hsync Hnew. cbv zeta.
  set (P := fun (_ : unit) (g' : glossy_state_t) (_ : list effect) =>
    t_ref_updated g' = 1 /\
    t_ref g' = clk cfg (t_rx_start g - NS_TO_RTIMER_EXT_HF cfg (TAU1 cfg)) /\
    relay_cnt_t_ref g' = nth 1 pkt 0 mod 256 /\
    relay_cnt_last_rx g' = nth 1 pkt 0 mod 256 /\
    T_slot_estimated g' = estimate_T_slot cfg (pkt_len mod 256)).
  change (wp (glossy_rx_ended cfg hw t pkt pkt_len) P g).
  unfold glossy_rx_ended.
  apply (wp_bind_keeps (R_and R_pre R_cap)); [ solve [keeps_all pre_cap_side] |].
  intros ? g1 t1 H1.
  apply (wp_bind_keeps (R_and R_pre R_cap)); [ solve [keeps_all pre_cap_side] |].
  intros ? gb tb H2.
  apply (wp_bind_keeps (R_and R_pre R_cap)); [ solve [keeps_all pre_cap_side] |].
  intros ? g2 t2 H3.
  assert (Hpre : R_and R_pre R_cap g g2 (t1 ++ tb ++ t2)).
  { eapply (frame_trans (R := R_and R_pre R_cap)); [eassumption |].
    eapply (frame_trans (R := R_and R_pre R_cap)); eassumption. }
  clear H1 H2 H3.
  destruct Hpre as (((Hc & _) & Hhok & Hpl) & Hcap).
  apply core_fields in Hc. destruct Hc as (_ & _ & _ & _ & Hhdr & _).
  apply wp_bind. unfold wp at 1.
  pose proof (process_glossy_header_accept_cap cfg pkt pkt_len g2) as Hp.
  cbv zeta in Hp.
  rewrite (process_glossy_header_result_ext cfg pkt pkt_len true g2 g) in *
    by assumption.
  rewrite Hok in *. specialize (Hp eq_refl).
  revert Hp.
  generalize (state_of (process_glossy_header cfg pkt pkt_len true g2)) as g3.
  generalize (trace_of (process_glossy_header cfg pkt pkt_len true g2)) as t3.
  intros t3 g3 (Hh3 & Hl3 & Hcap3).
  assert (Hcap' : R_cap g g3 []).
  { unfold R_cap in *. congruence. }
  clear Hcap Hcap3 Hhdr Hhok Hpl g2.
  assert (Hs3 : truthy (WITH_SYNC g3) = true).
  { apply truthy_true. unfold WITH_SYNC. rewrite Hh3. exact Hsync. }
  assert (Hlen3 : GLOSSY_HEADER_LEN cfg g3 = 2).
  { unfold GLOSSY_HEADER_LEN. rewrite Hs3. reflexivity. }
  rewrite Hlen3 in Hl3.
  apply wp_bind, wp_get. apply wp_bind, wp_modify. apply wp_bind, wp_get.
  set (g4 := upd_header _ g3).
  assert (Hh4 : header g4 = {| pkt_type := nth 0 pkt 0;
                               relay_cnt := u8 (nth 1 pkt 0 + 1) |})
    by (unfold g4; cbn; rewrite Hh3; reflexivity).
  assert (Hl4 : payload_len g4 = u8 (pkt_len - 2)) by exact Hl3.
  assert (Hcap4 : R_cap g g4 []) by exact Hcap'.
  clearbody g4. clear Hcap' Hh3 Hl3 Hs3 Hlen3.
  assert (Hmid : forall g5 (t5 : list effect),
            R_and R_len R_cap g4 g5 t5 ->
            header g5 = header g4 /\ payload_len g5 = payload_len g4 /\
            R_cap g g5 []).
  { intros g5 t5 ((Hk & _) & Hc5). injection Hk as _ _ _ _ Hh Hl.
    unfold R_cap in *. repeat split; congruence. }
  apply wp_bind. unfold wp at 1.
  match goal with
  | |- context [state_of (?m g4)] =>
    assert (Hblk : R_and R_len R_cap g4 (state_of (m g4)) []);
      [| revert Hblk; generalize (state_of (m g4)) as g5;
         generalize (trace_of (m g4)) as t5; intros t5 g5 Hblk ]
  end.
  { destruct (_ || _).
    - split; [unfold R_len | unfold R_cap]; repeat split.
    - destruct (bind_run (glossy_stop cfg hw) (fun _ => ret tt) g4) as [-> _].
      cbn [ret state_of fst snd].
      split.
      + destruct (glossy_stop_len cfg hw g4) as (Hk & _).
        unfold R_len. repeat split. exact Hk.
      + apply (glossy_stop_cap cfg hw g4). }
  apply Hmid in Hblk. destruct Hblk as (Hh5 & Hl5 & Hcap5).
  rewrite Hh4 in Hh5. rewrite Hl4 in Hl5. clear Hmid Hh4 Hl4 Hcap4.
  assert (Hmid : forall g' g6 (t6 : list effect),
            header g' = {| pkt_type := nth 0 pkt 0;
                           relay_cnt := u8 (nth 1 pkt 0 + 1) |} ->
            payload_len g' = u8 (pkt_len - 2) -> R_cap g g' [] ->
            R_cap g' g6 t6 -> header g6 = header g' ->
            payload_len g6 = payload_len g' ->
            header g6 = {| pkt_type := nth 0 pkt 0;
                           relay_cnt := u8 (nth 1 pkt 0 + 1) |} /\
            payload_len g6 = u8 (pkt_len - 2) /\ R_cap g g6 []).
  { intros g' g6 t6 A B C D E F. unfold R_cap in *. repeat split; congruence. }
  apply (wp_bind_keeps (R_and R_len R_cap));
    [ solve [keeps_all ltac:(unfold R_and, R_len, R_cap; cbn; repeat split)] |].
  intros ? g6 t6 ((Hk6 & _) & Hc6). injection Hk6 as _ _ _ _ Hh6 Hl6.
  destruct (Hmid g5 g6 t6 Hh5 Hl5 Hcap5 Hc6 Hh6 Hl6) as (Hh6' & Hl6' & Hcap6).
  clear Hh5 Hl5 Hcap5 Hc6 Hh6 Hl6.
  apply wp_bind, wp_modify. apply wp_bind, wp_get.
  set (g7 := set_n_rx _ g6).
  assert (Hh7 : header g7 = {| pkt_type := nth 0 pkt 0;
                               relay_cnt := u8 (nth 1 pkt 0 + 1) |})
    by exact Hh6'.
  assert (Hl7 : payload_len g7 = u8 (pkt_len - 2)) by exact Hl6'.
  assert (Hcap7 : R_cap g g7 []) by exact Hcap6.
  clearbody g7. clear Hh6' Hl6' Hcap6.
  apply wp_bind. unfold wp at 1.
  match goal with
  | |- context [state_of (?m g7)] =>
    assert (Hblk : header (state_of (m g7)) = header g7 /\
                   payload_len (state_of (m g7)) = payload_len g7 /\
                   R_cap g7 (state_of (m g7)) []);
      [| revert Hblk; generalize (state_of (m g7)) as g8;
         generalize (trace_of (m g7)) as t8; intros t8 g8 Hblk ]
  end.
  { destruct (_ && _); repeat split. }
  destruct Hblk as (Hh8 & Hl8 & Hc8).
  destruct (Hmid g7 g8 [] Hh7 Hl7 Hcap7 Hc8 Hh8 Hl8) as (Hh & Hl & Hcap).
  clear Hmid Hh7 Hl7 Hcap7 Hc8 Hh8 Hl8.
  apply wp_bind, wp_get.
  injection Hcap as Hrx Hupd. rewrite Hnew in Hupd.
  assert (Hs : truthy (WITH_SYNC g8) = true).
  { apply truthy_true. unfold WITH_SYNC. rewrite Hh. exact Hsync. }
  assert (Hlen : GLOSSY_HEADER_LEN cfg g8 = 2).
  { unfold GLOSSY_HEADER_LEN. rewrite Hs. reflexivity. }
  rewrite Hs, Hupd, Hlen, Hh, Hl, Hrx.
  cbn [when Z.eqb relay_cnt].
  assert (Hrc : u8 (u8 (nth 1 pkt 0 + 1) - 1) = nth 1 pkt 0 mod 256).
  { unfold u8. rewrite Zminus_mod_idemp_l. f_equal. lia. }
  assert (Hpl : u8 (2 + u8 (pkt_len - 2)) = pkt_len mod 256).
  { unfold u8. rewrite Zplus_mod_idemp_r. f_equal. lia. }
  rewrite Hrc, Hpl.
  unfold wp, P, update_t_ref, add_T_slot_measurement. unfold_m.
  crunch; repeat split.
Qed.

Lemma first_reception_captures_reference_witness :
  relay_cnt_t_ref
    (state_of (glossy_rx_ended cc430 hw0 200 (world_pkt 0 3) 7
                 receiver_started)) = 3.
Proof.
  destruct (first_reception_captures_reference cc430 hw0 200 (world_pkt 0 3) 7
              receiver_started
              ltac:(vm_compute; reflexivity) ltac:(vm_compute; discriminate)
              ltac:(reflexivity)) as (_ & _ & H & _).
  exact H.
Defined.

Lemma R_ref_same cfg hw g g' t :
  active g' = active g -> ref_of g' = ref_of g -> t_ref g' = t_ref g ->
  R_ref cfg hw g g' t.
Proof.
  intros Ha Hr Ht. split; [left; exact Ha |]. intros _.
  split; [exact Hr |]. split; [intros _; exact Ht |].
  intros H. contradiction.
Qed.

#[local] Instance R_ref_frame cfg hw : Frame (R_ref cfg hw).
Proof.
  split.
  - intros g. apply R_ref_same; reflexivity.
  - intros g1 g2 g3 t1 t2 (A1 & H1) (A2 & H2). split.
    + destruct A1 as [A1 | A1]; destruct A2 as [A2 | A2]; try (right; exact A2).
      * left. congruence.
      * right. congruence.
    + intros Hu. destruct (H1 Hu) as (R1 & S1 & E1).
      assert (Hu2 : t_ref_updated g2 <> 0).
      { unfold ref_of in R1. injection R1 as -> _ _. exact Hu. }
      destruct (H2 Hu2) as (R2 & S2 & E2).
      split; [congruence |].
      destruct (Z.eq_dec (active g2) (active g1)) as [E12 | N12].
      * split.
        -- intros E13. rewrite S2, S1; [reflexivity | exact E12 | congruence].
        -- intros N13. destruct E2 as (gs & Hs1 & Hs2 & Hs3 & Hs4);
             [congruence |].
           exists gs. rewrite <- (S1 E12). repeat split; congruence.
      * assert (Z2 : active g2 = 0) by (destruct A1; [contradiction | assumption]).
        assert (Z3 : active g3 = active g2)
          by (destruct A2; [assumption | congruence]).
        split.
        -- intros E13. exfalso. apply N12. congruence.
        -- intros _. destruct (E1 N12) as (gs & Hs1 & Hs2 & Hs3 & Hs4).
           exists gs. rewrite (S2 Z3). repeat split; assumption.
Qed.

Ltac ref_side := apply R_ref_same; reflexivity.

Lemma glossy_stop_ref_fields cfg hw g :
  active g <> 0 ->
  active (state_of (glossy_stop cfg hw g)) = 0 /\
  ref_of (state_of (glossy_stop cfg hw g)) = ref_of g.
Proof.
  intros Ha. apply truthy_true in Ha.
  unfold glossy_stop, ref_of. unfold_m. rewrite Ha.
  crunch; split; reflexivity.
Qed.

Lemma glossy_stop_ref cfg hw : keeps (R_ref cfg hw) (glossy_stop cfg hw).
Proof.
  intros g. destruct (Z.eq_dec (active g) 0) as [Ha | Ha].
  - rewrite glossy_stop_inactive by exact Ha. apply R_ref_same; reflexivity.
  - destruct (glossy_stop_ref_fields cfg hw g Ha) as (H0 & Hr).
    split; [right; exact H0 |]. intros _. split; [exact Hr |]. split.
    + intros E. rewrite H0 in E. symmetry in E. contradiction.
    + intros _. exists g. repeat split. exact Ha.
Qed.

(** The synchronisation parts of [glossy_rx_ended] and [glossy_tx_ended]
    capture a reference only when none has been captured. *)
Lemma when_new_ref cfg hw (m : M unit) g0 g :
  t_ref_updated g = t_ref_updated g0 ->
  (forall g1, active (state_of (m g1)) = active g1) ->
  R_ref cfg hw g (state_of (when (t_ref_updated g0 =? 0) m g))
    (trace_of (when (t_ref_updated g0 =? 0) m g)).
Proof.
  intros Hu Ha. destruct (t_ref_updated g0 =? 0) eqn:E.
  - apply Z.eqb_eq in E. unfold when. split; [left; apply Ha |].
    intros H. rewrite Hu, E in H. contradiction.
  - apply R_ref_same; reflexivity.
Qed.

Lemma R_ref_trace cfg hw g g' t t' : R_ref cfg hw g g' t -> R_ref cfg hw g g' t'.
Proof. exact (fun H => H). Qed.

Lemma glossy_rx_ended_ref cfg hw t pkt len :
  keeps (R_ref cfg hw) (glossy_rx_ended cfg hw t pkt len).
Proof.
  unfold glossy_rx_ended, process_glossy_header, count_rx_fail,
    glossy_rx_failed.
  do 3 (apply keeps_bind; [solve [keeps_all ref_side] | intros ?]).
  apply keeps_bind; [solve [keeps_all ref_side] | intros ok].
  apply keeps_if; [| solve [keeps_all ref_side]].
  apply keeps_bind; [apply keeps_get | intros g1]. cbv zeta.
  apply keeps_bind; [solve [keeps_all ref_side] | intros ?].
  apply keeps_bind; [apply keeps_get | intros g2].
  apply keeps_bind; [| intros ?].
  { apply keeps_if; [solve [keeps_all ref_side] |].
    apply keeps_bind; [apply glossy_stop_ref | intros ?; apply keeps_ret]. }
  apply keeps_bind; [solve [keeps_all ref_side] | intros ?].
  apply keeps_bind; [solve [keeps_all ref_side] | intros ?].
  apply keeps_bind; [apply keeps_get | intros g3].
  apply keeps_bind; [solve [keeps_all ref_side] | intros ?].
  intros g.
  match goal with
  | |- R_ref _ _ g (state_of (?m g)) _ =>
    change (wp m (fun _ g' t => R_ref cfg hw g g' t) g)
  end.
  apply wp_bind, wp_get.
  destruct (truthy (WITH_SYNC g)); [| apply (frame_refl (R := R_ref cfg hw))].
  cbn [when].
  apply wp_bind, wp_modify. apply wp_bind. unfold wp at 1.
  match goal with
  | |- context [state_of (when _ ?m ?g1)] =>
    pose proof (when_new_ref cfg hw m g g1 eq_refl (fun _ => eq_refl)) as H1;
      revert H1; generalize (state_of (when (t_ref_updated g =? 0) m g1)) as gs;
      generalize (trace_of (when (t_ref_updated g =? 0) m g1)) as ts;
      intros ts gs H1
  end.
  apply wp_bind, wp_get.
  apply (wp_keeps (R_ref cfg hw));
    [ unfold add_T_slot_measurement; solve [keeps_all ref_side] |].
  intros ? g3' t3 H2. apply (R_ref_trace _ _ _ _ ([] ++ ts ++ t3)).
  eapply (frame_trans (R := R_ref cfg hw));
    [| eapply (frame_trans (R := R_ref cfg hw)); [exact H1 | exact H2]].
  ref_side.
Qed.

Lemma glossy_tx_ended_ref cfg hw t :
  keeps (R_ref cfg hw) (glossy_tx_ended cfg hw t).
Proof.
  intros g0.
  change (wp (glossy_tx_ended cfg hw t) (fun _ g' t => R_ref cfg hw g0 g' t) g0).
  unfold glossy_tx_ended.
  apply wp_bind, wp_modify. apply wp_bind, wp_get.
  set (g := set_t_tx_stop t g0).
  assert (H0 : R_ref cfg hw g0 g []) by ref_side. clearbody g.
  apply wp_bind. unfold wp at 1.
  match goal with
  | |- context [state_of (when (truthy (WITH_SYNC g)) ?m g)] =>
    assert (H1 : R_ref cfg hw g
                   (state_of (when (truthy (WITH_SYNC g)) m g)) []);
      [| revert H1;
         generalize (state_of (when (truthy (WITH_SYNC g)) m g)) as g2;
         generalize (trace_of (when (truthy (WITH_SYNC g)) m g)) as t2;
         intros t2 g2 H1 ]
  end.
  { destruct (truthy (WITH_SYNC g));
      [| apply (frame_refl (R := R_ref cfg hw))].
    cbn [when].
    match goal with
    | |- R_ref _ _ g (state_of (?m g)) _ =>
      change (wp m (fun _ g' t => R_ref cfg hw g g' []) g)
    end.
    apply wp_bind, wp_modify. apply wp_bind. unfold wp at 1.
    match goal with
    | |- context [state_of (when _ ?m ?g1)] =>
      pose proof (when_new_ref cfg hw m g g1 eq_refl (fun _ => eq_refl)) as H1;
        revert H1;
        generalize (state_of (when (t_ref_updated g =? 0) m g1)) as g2;
        generalize (trace_of (when (t_ref_updated g =? 0) m g1)) as t2;
        intros t2 g2 H1
    end.
    apply wp_bind, wp_get.
    apply (wp_keeps (R_ref cfg hw));
      [ unfold add_T_slot_measurement; solve [keeps_all ref_side] |].
    intros ? g3 t3 H2. apply (R_ref_trace _ _ _ _ ([] ++ t2 ++ t3)).
    eapply (frame_trans (R := R_ref cfg hw));
      [| eapply (frame_trans (R := R_ref cfg hw)); [exact H1 | exact H2]].
    ref_side. }
  apply (wp_keeps (R_ref cfg hw)).
  { apply keeps_bind; [solve [keeps_all ref_side] | intros ?].
    apply keeps_bind; [apply keeps_get | intros g3].
    apply keeps_if.
    - apply keeps_bind; [apply glossy_stop_ref | intros ?; apply keeps_ret].
    - unfold schedule_timeout. solve [keeps_all ref_side]. }
  intros ? g3 t3 H2. apply (R_ref_trace _ _ _ _ ([] ++ t2 ++ t3)).
  eapply (frame_trans (R := R_ref cfg hw)); [exact H0 |].
  eapply (frame_trans (R := R_ref cfg hw));
    [apply (R_ref_trace _ _ _ _ []); exact H1 |].
  exact H2.
Qed.

Lemma step_ref cfg hw e : keeps (R_ref cfg hw) (step cfg hw e).
Proof.
  destruct e; cbn [step].
  - unfold glossy_rx_started. keeps_all ref_side.
  - unfold glossy_tx_started. keeps_all ref_side.
  - unfold glossy_header_received, process_glossy_header, count_rx_fail,
      glossy_rx_failed. keeps_all ref_side.
  - apply glossy_rx_ended_ref.
  - apply glossy_tx_ended_ref.
  - unfold glossy_rx_failed. keeps_all ref_side.
  - unfold glossy_rx_tx_error. keeps_all ref_side.
  - unfold timeout_expired. keeps_all ref_side.
  - apply keeps_bind; [apply glossy_stop_ref | intros ?; apply keeps_ret].
Qed.

Lemma run_ref cfg hw evs : keeps (R_ref cfg hw) (run cfg hw evs).
Proof.
  induction evs as [| e evs IH]; cbn [run].
  - apply keeps_ret.
  - apply keeps_bind; [apply step_ref | intros ?; exact IH].
Qed.

(** X16. A time reference, once captured, is kept.  Whatever calls follow,
    [t_ref_updated], [relay_cnt_t_ref] and the slot estimate are unchanged.
    [t_ref] is unchanged by every sequence of calls that leaves the activity
    flag as it was: on an active flood as long as it is active, and on a
    stopped flood always.  A sequence that changes the flag has switched the
    flood off, and [t_ref] is then the one [glossy_stop] computes from an
    active state that still had the captured reference: nothing but that
    adjustment moves it. *)
Theorem reference_kept_once_captured cfg hw evs g :
  t_ref_updated g <> 0 ->
  let g' := state_of (run cfg hw evs g) in
  t_ref_updated g' = t_ref_updated g /\
  relay_cnt_t_ref g' = relay_cnt_t_ref g /\
  T_slot_estimated g' = T_slot_estimated g /\
  (active g' = active g -> t_ref g' = t_ref g) /\
  (active g' <> active g ->
   active g' = 0 /\
   exists gs, active gs <> 0 /\ ref_of gs = ref_of g /\ t_ref gs = t_ref g /\
              t_ref g' = t_ref (state_of (glossy_stop cfg hw gs))).
Proof.
  intros Hu. cbv zeta. destruct (run_ref cfg hw evs g) as (Ha & H).
  destruct (H Hu) as (Hr & Hs & He). unfold ref_of in Hr.
  injection Hr as H1 H2 H3.
  split; [exact H1 |]. split; [exact H2 |]. split; [exact H3 |].
  split; [exact Hs |]. intros Hn. split; [| exact (He Hn)].
  destruct Ha as [Ha | Ha]; [contradiction | exact Ha].
Qed.

Lemma reference_kept_once_captured_witness :
  t_ref (state_of (run cc430 hw0
                     [ev_tx_started 777; ev_rx_started 800; ev_tx_ended 900]
                     measured_stopped))
  = 95499.
Proof.
  destruct (reference_kept_once_captured cc430 hw0
              [ev_tx_started 777; ev_rx_started 800; ev_tx_ended 900]
              measured_stopped ltac:(vm_compute; discriminate))
    as (_ & _ & _ & H & _).
  rewrite H; vm_compute; reflexivity.
Defined.
